(** * sm-model: the remote-variable pipeline of [ee_parser.py] and [preprocessing.py]

    A shallow embedding of the Python code that fetches remotely sensed
    variables for a point, puts them on a daily calendar, derives indices and
    merges them with the ground measurements of every site.

    - [Py]: exceptions, printed lines and the monad the embedded functions
      run in (a log of printed lines and either a raised exception or a value);
    - [Pandas]: the part of pandas the code calls: column-major frames indexed
      by integers (calendar days), boolean selection, [reindex], [merge],
      [concat] and linear [interpolate];
    - [EeParser]: [ee_to_df], [dry_days], [add_vegetation_index] and
      [assemble_variables] of [ee_parser.py];
    - [Preprocessing]: [compile_data] of [preprocessing.py].

    Numbers are IEEE binary64 values (Rocq's primitive floats), so that a
    missing value is the NaN pandas uses and comparisons and divisions behave
    as they do in Python. *)

From Stdlib Require Import ZArith String List Bool Lia Sorted Permutation.
From Stdlib Require Import Floats Numbers.Cyclic.Int63.Uint63.
From Equations Require Import Equations.
Import ListNotations.

Set Implicit Arguments.
Set Warnings "-inexact-float".

(* ===================================================================== *)
(** * Python: exceptions, printed lines, the execution monad              *)
(* ===================================================================== *)

Module Py.

(** The exception classes the code raises or names in an [except]. *)
Inductive exn : Type :=
| KeyError | AttributeError | TypeError | UnboundLocalError
| ValueError | TimeoutError | EEException.

Definition exn_eqb (a b : exn) : bool :=
  match a, b with
  | KeyError, KeyError | AttributeError, AttributeError
  | TypeError, TypeError | UnboundLocalError, UnboundLocalError
  | ValueError, ValueError | TimeoutError, TimeoutError
  | EEException, EEException => true
  | _, _ => false
  end.

(** The lines the code prints, one constructor per [print] call. *)
Inductive event : Type :=
| NoBandsInCollections (bands : list string)
    (* print(f'    No bands in collections: {bands}') *)
| TimedOutOnVariable (variable : string)
    (* print('    Connection timed out on variable: VV') *)
| NoVariablesSpecified
    (* print('No variables specified.') *)
| ExtractingData
    (* print('Extracting data from Earth Engine...') *)
| StationProgress (station : string) (i_start i_end : nat).
    (* print(f'  Station {station} ({i_start} of {i_end})') *)

(** A computation prints lines and then either raises or returns. *)
Definition M (A : Type) : Type := (list event * (exn + A))%type.

Definition ret {A} (a : A) : M A := ([], inr a).
Definition raise {A} (e : exn) : M A := ([], inl e).
Definition print (ev : event) : M unit := ([ev], inr tt).

Definition bind {A B} (m : M A) (k : A -> M B) : M B :=
  match m with
  | (out, inl e) => (out, inl e)
  | (out, inr a) => let (out', r) := k a in (out ++ out', r)
  end.

(** [try: m  except: handler] (a bare [except] catches everything). *)
Definition try_except {A} (m : M A) (handler : exn -> M A) : M A :=
  match m with
  | (out, inl e) => let (out', r) := handler e in (out ++ out', r)
  | (out, inr a) => (out, inr a)
  end.

(** [try: m  except (E1, E2, ...): handler]. *)
Definition try_except_only {A} (classes : list exn) (m : M A)
    (handler : exn -> M A) : M A :=
  try_except m
    (fun e => if existsb (exn_eqb e) classes then handler e else raise e).

(** A plain function that can raise, run inside [M]. *)
Definition lift {A} (r : exn + A) : M A := ([], r).

Definition printed {A} (m : M A) : list event := fst m.
Definition outcome {A} (m : M A) : exn + A := snd m.

(** [d[key]] on a dictionary entry that may be absent. *)
Definition getitem {A} (entry : option A) : M A :=
  match entry with
  | Some a => ret a
  | None => raise KeyError
  end.

(** [functools.reduce(f, xs)] with no initial value. *)
Definition reduce {A} (f : A -> A -> A) (xs : list A) : M A :=
  match xs with
  | [] => raise TypeError
  | x :: rest => ret (fold_left f rest x)
  end.

(** [~b] on a Python [bool]: the bitwise complement of the integer
    [0] or [1], that is [-b - 1]. *)
Definition invert (b : bool) : Z := (- (if b then 1 else 0) - 1)%Z.

(** Truth value of an integer in an [if]. *)
Definition truthy (z : Z) : bool := negb (z =? 0)%Z.

(** [list.remove(x)]: drops the first occurrence ([ValueError] when there
    is none; the caller below tests membership first). *)
Fixpoint list_remove (x : string) (l : list string) : list string :=
  match l with
  | [] => []
  | y :: rest => if String.eqb x y then rest else y :: list_remove x rest
  end.

Definition contains (x : string) (l : list string) : bool :=
  existsb (String.eqb x) l.

End Py.

Declare Scope py_scope.
Delimit Scope py_scope with py.
Notation "x <- m ;; k" := (Py.bind m (fun x => k))
  (at level 100, m at next level, right associativity) : py_scope.
Notation "m ;;; k" := (Py.bind m (fun _ => k))
  (at level 100, right associativity) : py_scope.

(* ===================================================================== *)
(** * pandas: frames, selection, reindexing, joins, interpolation         *)
(* ===================================================================== *)

Module Pandas.

(** The value pandas puts where there is no data. *)
Class Missing (A : Type) : Type := NA : A.

#[export] Instance Missing_float : Missing float := nan.

(** A cell of a frame with mixed columns (numbers and site names). *)
Inductive cell : Type :=
| Num (x : float)
| Str (s : string).

#[export] Instance Missing_cell : Missing cell := Num nan.

Definition cell_eqb_str (c : cell) (s : string) : bool :=
  match c with
  | Str t => String.eqb t s
  | Num _ => false
  end.

(** A frame is stored by column, as pandas stores it; the row labels are
    integers: calendar days (days since the epoch) for a date index. *)
Record DataFrame (A : Type) : Type := mkDF {
  index : list Z;
  cols : list (string * list A)
}.

Arguments mkDF {A} index cols.

Section Frames.
Context {A : Type} `{Missing A}.

Definition nrows (df : DataFrame A) : nat := length (index df).
Definition columns (df : DataFrame A) : list string := map fst (cols df).

(** Every column has one value per row. *)
Definition well_formed (df : DataFrame A) : Prop :=
  Forall (fun c => length (snd c) = nrows df) (cols df).

(** [pd.DataFrame(columns=names)]: the named columns and no row. A frame
    here is its labels and its values: the dtype of a column ([object] for
    the columns of this frame, [float64] for a column [pd.to_numeric] made)
    is not part of it. *)
Definition empty_frame (names : list string) : DataFrame A :=
  mkDF [] (map (fun n => (n, [])) names).

Fixpoint lookup_col (name : string) (cs : list (string * list A))
    : option (list A) :=
  match cs with
  | [] => None
  | (n, c) :: rest => if String.eqb n name then Some c else lookup_col name rest
  end.

(** [df[name]] *)
Definition getcol (df : DataFrame A) (name : string) : Py.M (list A) :=
  Py.getitem (lookup_col name (cols df)).

Fixpoint assign_col (name : string) (vals : list A)
    (cs : list (string * list A)) : list (string * list A) :=
  match cs with
  | [] => [(name, vals)]
  | (n, c) :: rest =>
      if String.eqb n name then (n, vals) :: rest
      else (n, c) :: assign_col name vals rest
  end.

(** [df[name] = vals]: replaces the column or appends it last. *)
Definition setcol (df : DataFrame A) (name : string) (vals : list A)
    : DataFrame A :=
  mkDF (index df) (assign_col name vals (cols df)).

(** [df[name] = scalar] *)
Definition setcol_scalar (df : DataFrame A) (name : string) (v : A)
    : DataFrame A :=
  setcol df name (repeat v (nrows df)).

(** [df.drop(names, axis=1)]: [KeyError] when a label is not a column. *)
Definition drop (df : DataFrame A) (names : list string)
    : Py.M (DataFrame A) :=
  if forallb (fun n => Py.contains n (columns df)) names
  then Py.ret (mkDF (index df)
                 (filter (fun c => negb (Py.contains (fst c) names)) (cols df)))
  else Py.raise Py.KeyError.

(** [df.rename(columns={old : new})]: labels that are absent are ignored. *)
Definition rename (df : DataFrame A) (old new : string) : DataFrame A :=
  mkDF (index df)
    (map (fun c => (if String.eqb (fst c) old then new else fst c, snd c))
         (cols df)).

(** [df[[n1, n2, ...]]]: the listed columns in that order, [KeyError] when
    one is absent. *)
Fixpoint select_columns (df : DataFrame A) (names : list string)
    : Py.M (list (string * list A)) :=
  match names with
  | [] => Py.ret []
  | n :: rest =>
      Py.bind (getcol df n)
        (fun c => Py.bind (select_columns df rest)
                    (fun cs => Py.ret ((n, c) :: cs)))
  end.

(** Selection by a boolean mask, [df[mask]]. *)
Fixpoint select {B : Type} (mask : list bool) (l : list B) : list B :=
  match mask, l with
  | b :: mask', x :: l' => if b then x :: select mask' l' else select mask' l'
  | _, _ => []
  end.

Definition loc_mask (df : DataFrame A) (mask : list bool) : DataFrame A :=
  mkDF (select mask (index df))
       (map (fun c => (fst c, select mask (snd c))) (cols df)).

(** [index.duplicated()]: true at every occurrence of a label after its
    first. *)
Fixpoint duplicated_from (seen : list Z) (idx : list Z) : list bool :=
  match idx with
  | [] => []
  | d :: rest =>
      existsb (Z.eqb d) seen :: duplicated_from (d :: seen) rest
  end.

Definition duplicated (idx : list Z) : list bool := duplicated_from [] idx.

Definition has_duplicates (idx : list Z) : bool :=
  existsb (fun b => b) (duplicated idx).

(** [pd.date_range(start, end, freq='D')]: every day from [start_date] to
    [end_date], both included; empty when the end is before the start. *)
Definition date_range (start_date end_date : Z) : list Z :=
  map (fun i => (start_date + Z.of_nat i)%Z)
      (seq 0 (Z.to_nat (end_date - start_date + 1))).

(** Position of the first occurrence of a label. *)
Fixpoint position (d : Z) (idx : list Z) : option nat :=
  match idx with
  | [] => None
  | x :: rest => if (x =? d)%Z then Some 0 else option_map S (position d rest)
  end.

(** [index.get_indexer(target)]: for every target label the position it
    has in [idx], if any. *)
Definition get_indexer (idx target : list Z) : list (option nat) :=
  map (fun d => position d idx) target.

(** [take] with an indexer: the missing value where there is no position. *)
Definition take (indexer : list (option nat)) (col : list A) : list A :=
  map (fun p => match p with
                | Some i => nth i col NA
                | None => NA
                end) indexer.

(** [df.reindex(target)]: refused on an index with repeated labels. *)
Definition reindex (df : DataFrame A) (target : list Z)
    : Py.M (DataFrame A) :=
  if has_duplicates (index df) then Py.raise Py.ValueError
  else Py.ret (mkDF target
         (map (fun c => (fst c, take (get_indexer (index df) target) (snd c)))
              (cols df))).

(** All positions of a label, in order. *)
Fixpoint positions_from (i : nat) (d : Z) (idx : list Z) : list nat :=
  match idx with
  | [] => []
  | x :: rest =>
      if (x =? d)%Z then i :: positions_from (S i) d rest
      else positions_from (S i) d rest
  end.

Definition positions (d : Z) (idx : list Z) : list nat := positions_from 0 d idx.

(** One row of a join: its label and the rows of the two sides it is
    made of. *)
Definition join_row : Type := (Z * (option nat * option nat))%type.

(** [how='left']: every left row in order, once per matching right row,
    or once with nothing on the right. *)
Definition left_join (l r : list Z) : list join_row :=
  flat_map
    (fun id : nat * Z =>
       match positions (snd id) r with
       | [] => [(snd id, (Some (fst id), None))]
       | js => map (fun j => (snd id, (Some (fst id), Some j))) js
       end)
    (combine (seq 0 (length l)) l).

(** Insertion in an increasing list without repetition. *)
Fixpoint insert_label (d : Z) (l : list Z) : list Z :=
  match l with
  | [] => [d]
  | x :: rest =>
      if (d <? x)%Z then d :: l
      else if (d =? x)%Z then l
      else x :: insert_label d rest
  end.

(** The labels of both sides, sorted, each once. *)
Definition union_labels (l r : list Z) : list Z :=
  fold_right insert_label [] (l ++ r).

(** [how='outer']: the labels of either side, sorted; for a label on both
    sides every pair of matching rows. *)
Definition outer_join (l r : list Z) : list join_row :=
  flat_map
    (fun d =>
       match positions d l, positions d r with
       | [], js => map (fun j => (d, (None, Some j))) js
       | ps, [] => map (fun i => (d, (Some i, None))) ps
       | ps, js =>
           flat_map (fun i => map (fun j => (d, (Some i, Some j))) js) ps
       end)
    (union_labels l r).

Inductive how : Type := Left | Outer.

Definition join (h : how) (l r : list Z) : list join_row :=
  match h with
  | Left => left_join l r
  | Outer => outer_join l r
  end.

(** [pd.merge(left, right, how=h)] on the row labels. A column name the
    two frames share gets the suffixes [_x] (left) and [_y] (right). *)
Definition merge (h : how) (left right : DataFrame A) : DataFrame A :=
  let j := join h (index left) (index right) in
  let left_indexer := map (fun r : join_row => fst (snd r)) j in
  let right_indexer := map (fun r : join_row => snd (snd r)) j in
  mkDF (map fst j)
    (map (fun c =>
            (if Py.contains (fst c) (columns right)
             then (fst c ++ "_x")%string else fst c,
             take left_indexer (snd c))) (cols left)
     ++
     map (fun c =>
            (if Py.contains (fst c) (columns left)
             then (fst c ++ "_y")%string else fst c,
             take right_indexer (snd c))) (cols right)).

Definition col_or_missing (df : DataFrame A) (name : string) : list A :=
  match lookup_col name (cols df) with
  | Some c => c
  | None => repeat NA (nrows df)
  end.

(** [pd.concat([a, b])]: the rows of [a] then those of [b], over the
    columns of [a] followed by the columns only [b] has. *)
Definition concat (a b : DataFrame A) : DataFrame A :=
  let names :=
    columns a ++ filter (fun n => negb (Py.contains n (columns a))) (columns b) in
  mkDF (index a ++ index b)
       (map (fun n => (n, col_or_missing a n ++ col_or_missing b n)) names).

Definition map_values {B : Type} (f : A -> B) (df : DataFrame A)
    : DataFrame B :=
  mkDF (index df) (map (fun c => (fst c, map f (snd c))) (cols df)).

End Frames.

(** ** [Series.interpolate(method='linear', limit=n, limit_direction='both')]

    With [method='linear'] pandas ignores the row labels and treats the
    rows as equally spaced. A missing value is left alone when every value
    within [limit] rows of it, on both sides, is missing too; any other
    missing value gets [numpy.interp] of its position over the available
    points, which holds the first and the last available value constant
    outside them. A series with nothing available is returned as it is. *)

Definition isna (x : float) : bool := is_nan x.

(** An integer as a float ([astype('float')], or a position used as an
    abscissa). *)
Definition float_of_Z (z : Z) : float := of_uint63 (Uint63.of_Z z).

Definition float_of_nat (n : nat) : float := float_of_Z (Z.of_nat n).

Definition enumerate {B : Type} (l : list B) : list (nat * B) :=
  combine (seq 0 (length l)) l.

Definition valid_points (col : list float) : list (nat * float) :=
  filter (fun p => negb (isna (snd p))) (enumerate col).

(** [invalid[max(0, x - limit) : x + limit + 1].all()] *)
Definition window_all_missing (col : list float) (x limit : nat) : bool :=
  forallb isna (firstn (x + limit + 1 - (x - limit)) (skipn (x - limit) col)).

(** [numpy.interp(x, xp, fp)] over the points [(xp, fp)], given in
    increasing order of position. *)
Fixpoint np_interp (x : nat) (points : list (nat * float)) : float :=
  match points with
  | [] => nan
  | (x0, y0) :: rest =>
      if (x <=? x0)%nat then y0
      else match rest with
           | [] => y0
           | (x1, y1) :: _ =>
               if (x <? x1)%nat
               then ((y1 - y0) / (float_of_nat x1 - float_of_nat x0))
                    * (float_of_nat x - float_of_nat x0) + y0
               else np_interp x rest
           end
  end%float.

Definition interpolate (limit : nat) (col : list float) : list float :=
  match valid_points col with
  | [] => col
  | points =>
      map (fun p : nat * float =>
             if isna (snd p) && negb (window_all_missing col (fst p) limit)
             then np_interp (fst p) points
             else snd p)
          (enumerate col)
  end.

End Pandas.

(* ===================================================================== *)
(** * ee_parser.py                                                        *)
(* ===================================================================== *)

Module EeParser.
Import Py Pandas.
Local Open Scope py_scope.
Local Open Scope string_scope.

(** One row of the table [getRegion(...).getInfo()] answers: its time
    stamp in milliseconds and one value per selected band, [None] where the
    service has no value. The [id], [longitude] and [latitude] columns,
    which the code drops unread, are left out. *)
Record response_row : Type := mkRow {
  time : Z;
  values : list (option float)
}.

(** An image collection, seen from the client: the answer to
    [select(bands).getRegion(Point(lon, lat), 50).getInfo()], which either
    raises or returns rows. *)
Definition collection : Type :=
  list string -> float -> float -> exn + list response_row.

(** Modelled from the spec: the watchdog behind the [@timeout(600)]
    decorator of [ee_to_df], whose module [timeout] is not among the
    sources. It "interrupts the in-flight call after the configured duration
    and raises a timeout condition": a request that exceeds the limit is a
    request that raises [TimeoutError]. Durations are not modelled. *)
Definition interrupted_request : exn + list response_row :=
  inl TimeoutError.

(** The imagery service: [ee.ImageCollection(name).filterDate(start, end)]
    with the filters, selections and mask bands the code adds, which are
    evaluated by the service. *)
Definition service : Type := string -> Z -> Z -> collection.

(** [pd.to_numeric(..., errors='coerce')] *)
Definition to_numeric (v : option float) : float :=
  match v with
  | Some x => x
  | None => nan
  end.

(** [pd.to_datetime(time, unit='ms').dt.date], as a day number. *)
Definition to_date (ms : Z) : Z := (ms / 86400000)%Z.

(** The column of the band at [position] after the [for band in bands]
    loop: made numeric, then interpolated over the returned rows when
    [int_limit > 0]. [df[band].interpolate(..., inplace=True)] is taken to
    write the column of [df], as it does in the pandas the code was written
    for; [df.drop_duplicates(keep='first')] in that loop discards its result
    and changes nothing. *)
Definition band_column (arr : list response_row) (int_limit : Z)
    (position : nat) : list float :=
  let column := map (fun r => to_numeric (nth position (values r) None)) arr in
  if (0 <? int_limit)%Z then interpolate (Z.to_nat int_limit) column
  else column.

(** The frame at the end of the [try] block: indexed by the date of each
    returned row, with the band columns. *)
Definition parse_rows (arr : list response_row) (int_limit : Z)
    (bands : list string) : DataFrame float :=
  mkDF (map (fun r => to_date (time r)) arr)
       (map (fun pb : nat * string =>
               (snd pb, band_column arr int_limit (fst pb)))
            (enumerate bands)).

Definition ee_to_df (ee_arr : collection) (lon lat : float) (buffer : Z)
    (int_limit : Z) (bands : list string) (start_date end_date : Z)
    : M (DataFrame float) :=
  df <- try_except
          (arr <- lift (ee_arr bands lon lat) ;;
           ret (parse_rows arr int_limit bands))
          (fun _ =>
             print (NoBandsInCollections bands) ;;;
             ret (empty_frame bands)) ;;
  let df := loc_mask df (map negb (duplicated (index df))) in
  df <- reindex df (date_range start_date end_date) ;;
  ret df.

(** The list [dry_streak] that the loop of [dry_days] builds, with the
    value [counter] has when the loop reaches [values]. *)
Fixpoint dry_streak_from (counter : Z) (values : list float) : list Z :=
  match values with
  | [] => []
  | value :: rest =>
      if (0 <? value)%float then 0%Z :: dry_streak_from 0%Z rest
      else (counter + 1)%Z :: dry_streak_from (counter + 1)%Z rest
  end.

Definition dry_streak (values : list float) : list Z :=
  dry_streak_from 0%Z values.

Definition dry_days (df : DataFrame float) : M (DataFrame float) :=
  P <- getcol df "P" ;;
  ret (setcol df "DD" (map float_of_Z (dry_streak P))).

Fixpoint map2 {B C D : Type} (f : B -> C -> D) (l : list B) (l' : list C)
    : list D :=
  match l, l' with
  | x :: r, y :: r' => f x y :: map2 f r r'
  | _, _ => []
  end.

Definition normalized_difference (a b : float) : float :=
  ((a - b) / (a + b))%float.

Definition add_vegetation_index (df : DataFrame float) (name : string)
    (band_1 band_2 : string) (interpolate_index : bool)
    : M (DataFrame float) :=
  b1 <- getcol df band_1 ;;
  b2 <- getcol df band_2 ;;
  let df := setcol df name (map2 normalized_difference b1 b2) in
  if interpolate_index then
    column <- getcol df name ;;
    ret (setcol df name (interpolate 30 column))
  else ret df.

(** The options of [settings.yml] that the code reads. *)
Record settings : Type := mkSettings {
  variables : list string;
  overwrite_variables : bool;
  interpolate_index : bool
}.

Section Assemble.
Variable ee : service.

(** MODIS daily land surface temperature: scaled Kelvin to Celsius. *)
Definition land_surface_temperature (lon lat : float)
    (start_date end_date : Z) : M (DataFrame float) :=
  let modis := ee "MODIS/006/MOD11A1" start_date end_date in
  lst <- ee_to_df modis lon lat 5 5 ["LST_Day_1km"] start_date end_date ;;
  let lst := map_values (fun x => x * 0.02 - 273.15)%float lst in
  ret (rename lst "LST_Day_1km" "TS").

(** One Sentinel-1 polarisation, in decibel. *)
Definition backscatter (polarisation : string) (lon lat : float)
    (start_date end_date : Z) : M (DataFrame float) :=
  let s1 := ee "COPERNICUS/S1_GRD" start_date end_date in
  ee_to_df s1 lon lat 5 0 [polarisation] start_date end_date.

(** A Sentinel-2 index from two bands of the masked collection. *)
Definition optical_index (name band_1 band_2 : string)
    (fetched : list string) (lon lat : float) (start_date end_date : Z)
    (s : settings) : M (DataFrame float) :=
  let s2 := ee "COPERNICUS/S2_SR" start_date end_date in
  df <- ee_to_df s2 lon lat 5 0 fetched start_date end_date ;;
  df <- add_vegetation_index df name band_1 band_2 (interpolate_index s) ;;
  drop df fetched.

(** ERA5 air temperature: Kelvin to Celsius. *)
Definition air_temperature (lon lat : float) (start_date end_date : Z)
    : M (DataFrame float) :=
  let era5 := ee "ECMWF/ERA5/DAILY" start_date end_date in
  era5_t <- ee_to_df era5 lon lat 5 0 ["mean_2m_air_temperature"]
              start_date end_date ;;
  column <- getcol era5_t "mean_2m_air_temperature" ;;
  let era5_t :=
    setcol era5_t "mean_2m_air_temperature"
      (map (fun x => x - 273.15)%float column) in
  ret (rename era5_t "mean_2m_air_temperature" "TA").

(** ERA5 precipitation: metres to millimetres, with the dry-day streak. *)
Definition precipitation (lon lat : float) (start_date end_date : Z)
    : M (DataFrame float) :=
  let era5 := ee "ECMWF/ERA5/DAILY" start_date end_date in
  era5_p <- ee_to_df era5 lon lat 5 0 ["total_precipitation"]
              start_date end_date ;;
  column <- getcol era5_p "total_precipitation" ;;
  let era5_p :=
    setcol era5_p "total_precipitation"
      (map (fun x => x * 1000)%float column) in
  let era5_p := rename era5_p "total_precipitation" "P" in
  dry_days era5_p.

(** [if name in variable_list: ...; dataframes.append(table)] *)
Definition append_if (requested : bool) (table : M (DataFrame float))
    (dataframes : list (DataFrame float)) : M (list (DataFrame float)) :=
  if requested then
    df <- table ;; ret (dataframes ++ [df])%list
  else ret dataframes.

(** The same inside [try: ... except: print(...)]. *)
Definition append_or_warn (requested : bool) (variable : string)
    (table : M (DataFrame float)) (dataframes : list (DataFrame float))
    : M (list (DataFrame float)) :=
  if requested then
    try_except (df <- table ;; ret (dataframes ++ [df])%list)
      (fun _ => print (TimedOutOnVariable variable) ;;; ret dataframes)
  else ret dataframes.

(** The list [dataframes] when the code reaches [# Merge dataframes]. *)
Definition fetch_variables (lon lat : float) (start_date end_date : Z)
    (variable_list : list string) (s : settings)
    : M (list (DataFrame float)) :=
  let requested v := contains v variable_list in
  dataframes <-
    append_if (requested "TS")
      (land_surface_temperature lon lat start_date end_date) [] ;;
  dataframes <-
    append_or_warn (requested "VV") "VV"
      (backscatter "VV" lon lat start_date end_date) dataframes ;;
  dataframes <-
    append_or_warn (requested "VH") "VH"
      (backscatter "VH" lon lat start_date end_date) dataframes ;;
  dataframes <-
    append_if (requested "NDVI")
      (optical_index "NDVI" "B8" "B4" ["B4"; "B8"]
         lon lat start_date end_date s) dataframes ;;
  dataframes <-
    append_if (requested "NDWI")
      (optical_index "NDWI" "B8A" "B11" ["B8A"; "B11"]
         lon lat start_date end_date s) dataframes ;;
  dataframes <-
    append_if (requested "TA")
      (air_temperature lon lat start_date end_date) dataframes ;;
  append_if (requested "P")
    (precipitation lon lat start_date end_date) dataframes.

(** The local variable [df] of [assemble_variables] is bound only when
    the merge succeeds; [return df] on an unbound local raises
    [UnboundLocalError]. *)
Definition assemble_variables (lon lat : float) (start_date end_date : Z)
    (variable_list : list string) (point_id : string) (s : settings)
    : M (DataFrame cell) :=
  dataframes <- fetch_variables lon lat start_date end_date variable_list s ;;
  df <- try_except_only [TypeError]
          (df <- reduce (merge Outer) dataframes ;;
           ret (Some (setcol_scalar (map_values Num df) "SITE" (Str point_id))))
          (fun _ => print NoVariablesSpecified ;;; ret None) ;;
  match df with
  | Some df => ret df
  | None => raise UnboundLocalError
  end.

End Assemble.

End EeParser.

(* ===================================================================== *)
(** * preprocessing.py                                                    *)
(* ===================================================================== *)

Module Preprocessing.
Import Py Pandas EeParser.
Local Open Scope py_scope.
Local Open Scope string_scope.

(** An entry of the site registry ([..._siteinfo.yml]): a dictionary in
    which each of the four keys may be absent. *)
Record site_meta : Type := mkMeta {
  longitude : option float;
  latitude : option float;
  start_date : option Z;
  end_date : option Z
}.

(** The registry, in the order the file lists the sites. *)
Definition registry : Type := list (string * site_meta).

(** [for var in settings['variables']: if ...: variable_list.remove(var)]
    where [variable_list] IS [settings['variables']]: the list iterator
    keeps a position [i] into the list that the body shortens. *)
Equations? remove_present (present : list string)
    (variable_list : list string) (i : nat) : list string
    by wf (List.length variable_list - i) lt :=
  remove_present present variable_list i
    with lt_dec i (List.length variable_list) => {
    | left _ =>
        let var := nth i variable_list "" in
        if contains var present && contains var variable_list
        then remove_present present (list_remove var variable_list) (S i)
        else remove_present present variable_list (S i);
    | right _ => variable_list }.
Proof.
  - assert (Hle : forall x l,
               (List.length (list_remove x l) <= List.length l)%nat).
    { intros x l0. induction l0 as [|y r IH]; simpl; [lia|].
      destruct (String.eqb x y); simpl; lia. }
    specialize (Hle var variable_list). lia.
  - lia.
Qed.

(** Lines 34-38: the guard is [~settings['overwrite_variables']]. *)
Definition variables_to_fetch (s : settings) (df_sm : DataFrame cell)
    : list string :=
  if truthy (invert (overwrite_variables s))
  then remove_present (columns df_sm) (variables s) 0
  else variables s.

Section Compile.
Variable ee : service.

(** Lines 48-56: the body of the [try] up to the per-site table
    [df_subset]. *)
Definition site_table (s : settings) (df_sm_subset : DataFrame cell)
    (variable_list : list string) (station : string) (meta : site_meta)
    : M (DataFrame cell) :=
  lon <- getitem (longitude meta) ;;
  lat <- getitem (latitude meta) ;;
  first_day <- getitem (start_date meta) ;;
  last_day <- getitem (end_date meta) ;;
  df_ee <- assemble_variables ee lon lat first_day last_day
             variable_list station s ;;
  first_day <- getitem (start_date meta) ;;
  last_day <- getitem (end_date meta) ;;
  df_ee <- reindex df_ee (date_range first_day last_day) ;;
  let df_subset := merge Left df_ee df_sm_subset in
  let df_subset := rename df_subset "SITE_x" "SITE" in
  drop df_subset ["SITE_y"].

(** [df_sm[df_sm['SITE'] == station]] *)
Definition ground_rows (df_sm : DataFrame cell) (station : string)
    : M (DataFrame cell) :=
  site <- getcol df_sm "SITE" ;;
  ret (loc_mask df_sm (map (fun c => cell_eqb_str c station) site)).

(** One turn of [for station in site_info]. *)
Definition station_step (s : settings) (df_sm : DataFrame cell)
    (variable_list : list string) (i_start i_end : nat)
    (station : string) (meta : site_meta) (df : DataFrame cell)
    : M (DataFrame cell) :=
  print (StationProgress station i_start i_end) ;;;
  df_sm_subset <- ground_rows df_sm station ;;
  try_except_only [KeyError; AttributeError]
    (df_subset <- site_table s df_sm_subset variable_list station meta ;;
     ret (concat df df_subset))
    (fun _ => ret df).

Fixpoint stations_loop (s : settings) (df_sm : DataFrame cell)
    (variable_list : list string) (i_start i_end : nat)
    (site_info : registry) (df : DataFrame cell) : M (DataFrame cell) :=
  match site_info with
  | [] => ret df
  | (station, meta) :: rest =>
      df <- station_step s df_sm variable_list i_start i_end station meta df ;;
      stations_loop s df_sm variable_list (S i_start) i_end rest df
  end.

(** Lines 65-68, over the variables list as the removal loop left it. *)
Definition output_columns (variables : list string) : list string :=
  fold_left
    (fun base var => if contains var base then base else (base ++ [var])%list)
    variables ["SITE"; "SWC"; "TS"; "TA"; "P"].

(** [compile_data], from the ground table and the registry it reads to
    the table it writes. *)
Definition compile_data (s : settings) (df_sm : DataFrame cell)
    (site_info : registry) : M (DataFrame cell) :=
  let variable_list := variables_to_fetch s df_sm in
  print ExtractingData ;;;
  df <- stations_loop s df_sm variable_list 1 (List.length site_info)
          site_info (mkDF [] []) ;;
  selected <- select_columns df (output_columns variable_list) ;;
  ret (mkDF (index df) selected).

End Compile.

End Preprocessing.

(* ===================================================================== *)
(** * Notions used in the statements                                      *)
(* ===================================================================== *)

Import Py Pandas EeParser Preprocessing.
Local Open Scope string_scope.
Unset Implicit Arguments.

(** ** Total correctness in the execution monad *)

(** [returns m P]: the computation [m] does not raise, and its value
    satisfies [P]. *)
Definition returns {A} (m : M A) (P : A -> Prop) : Prop :=
  exists a, outcome m = inr a /\ P a.

(** ** The steps of [ee_to_df] *)

(** The frame [df] of [ee_to_df] after the [try] statement. *)
Definition fetched (response : exn + list response_row) (int_limit : Z)
    (bands : list string) : DataFrame float :=
  match response with
  | inr arr => parse_rows arr int_limit bands
  | inl _ => empty_frame bands
  end.

(** The frame after the last two statements: first occurrences of each
    date, put on the calendar. *)
Definition on_calendar {A} `{Missing A} (df : DataFrame A)
    (calendar : list Z) : DataFrame A :=
  let kept := loc_mask df (map negb (duplicated (index df))) in
  mkDF calendar
    (map (fun c => (fst c, take (get_indexer (index kept) calendar) (snd c)))
         (cols kept)).

(** The dates of the returned rows. *)
Definition row_dates (arr : list response_row) : list Z :=
  map (fun r => to_date (time r)) arr.

(** The values of the band at [position] in the returned rows, made
    numeric. *)
Definition row_values (arr : list response_row) (position : nat) : list float :=
  map (fun r => to_numeric (nth position (values r) None)) arr.

(** The days for which the service returned a row (none when the request
    failed). *)
Definition observed_days (response : exn + list response_row) : list Z :=
  match response with
  | inr arr => row_dates arr
  | inl _ => []
  end.

(** A column of the fetched rows, as [ee_to_df] puts it on the calendar. *)
Definition daily_column (idx : list Z) (col : list float) (calendar : list Z)
    : list float :=
  take (get_indexer (select (map negb (duplicated idx)) idx) calendar)
       (select (map negb (duplicated idx)) col).

(** ** The steps of [assemble_variables] and [compile_data] *)

(** The names [assemble_variables] knows how to fetch. *)
Definition fetchable : list string :=
  ["TS"; "VV"; "VH"; "NDVI"; "NDWI"; "TA"; "P"].

(** The list of variables asks for at least one of them. *)
Definition requests_a_table (variable_list : list string) : Prop :=
  exists v, In v fetchable /\ In v variable_list.

(** The list [dataframes] after one more [if ...: ... append]: its tables
    are on the calendar, and there is one more when the variable is
    requested. *)
Definition grown (calendar : list Z) (requested : bool)
    (dataframes l : list (DataFrame float)) : Prop :=
  Forall (fun df => index df = calendar) l /\
  List.length l = (List.length dataframes + Nat.b2n requested)%nat.

(** A registry entry without its longitude, latitude, start date or end
    date. *)
Definition lacks_a_key (meta : site_meta) : Prop :=
  longitude meta = None \/ latitude meta = None \/
  start_date meta = None \/ end_date meta = None.

(** ** Inputs of the examples *)

(** The table of the example of the specification: [band_a = [2, 4]],
    [band_b = [1, 1]]. *)
Definition two_bands : DataFrame float :=
  mkDF [0; 1]%Z [("band_a", [2; 4]%float); ("band_b", [1; 1]%float)].

(** A collection whose request fails. *)
Definition failing_collection : collection :=
  fun _ _ _ => inl EEException.

(** A collection whose request exceeds the time limit. *)
Definition slow_collection : collection :=
  fun _ _ _ => interrupted_request.

(** A collection that answers two rows of one band value, dated day [0] and
    day [2] (time stamps in milliseconds). *)
Definition rows_on_days_0_and_2 : collection :=
  fun _ _ _ => inr [mkRow 0 [Some 1%float]; mkRow 172800000 [Some 3%float]].

(** A collection that answers two rows of two band values, dated day [0]
    and day [2]. *)
Definition two_band_rows : collection :=
  fun _ _ _ =>
    inr [mkRow 0 [Some 1%float; Some 3%float];
         mkRow 172800000 [Some 3%float; Some 5%float]].

(** A ground table in the ICOS layout, with two days of one site. *)
Definition icos_ground : DataFrame cell :=
  mkDF [0; 1]%Z
    [("SITE", [Str "DE-Hai"; Str "DE-Hai"]);
     ("SWC", [Num 31.5; Num 30]);
     ("TS", [Num 8; Num 9]);
     ("TA", [Num 11; Num 12.5]);
     ("P", [Num 0; Num 2])].

(** A registry entry with its four keys, for the days [0] and [1]. *)
Definition complete_meta : site_meta :=
  mkMeta (Some 10.45%float) (Some 51.08%float) (Some 0%Z) (Some 1%Z).

(** A registry whose first site has no longitude. *)
Definition registry_with_malformed_site : registry :=
  [("DE-Bad", mkMeta None (Some 51.08%float) (Some 0%Z) (Some 1%Z));
   ("DE-Hai", complete_meta)].

(** ** Notions of the further properties *)

(** What the removal loop of [compile_data] leaves of a list without
    repeats: a variable that is a ground column is removed, and the variable
    after it is passed over (kept, whether it is a ground column or not). *)
Fixpoint skip_remove (present : list string) (l : list string) : list string :=
  match l with
  | [] => []
  | x :: rest =>
      if contains x present then
        match rest with
        | [] => []
        | y :: rest' => y :: skip_remove present rest'
        end
      else x :: skip_remove present rest
  end.

(** The body of the loop over the requested variables at the end of
    [compile_data]: [if var not in base_variables: base_variables.append(var)]. *)
Definition add_column (base : list string) (var : string) : list string :=
  if contains var base then base else (base ++ [var])%list.

(** The first columns of the written table. *)
Definition base_variables : list string := ["SITE"; "SWC"; "TS"; "TA"; "P"].

(** A table of [assemble_variables] with its columns [names], on the
    calendar of the site, one value per day in each column. *)
Definition daily_table (calendar : list Z) (names : list string)
    (df : DataFrame float) : Prop :=
  index df = calendar /\ columns df = names /\ well_formed df.

(** The columns of the tables [assemble_variables] appends to
    [dataframes], table by table, in the order of its [if] statements. *)
Definition expected_columns (variable_list : list string)
    : list (list string) :=
  ((if contains "TS" variable_list then [["TS"]] else [])
   ++ (if contains "VV" variable_list then [["VV"]] else [])
   ++ (if contains "VH" variable_list then [["VH"]] else [])
   ++ (if contains "NDVI" variable_list then [["NDVI"]] else [])
   ++ (if contains "NDWI" variable_list then [["NDWI"]] else [])
   ++ (if contains "TA" variable_list then [["TA"]] else [])
   ++ (if contains "P" variable_list then [["P"; "DD"]] else []))%list.

(** The list [dataframes] after one more [if ...: ... append] of a table
    with the columns [names]. *)
Definition appended (calendar : list Z) (requested : bool)
    (names : list string) (dataframes l : list (DataFrame float)) : Prop :=
  Forall (fun df => index df = calendar /\ well_formed df) l /\
  map columns l
  = (map columns dataframes ++ (if requested then [names] else []))%list.

(** A numeric column as a column of cells ([df['SITE'] = point_id] makes
    the frame one of mixed columns). *)
Definition as_cells (c : string * list float) : string * list cell :=
  (fst c, map Num (snd c)).

(** The column of the band at position [band] of a request when the [try]
    block of [ee_to_df] ends (no row after a failed request). *)
Definition fetched_column (response : exn + list response_row)
    (int_limit : Z) (band : nat) : list float :=
  match response with
  | inr arr => band_column arr int_limit band
  | inl _ => []
  end.

(** The value of that band on a day: that of the first returned row dated
    that day, missing when there is none. *)
Definition daily_value (response : exn + list response_row)
    (int_limit : Z) (band : nat) (day : Z) : float :=
  match position day (observed_days response) with
  | Some p => nth p (fetched_column response int_limit band) nan
  | None => nan
  end.

(** The dates of the ground-truth rows of a site,
    [df_sm[df_sm['SITE'] == station].index]. *)
Definition ground_index (df_sm : DataFrame cell) (station : string) : list Z :=
  match lookup_col "SITE" (cols df_sm) with
  | Some site =>
      select (map (fun c => cell_eqb_str c station) site) (index df_sm)
  | None => []
  end.

(** The row labels a site of the registry adds to the compiled table: none
    when its entry lacks a key; otherwise the days of its range, each as
    often as the ground truth of the site has it, and once when it has not. *)
Definition site_labels (df_sm : DataFrame cell) (site : string * site_meta)
    : list Z :=
  match longitude (snd site), latitude (snd site),
        start_date (snd site), end_date (snd site) with
  | Some _, Some _, Some first_day, Some last_day =>
      flat_map
        (fun d =>
           repeat d
             (Nat.max 1 (count_occ Z.eq_dec (ground_index df_sm (fst site)) d)))
        (date_range first_day last_day)
  | _, _, _, _ => []
  end.

(** The requests of [assemble_variables] whose values reach its table as
    the service gave them, without a filling of the days between: the
    variable, the collection and the bands asked for. The two optical
    indices are among them when [interpolate_index] is unset. *)
Definition gap_requests (s : settings)
    : list (string * (string * list string)) :=
  ([("TS", ("MODIS/006/MOD11A1", ["LST_Day_1km"]));
    ("VV", ("COPERNICUS/S1_GRD", ["VV"]));
    ("VH", ("COPERNICUS/S1_GRD", ["VH"]));
    ("TA", ("ECMWF/ERA5/DAILY", ["mean_2m_air_temperature"]));
    ("P", ("ECMWF/ERA5/DAILY", ["total_precipitation"]))]
   ++ (if interpolate_index s then []
       else [("NDVI", ("COPERNICUS/S2_SR", ["B4"; "B8"]));
             ("NDWI", ("COPERNICUS/S2_SR", ["B8A"; "B11"]))]))%list.

(** The table [assemble_variables] returns, from the tables it fetched:
    their columns side by side on the calendar, then the [SITE] column. *)
Definition assembled (calendar : list Z) (tables : list (DataFrame float))
    (point_id : string) : DataFrame cell :=
  mkDF calendar
    (map as_cells (List.concat (map (@cols float) tables))
     ++ [("SITE", repeat (Str point_id) (List.length calendar))])%list.


(* ===================================================================== *)
(** * Properties                                                          *)
(* ===================================================================== *)

(** ** The execution monad *)

Section MonadFacts.
Context {A B : Type}.

Lemma outcome_bind (m : M A) (k : A -> M B) :
  outcome (Py.bind m k) =
  match outcome m with
  | inl e => inl e
  | inr a => outcome (k a)
  end.
Proof.
  destruct m as [out [e | a]]; simpl; [reflexivity|].
  destruct (k a); reflexivity.
Qed.

Lemma bind_ret (a : A) (k : A -> M B) : Py.bind (ret a) k = k a.
Proof. unfold Py.bind, ret. destruct (k a); reflexivity. Qed.

End MonadFacts.

Lemma returns_ret {A} (a : A) (P : A -> Prop) : P a -> returns (ret a) P.
Proof. intros HP. exists a. split; [reflexivity | exact HP]. Qed.

Lemma returns_bind {A B} (m : M A) (k : A -> M B) (P : A -> Prop)
    (Q : B -> Prop) :
  returns m P -> (forall a, P a -> returns (k a) Q) ->
  returns (Py.bind m k) Q.
Proof.
  intros (a & Hm & HP) Hk. destruct (Hk a HP) as (b & Hb & HQ).
  exists b. split; [|exact HQ]. rewrite outcome_bind, Hm. exact Hb.
Qed.

Lemma returns_weaken {A} (m : M A) (P Q : A -> Prop) :
  returns m P -> (forall a, P a -> Q a) -> returns m Q.
Proof. intros (a & Hm & HP) HPQ. exists a. auto. Qed.

Lemma returns_try_except {A} (m : M A) (h : exn -> M A) (P : A -> Prop) :
  returns m P -> returns (try_except m h) P.
Proof.
  intros (a & Hm & HP). exists a. split; [|exact HP].
  destruct m as [out [e | a']]; simpl in *; [discriminate | exact Hm].
Qed.

(** ** Columns of a frame *)

Section ColumnFacts.
Context {A : Type} `{Missing A}.

Lemma contains_In (x : string) (l : list string) :
  contains x l = true <-> In x l.
Proof.
  unfold contains. rewrite existsb_exists. split.
  - intros (y & Hy & He). apply String.eqb_eq in He. subst. exact Hy.
  - intros Hx. exists x. split; [exact Hx | apply String.eqb_refl].
Qed.

Lemma lookup_assign_same (name : string) (vals : list A) cs :
  lookup_col name (assign_col name vals cs) = Some vals.
Proof.
  induction cs as [|[n c] rest IH]; simpl.
  - rewrite String.eqb_refl. reflexivity.
  - destruct (String.eqb n name) eqn:E; simpl; rewrite E; auto.
Qed.

Lemma lookup_col_columns (name : string) (cs : list (string * list A)) :
  In name (map fst cs) -> exists c, lookup_col name cs = Some c.
Proof.
  induction cs as [|[n c] rest IH]; simpl; [tauto|].
  intros [-> | Hin].
  - rewrite String.eqb_refl. eauto.
  - destruct (String.eqb n name); eauto.
Qed.

Lemma columns_assign (name : string) (vals : list A) cs :
  map fst (assign_col name vals cs) =
  if contains name (map fst cs) then map fst cs
  else (map fst cs ++ [name])%list.
Proof.
  unfold contains.
  induction cs as [|[n c] rest IH]; simpl; [reflexivity|].
  rewrite (String.eqb_sym name n).
  destruct (String.eqb n name); simpl; [reflexivity|].
  rewrite IH. destruct (existsb (String.eqb name) (map fst rest)); reflexivity.
Qed.

End ColumnFacts.

(** ** The dry-day streak *)

Lemma dry_streak_from_length (values : list float) (counter : Z) :
  List.length (dry_streak_from counter values) = List.length values.
Proof.
  revert counter. induction values as [|v rest IH]; intros counter; simpl.
  - reflexivity.
  - destruct (0 <? v)%float; simpl; rewrite IH; reflexivity.
Qed.

(** The value the loop appends on day [i] is [0] on a wet day, and on any
    other day one more than the value of the day before ([counter] before
    the first row). *)
Lemma dry_streak_from_nth (values : list float) (counter : Z) (i : nat) :
  (i < List.length values)%nat ->
  nth i (dry_streak_from counter values) 0%Z =
  if (0 <? nth i values nan)%float then 0%Z
  else (match i with
        | O => counter
        | S j => nth j (dry_streak_from counter values) 0%Z
        end + 1)%Z.
Proof.
  revert counter i.
  induction values as [|v rest IH]; intros counter i Hi; simpl in Hi; [lia|].
  destruct i as [|j].
  - simpl. destruct (0 <? v)%float; reflexivity.
  - assert (Hj : (j < List.length rest)%nat) by lia.
    simpl. destruct (0 <? v)%float; simpl; rewrite (IH _ j Hj);
      destruct j; reflexivity.
Qed.

(** C6. [dry_days] returns the frame with a column [DD] that has one value
    per value of [P]: [0] on a day with precipitation above [0], otherwise
    the value of the day before plus [1] ([0] before the first row, so a
    first dry day gives [1]); on the precipitation [0, 0, 5, 0, 0, 0] the
    streak is [1, 2, 0, 1, 2, 3]. *)
Theorem dry_days_streak (df : DataFrame float) (P : list float) :
  lookup_col "P" (cols df) = Some P ->
  (exists out,
      dry_days df = ([], inr out) /\
      index out = index df /\
      lookup_col "DD" (cols out) = Some (map float_of_Z (dry_streak P))) /\
  List.length (dry_streak P) = List.length P /\
  (forall i, (i < List.length P)%nat ->
     nth i (dry_streak P) 0%Z =
     if (0 <? nth i P nan)%float then 0%Z
     else (match i with
           | O => 0%Z
           | S j => nth j (dry_streak P) 0%Z
           end + 1)%Z) /\
  dry_days (mkDF [0; 1; 2; 3; 4; 5]%Z [("P", [0; 0; 5; 0; 0; 0]%float)]) =
  ([], inr (mkDF [0; 1; 2; 3; 4; 5]%Z
              [("P", [0; 0; 5; 0; 0; 0]%float);
               ("DD", [1; 2; 0; 1; 2; 3]%float)])).
Proof.
  intros HP. repeat split.
  - exists (setcol df "DD" (map float_of_Z (dry_streak P))).
    unfold dry_days, getcol. rewrite HP. simpl. repeat split.
    apply lookup_assign_same.
  - apply dry_streak_from_length.
  - intros i Hi. apply dry_streak_from_nth. exact Hi.
Qed.

Lemma dry_days_streak_witness :
  lookup_col "P" [("P", [0; nan; 5; 0]%float)] = Some [0; nan; 5; 0]%float /\
  List.length (dry_streak [0; nan; 5; 0]%float) = 4%nat.
Proof.
  split; [reflexivity|].
  exact (proj1 (proj2
    (dry_days_streak (mkDF [0; 1; 2; 3]%Z [("P", [0; nan; 5; 0]%float)])
       [0; nan; 5; 0]%float eq_refl))).
Defined.

(** ** The vegetation index *)

Lemma map2_length {B C D} (f : B -> C -> D) (l : list B) (l' : list C) :
  List.length (map2 f l l') = Nat.min (List.length l) (List.length l').
Proof.
  revert l'. induction l as [|x r IH]; intros [|y r']; simpl; auto.
Qed.

Lemma map2_nth {B C D} (f : B -> C -> D) (l : list B) (l' : list C)
    (i : nat) (b : B) (c : C) (d : D) :
  (i < List.length l)%nat -> (i < List.length l')%nat ->
  nth i (map2 f l l') d = f (nth i l b) (nth i l' c).
Proof.
  revert l' i. induction l as [|x r IH]; intros [|y r'] i Hl Hl';
    simpl in *; try lia.
  destruct i; [reflexivity | apply IH; lia].
Qed.

(** A value that is NaN is the one NaN of the model. *)
Lemma isna_nan (x : float) : isna x = true -> x = nan.
Proof.
  unfold isna, is_nan. rewrite FloatAxioms.eqb_spec. intros Hx.
  rewrite <- (SF2Prim_Prim2SF x).
  destruct (Prim2SF x) as [s | s | | s m e]; try reflexivity.
  - destruct s; discriminate.
  - destruct s; discriminate.
  - exfalso. revert Hx. unfold SFeqb, SFcompare.
    rewrite Z.compare_refl, Pos.compare_cont_refl. destruct s; discriminate.
Qed.

Lemma enumerate_length {B} (l : list B) :
  List.length (enumerate l) = List.length l.
Proof.
  unfold enumerate. rewrite length_combine, length_seq. apply Nat.min_id.
Qed.

Lemma enumerate_nth {B} (l : list B) (i : nat) (d : B) :
  (i < List.length l)%nat -> nth i (enumerate l) (O, d) = (i, nth i l d).
Proof.
  intros Hi. unfold enumerate. rewrite combine_nth by apply length_seq.
  rewrite seq_nth by exact Hi. reflexivity.
Qed.

Lemma interpolate_length (limit : nat) (col : list float) :
  List.length (interpolate limit col) = List.length col.
Proof.
  unfold interpolate. destruct (valid_points col); [reflexivity|].
  rewrite length_map. apply enumerate_length.
Qed.

(** Interpolation only writes where the value is missing. *)
Lemma interpolate_keeps_values (limit : nat) (col : list float) (i : nat) :
  isna (nth i col nan) = false ->
  nth i (interpolate limit col) nan = nth i col nan.
Proof.
  intros Hv. unfold interpolate. destruct (valid_points col); [reflexivity|].
  destruct (Nat.lt_ge_cases i (List.length col)) as [Hi | Hi].
  - set (f := fun p : nat * float => _).
    rewrite (nth_indep _ nan (f (O, nan)))
      by (rewrite length_map, enumerate_length; exact Hi).
    rewrite map_nth. rewrite enumerate_nth by exact Hi.
    unfold f. simpl. rewrite Hv. reflexivity.
  - rewrite (nth_overflow col) in Hv by exact Hi. discriminate.
Qed.

(** C7, as stated, fails: the second value of the example,
    [(4 - 1) / (4 + 1)], is not [0.75]. *)
Lemma vegetation_index_second_value_not_075 :
  ~ (exists out column,
       outcome (add_vegetation_index two_bands "NDVI" "band_a" "band_b" true)
       = inr out /\
       lookup_col "NDVI" (cols out) = Some column /\
       nth 1 column nan = 0.75%float).
Proof.
  intros (out & column & Hout & Hcol & Hv).
  vm_compute in Hout. injection Hout as <-.
  vm_compute in Hcol. injection Hcol as <-.
  apply (f_equal (fun x => (x =? 0.75)%float)) in Hv.
  vm_compute in Hv. discriminate.
Qed.

(** The rows [invalid[max(0, x - limit) : x + limit + 1]] pandas looks at
    around row [x]. *)
Lemma window_all_missing_rows (col : list float) (x limit : nat) :
  window_all_missing col x limit = true <->
  (forall j, (x - limit <= j)%nat -> (j <= x + limit)%nat ->
             (j < List.length col)%nat -> isna (nth j col nan) = true).
Proof.
  unfold window_all_missing. rewrite forallb_forall. split.
  - intros Hall j Hlo Hhi Hj. apply Hall.
    set (n := (x + limit + 1 - (x - limit))%nat).
    assert (Hnth : nth (j - (x - limit)) (firstn n (skipn (x - limit) col)) nan
                   = nth j col nan).
    { rewrite nth_firstn. destruct (Nat.ltb_spec (j - (x - limit)) n);
        [|unfold n in *; lia].
      rewrite nth_skipn. f_equal. lia. }
    rewrite <- Hnth. apply nth_In.
    rewrite length_firstn, length_skipn. unfold n. lia.
  - intros Hrows v Hin. apply (In_nth _ _ nan) in Hin.
    destruct Hin as (k & Hk & <-).
    rewrite length_firstn, length_skipn in Hk.
    rewrite nth_firstn.
    destruct (Nat.ltb_spec k (x + limit + 1 - (x - limit))); [|lia].
    rewrite nth_skipn. apply Hrows; lia.
Qed.

Lemma interpolate_nth (limit : nat) (col : list float) (i : nat) :
  (i < List.length col)%nat ->
  nth i (interpolate limit col) nan =
  if isna (nth i col nan) && negb (window_all_missing col i limit)
  then np_interp i (valid_points col)
  else nth i col nan.
Proof.
  intros Hi. unfold interpolate.
  destruct (valid_points col) as [|p points] eqn:Hpoints.
  - destruct (isna (nth i col nan)) eqn:Hna; [|reflexivity].
    destruct (window_all_missing col i limit); [reflexivity|].
    simpl. apply isna_nan. exact Hna.
  - set (f := fun q : nat * float => _).
    rewrite (nth_indep _ nan (f (O, nan)))
      by (rewrite length_map, enumerate_length; exact Hi).
    rewrite map_nth, enumerate_nth by exact Hi. reflexivity.
Qed.


(** C7, amended. [add_vegetation_index] returns the frame with a column
    [name] computed per row as [(band_1 - band_2) / (band_1 + band_2)]. With
    [interpolate_index] unset the column holds that quotient on every row.
    With it set (the default) the column holds the quotient wherever the
    quotient is a number, and a row whose quotient is missing is filled by
    the linear interpolation over the rows (limit [30], both directions):
    it stays missing when every quotient within [30] rows of it is missing,
    and is [numpy.interp] of its position over the rows that have a quotient
    when one within [30] rows has. On [band_a = [2, 4]], [band_b = [1, 1]]
    the column is [[1/3, 3/5]], that is [0.333...] and [0.6], under either
    setting; on [band_a = [2, NaN, 4]], [band_b = [1, NaN, 1]] it is
    [[0.333..., NaN, 0.6]] with the setting unset and
    [[0.333..., 0.4666..., 0.6]] with it set. *)
Theorem add_vegetation_index_rows (df : DataFrame float)
    (name band_1 band_2 : string) (flag : bool) (a b : list float) :
  lookup_col band_1 (cols df) = Some a ->
  lookup_col band_2 (cols df) = Some b ->
  (exists out column,
      add_vegetation_index df name band_1 band_2 flag = ([], inr out) /\
      index out = index df /\
      lookup_col name (cols out) = Some column /\
      List.length column = Nat.min (List.length a) (List.length b) /\
      column = (if flag then interpolate 30 (map2 normalized_difference a b)
                else map2 normalized_difference a b) /\
      forall i, (i < List.length column)%nat ->
        let quotient j :=
          ((nth j a nan - nth j b nan) / (nth j a nan + nth j b nan))%float in
        (flag = false \/ isna (quotient i) = false ->
         nth i column nan = quotient i) /\
        (flag = true -> isna (quotient i) = true ->
         ((forall j, (i - 30 <= j)%nat -> (j <= i + 30)%nat ->
                     (j < List.length column)%nat ->
                     isna (quotient j) = true) ->
          nth i column nan = nan) /\
         ((exists j, (i - 30 <= j)%nat /\ (j <= i + 30)%nat /\
                     (j < List.length column)%nat /\
                     isna (quotient j) = false) ->
          nth i column nan
          = np_interp i (valid_points (map2 normalized_difference a b))))) /\
  (forall interpolate_index,
      add_vegetation_index two_bands "NDVI" "band_a" "band_b" interpolate_index =
      ([], inr (mkDF [0; 1]%Z
                  [("band_a", [2; 4]%float); ("band_b", [1; 1]%float);
                   ("NDVI", [0.3333333333333333; 0.6]%float)]))) /\
  (forall interpolate_index,
      add_vegetation_index
        (mkDF [0; 1; 2]%Z
           [("band_a", [2; nan; 4]%float); ("band_b", [1; nan; 1]%float)])
        "NDVI" "band_a" "band_b" interpolate_index =
      ([], inr (mkDF [0; 1; 2]%Z
                  [("band_a", [2; nan; 4]%float); ("band_b", [1; nan; 1]%float);
                   ("NDVI",
                    [0.3333333333333333;
                     if interpolate_index then 0.4666666666666667 else nan;
                     0.6]%float)]))).
Proof.
  intros Ha Hb. split; [|split; intros []; reflexivity].
  unfold add_vegetation_index, getcol. rewrite Ha, Hb.
  unfold getitem. rewrite !bind_ret.
  set (column := map2 normalized_difference a b).
  assert (Hlen : List.length column = Nat.min (List.length a) (List.length b))
    by apply map2_length.
  assert (Hnth : forall i, (i < List.length column)%nat ->
            nth i column nan =
            ((nth i a nan - nth i b nan) / (nth i a nan + nth i b nan))%float).
  { intros i Hi. unfold column.
    rewrite (map2_nth _ a b i nan nan nan) by lia. reflexivity. }
  destruct flag.
  - unfold setcol at 1. cbn [cols]. rewrite lookup_assign_same, bind_ret.
    exists (setcol (setcol df name column) name (interpolate 30 column)),
      (interpolate 30 column).
    split; [reflexivity|]. split; [reflexivity|].
    split; [cbn [setcol cols]; apply lookup_assign_same|].
    split; [rewrite interpolate_length; exact Hlen|].
    split; [reflexivity|].
    intros i Hi. cbv zeta beta. rewrite interpolate_length in Hi.
    rewrite interpolate_nth by exact Hi. rewrite (Hnth i Hi). split.
    + intros [Hf | Hv]; [discriminate|]. rewrite Hv. reflexivity.
    + intros _ Hna. rewrite Hna. cbn [andb]. split.
      * intros Hall.
        assert (Hw : window_all_missing column i 30 = true).
        { apply window_all_missing_rows. intros j Hlo Hhi Hj.
          rewrite (Hnth j Hj). apply Hall; try assumption.
          rewrite interpolate_length. exact Hj. }
        rewrite Hw. cbn [negb]. apply isna_nan. exact Hna.
      * intros (j & Hlo & Hhi & Hj & Hv).
        rewrite interpolate_length in Hj.
        destruct (window_all_missing column i 30) eqn:Hw; [|reflexivity].
        exfalso. rewrite window_all_missing_rows in Hw.
        specialize (Hw j Hlo Hhi Hj). rewrite (Hnth j Hj) in Hw.
        rewrite Hv in Hw. discriminate.
  - exists (setcol df name column), column.
    split; [reflexivity|]. split; [reflexivity|].
    split; [cbn [setcol cols]; apply lookup_assign_same|].
    split; [exact Hlen|]. split; [reflexivity|].
    intros i Hi. cbv zeta beta. split.
    + intros _. apply Hnth. exact Hi.
    + intros Hf. discriminate.
Qed.

Lemma add_vegetation_index_rows_witness :
  lookup_col "B8"
    (cols (mkDF [0; 1; 2]%Z
             [("B4", [1; nan; 1]%float); ("B8", [2; nan; 4]%float)]))
  = Some [2; nan; 4]%float /\
  lookup_col "B4"
    (cols (mkDF [0; 1; 2]%Z
             [("B4", [1; nan; 1]%float); ("B8", [2; nan; 4]%float)]))
  = Some [1; nan; 1]%float /\
  exists out column,
    add_vegetation_index
      (mkDF [0; 1; 2]%Z [("B4", [1; nan; 1]%float); ("B8", [2; nan; 4]%float)])
      "NDVI" "B8" "B4" true = ([], inr out) /\
    lookup_col "NDVI" (cols out) = Some column /\
    column = [0.3333333333333333; 0.4666666666666667; 0.6]%float.
Proof.
  split; [reflexivity|]. split; [reflexivity|].
  destruct (proj1 (add_vegetation_index_rows
                     (mkDF [0; 1; 2]%Z
                        [("B4", [1; nan; 1]%float); ("B8", [2; nan; 4]%float)])
                     "NDVI" "B8" "B4" true [2; nan; 4]%float [1; nan; 1]%float
                     eq_refl eq_refl))
    as (out & column & Hrun & _ & Hcol & _ & Hvalues & _).
  exists out, column. split; [exact Hrun|]. split; [exact Hcol|].
  rewrite Hvalues. reflexivity.
Defined.

(** ** The list of variables to fetch *)

(** C5 is not what the code does. The guard [~settings['overwrite_variables']]
    is [-1] or [-2], both true, so the removal loop runs whatever the setting;
    and the loop removes from the list it iterates over, so it skips the
    variable after each one it removes. With [overwrite_variables] true the
    present variable [TS] is removed; with it false the present variable
    [TA] is kept. *)
Theorem overwrite_variables_not_honoured :
  (forall s df_sm,
      variables_to_fetch s df_sm
      = remove_present (columns df_sm) (variables s) 0) /\
  variables_to_fetch (mkSettings ["TS"] true true)
    (mkDF [] [("SITE", []); ("SWC", []); ("TS", []); ("TA", []); ("P", [])])
  = [] /\
  variables_to_fetch (mkSettings ["TS"; "TA"] false true)
    (mkDF [] [("SITE", []); ("SWC", []); ("TS", []); ("TA", []); ("P", [])])
  = ["TA"].
Proof.
  repeat split.
  intros s df_sm. unfold variables_to_fetch.
  destruct (overwrite_variables s); reflexivity.
Qed.

(** ** The daily calendar *)

Lemma nth_map_lt {B C} (f : B -> C) (l : list B) (i : nat) (b : B) (c : C) :
  (i < List.length l)%nat -> nth i (map f l) c = f (nth i l b).
Proof.
  revert i. induction l as [|x r IH]; intros i Hi; simpl in *; [lia|].
  destruct i; [reflexivity | apply IH; lia].
Qed.

Lemma date_range_length (start_date end_date : Z) :
  List.length (date_range start_date end_date)
  = Z.to_nat (end_date - start_date + 1).
Proof. unfold date_range. rewrite length_map, length_seq. reflexivity. Qed.

Lemma date_range_nth (start_date end_date : Z) (i : nat) :
  (i < List.length (date_range start_date end_date))%nat ->
  nth i (date_range start_date end_date) 0%Z = (start_date + Z.of_nat i)%Z.
Proof.
  rewrite date_range_length. intros Hi. unfold date_range.
  rewrite (nth_map_lt _ _ _ O) by (rewrite length_seq; exact Hi).
  rewrite seq_nth by exact Hi. reflexivity.
Qed.

Lemma date_range_In (start_date end_date d : Z) :
  In d (date_range start_date end_date) <-> (start_date <= d <= end_date)%Z.
Proof.
  unfold date_range. rewrite in_map_iff. split.
  - intros (i & <- & Hi). apply in_seq in Hi. lia.
  - intros Hd. exists (Z.to_nat (d - start_date)). split; [lia|].
    apply in_seq. lia.
Qed.

Lemma shifted_seq_sorted (start_date : Z) (n a : nat) :
  StronglySorted Z.lt (map (fun i => (start_date + Z.of_nat i)%Z) (seq a n)).
Proof.
  revert a. induction n as [|n IH]; intros a; simpl; constructor.
  - apply IH.
  - apply Forall_forall. intros d Hd. apply in_map_iff in Hd.
    destruct Hd as (i & <- & Hi). apply in_seq in Hi. lia.
Qed.

Lemma date_range_sorted (start_date end_date : Z) :
  StronglySorted Z.lt (date_range start_date end_date).
Proof. apply shifted_seq_sorted. Qed.

Lemma sorted_NoDup (l : list Z) : StronglySorted Z.lt l -> NoDup l.
Proof.
  induction 1 as [|x l Hs IH Hall]; constructor; [|exact IH].
  intros Hin. rewrite Forall_forall in Hall. specialize (Hall x Hin). lia.
Qed.

Lemma date_range_NoDup (start_date end_date : Z) :
  NoDup (date_range start_date end_date).
Proof. apply sorted_NoDup, date_range_sorted. Qed.

(** ** Repeated labels *)

Lemma existsb_eqb_In (d : Z) (l : list Z) :
  existsb (Z.eqb d) l = true <-> In d l.
Proof.
  rewrite existsb_exists. split.
  - intros (x & Hx & He). apply Z.eqb_eq in He. subst. exact Hx.
  - intros Hd. exists d. split; [exact Hd | apply Z.eqb_refl].
Qed.

(** With no label repeated and none seen before, nothing is marked. *)
Lemma duplicated_from_NoDup (seen idx : list Z) :
  NoDup idx -> (forall d, In d idx -> ~ In d seen) ->
  existsb (fun b => b) (duplicated_from seen idx) = false.
Proof.
  revert seen. induction idx as [|d rest IH]; intros seen Hnd Hseen; simpl.
  - reflexivity.
  - inversion Hnd as [|? ? Hd Hrest]; subst.
    destruct (existsb (Z.eqb d) seen) eqn:E.
    + apply existsb_eqb_In in E. exfalso. apply (Hseen d); simpl; auto.
    + simpl. apply IH; [exact Hrest|].
      intros x Hx [<- | Hin]; [contradiction|].
      apply (Hseen x); simpl; auto.
Qed.

Lemma has_duplicates_NoDup (idx : list Z) :
  NoDup idx -> has_duplicates idx = false.
Proof.
  intros Hnd. apply duplicated_from_NoDup; [exact Hnd | intros d _ []].
Qed.

(** What [df[~df.index.duplicated()]] keeps of the index: each label once,
    and exactly the labels of the index. *)
Lemma kept_labels (seen idx : list Z) :
  let kept := select (map negb (duplicated_from seen idx)) idx in
  NoDup kept /\ forall d, In d kept <-> In d idx /\ ~ In d seen.
Proof.
  revert seen. induction idx as [|x rest IH]; intros seen; simpl.
  - split; [constructor | intros d; tauto].
  - destruct (IH (x :: seen)) as [Hnd Hin].
    destruct (existsb (Z.eqb x) seen) eqn:E; simpl.
    + apply existsb_eqb_In in E. split; [exact Hnd|].
      intros d. rewrite Hin. simpl. split.
      * intros [Hd Hn]. split; [auto|]. intros Hs. apply Hn. auto.
      * intros [[<- | Hd] Hn]; [contradiction|]. split; [exact Hd|].
        intros [<- | Hs]; contradiction.
    + assert (Hx : ~ In x seen).
      { intros Hs. apply existsb_eqb_In in Hs. congruence. }
      split.
      * constructor; [|exact Hnd]. intros Hk. apply Hin in Hk.
        destruct Hk as [_ Hk]. apply Hk. left. reflexivity.
      * intros d. rewrite Hin. simpl. split.
        -- intros [<- | [Hd Hn]]; [auto|]. split; [auto|].
           intros Hs. apply Hn. auto.
        -- intros [[<- | Hd] Hn]; [auto|].
           destruct (Z.eq_dec x d) as [<- | Hne]; [auto|].
           right. split; [exact Hd|]. intros [Hs | Hs]; contradiction.
Qed.

Lemma kept_labels_NoDup (idx : list Z) :
  NoDup (select (map negb (duplicated idx)) idx).
Proof. apply (kept_labels [] idx). Qed.

Lemma kept_labels_In (idx : list Z) (d : Z) :
  In d (select (map negb (duplicated idx)) idx) <-> In d idx.
Proof.
  unfold duplicated. rewrite (proj2 (kept_labels [] idx) d). simpl. tauto.
Qed.

(** ** Positions, indexers and [take] *)

Lemma position_None (d : Z) (idx : list Z) :
  ~ In d idx -> position d idx = None.
Proof.
  induction idx as [|x rest IH]; simpl; [reflexivity|].
  intros Hn. destruct (Z.eqb_spec x d) as [-> | Hne]; [tauto|].
  rewrite IH by tauto. reflexivity.
Qed.

Section TakeFacts.
Context {A : Type} `{Missing A}.

Lemma take_length (indexer : list (option nat)) (col : list A) :
  List.length (take indexer col) = List.length indexer.
Proof. unfold take. apply length_map. Qed.

Lemma take_nth (indexer : list (option nat)) (col : list A) (i : nat) :
  (i < List.length indexer)%nat ->
  nth i (take indexer col) NA =
  match nth i indexer None with
  | Some p => nth p col NA
  | None => NA
  end.
Proof.
  intros Hi. unfold take. rewrite (nth_map_lt _ _ _ None) by exact Hi.
  reflexivity.
Qed.

Lemma get_indexer_nth (idx target : list Z) (i : nat) :
  (i < List.length target)%nat ->
  nth i (get_indexer idx target) None = position (nth i target 0%Z) idx.
Proof.
  intros Hi. unfold get_indexer. rewrite (nth_map_lt _ _ _ 0%Z) by exact Hi.
  reflexivity.
Qed.

(** [reindex] on an index without repeated labels returns the frame on the
    new labels. *)
Lemma reindex_NoDup (df : DataFrame A) (target : list Z) :
  NoDup (index df) ->
  reindex df target =
  ret (mkDF target
         (map (fun c => (fst c, take (get_indexer (index df) target) (snd c)))
              (cols df))).
Proof.
  intros Hnd. unfold reindex. rewrite has_duplicates_NoDup by exact Hnd.
  reflexivity.
Qed.

End TakeFacts.

(** ** The table [ee_to_df] returns *)

Lemma ee_to_df_eq (ee_arr : collection) (lon lat : float) (buffer int_limit : Z)
    (bands : list string) (start_date end_date : Z) :
  ee_to_df ee_arr lon lat buffer int_limit bands start_date end_date =
  (match ee_arr bands lon lat with
   | inl _ => [NoBandsInCollections bands]
   | inr _ => []
   end,
   inr (on_calendar (fetched (ee_arr bands lon lat) int_limit bands)
          (date_range start_date end_date))).
Proof.
  unfold ee_to_df, on_calendar, fetched.
  destruct (ee_arr bands lon lat) as [err | arr]; cbn -[date_range duplicated];
    (rewrite reindex_NoDup; [reflexivity | apply kept_labels_NoDup]).
Qed.

Lemma enumerate_snd {B} (l : list B) : map snd (enumerate l) = l.
Proof.
  unfold enumerate. generalize O.
  induction l as [|x r IH]; intros a; simpl; [reflexivity|].
  rewrite IH. reflexivity.
Qed.

Lemma fetched_columns (response : exn + list response_row) (int_limit : Z)
    (bands : list string) :
  columns (fetched response int_limit bands) = bands.
Proof.
  unfold columns, fetched, parse_rows, empty_frame.
  destruct response; cbn [cols]; rewrite map_map; simpl.
  - apply map_id.
  - apply enumerate_snd.
Qed.

Section OnCalendar.
Context {A : Type} `{Missing A}.

Lemma on_calendar_index (df : DataFrame A) (calendar : list Z) :
  index (on_calendar df calendar) = calendar.
Proof. reflexivity. Qed.

Lemma on_calendar_columns (df : DataFrame A) (calendar : list Z) :
  columns (on_calendar df calendar) = columns df.
Proof.
  unfold columns, on_calendar, loc_mask. cbn [cols]. rewrite !map_map.
  reflexivity.
Qed.

Lemma on_calendar_well_formed (df : DataFrame A) (calendar : list Z) :
  well_formed (on_calendar df calendar).
Proof.
  unfold well_formed, on_calendar, nrows. cbn [cols index].
  apply Forall_forall. intros c Hc. apply in_map_iff in Hc.
  destruct Hc as (c' & <- & _). cbn [snd].
  rewrite take_length. unfold get_indexer. apply length_map.
Qed.

(** The value a day gets is the value of the first row dated that day, and
    the missing value when no row is. *)
Lemma first_occurrence (seen idx : list Z) (col : list A) (d : Z) :
  ~ In d seen ->
  let mask := map negb (duplicated_from seen idx) in
  match position d (select mask idx) with
  | Some p => nth p (select mask col) NA
  | None => NA
  end =
  match position d idx with
  | Some p => nth p col NA
  | None => NA
  end.
Proof.
  revert seen col. induction idx as [|x rest IH]; intros seen col Hd; simpl.
  - reflexivity.
  - destruct col as [|v col'].
    + assert (Hnil : forall o : option nat,
                match o with Some p => nth p (@nil A) NA | None => NA end = NA).
      { intros [[|p]|]; reflexivity. }
      assert (Hsel : forall mask : list bool, select mask (@nil A) = []).
      { intros [|b mask]; reflexivity. }
      rewrite ?Hsel, !Hnil. reflexivity.
    + destruct (existsb (Z.eqb x) seen) eqn:E; simpl.
      * apply existsb_eqb_In in E.
        destruct (Z.eqb_spec x d) as [-> | Hne]; [contradiction|].
        rewrite (IH (x :: seen) col') by (simpl; tauto).
        destruct (position d rest); reflexivity.
      * destruct (Z.eqb_spec x d) as [-> | Hne]; [reflexivity|].
        specialize (IH (x :: seen) col'). simpl in IH.
        destruct (position d (select _ rest)), (position d rest); simpl;
          apply IH; tauto.
Qed.

(** Every column of the result is the column of a band on the calendar. *)
Lemma on_calendar_cols (df : DataFrame A) (calendar : list Z)
    (c : string * list A) :
  In c (cols (on_calendar df calendar)) ->
  exists col, In (fst c, col) (cols df) /\
    snd c = take (get_indexer
                    (select (map negb (duplicated (index df))) (index df))
                    calendar)
                 (select (map negb (duplicated (index df))) col).
Proof.
  unfold on_calendar, loc_mask. cbn [cols index]. rewrite map_map.
  intros Hc. apply in_map_iff in Hc. destruct Hc as ([n col] & <- & Hin).
  exists col. split; [exact Hin | reflexivity].
Qed.

End OnCalendar.

(** C2. Whatever the collection answers (rows or a failure), [ee_to_df]
    returns a table indexed by the days from [start_date] to [end_date]:
    [end_date - start_date + 1] rows, row [i] labelled [start_date + i],
    strictly increasing, no label twice, one value per day in every
    column. *)
Theorem ee_to_df_daily_calendar (ee_arr : collection) (lon lat : float)
    (buffer int_limit : Z) (bands : list string) (start_date end_date : Z) :
  (start_date <= end_date)%Z ->
  exists out,
    outcome (ee_to_df ee_arr lon lat buffer int_limit bands start_date end_date)
    = inr out /\
    Z.of_nat (nrows out) = (end_date - start_date + 1)%Z /\
    (forall i, (i < nrows out)%nat ->
       nth i (index out) 0%Z = (start_date + Z.of_nat i)%Z) /\
    StronglySorted Z.lt (index out) /\
    NoDup (index out) /\
    well_formed out.
Proof.
  intros Hle. rewrite ee_to_df_eq. eexists. split; [reflexivity|].
  unfold nrows. rewrite on_calendar_index. repeat split.
  - rewrite date_range_length. lia.
  - apply date_range_nth.
  - apply date_range_sorted.
  - apply date_range_NoDup.
  - apply on_calendar_well_formed.
Qed.

Lemma ee_to_df_daily_calendar_witness :
  (3 <= 5)%Z /\
  exists out,
    outcome (ee_to_df failing_collection 0 0 5 0 ["VV"] 3 5) = inr out /\
    Z.of_nat (nrows out) = 3%Z.
Proof.
  split; [lia|].
  destruct (ee_to_df_daily_calendar failing_collection 0 0 5 0 ["VV"] 3 5
              ltac:(lia)) as (out & Hrun & Hrows & _).
  exists out. split; [exact Hrun | exact Hrows].
Defined.

Lemma take_nil {A} `{Missing A} (indexer : list (option nat)) :
  take indexer (@nil A) = repeat NA (List.length indexer).
Proof.
  induction indexer as [|[[|p]|] r IH]; simpl; [reflexivity| | |];
    rewrite <- IH; reflexivity.
Qed.

(** C3, as stated, fails: after a failed request the table has a row for
    every day of the range, not no rows. *)
Lemma failed_fetch_is_not_empty :
  ~ (exists out,
       outcome (ee_to_df failing_collection 0 0 5 0 ["VV"] 0 2) = inr out /\
       columns out = ["VV"] /\
       nrows out = 0%nat).
Proof.
  intros (out & Hout & _ & Hrows). vm_compute in Hout.
  injection Hout as <-. discriminate Hrows.
Qed.

(** C3, amended. When the request raises (a failure of the service, or the
    time limit signalled during the call), [ee_to_df] prints the band list
    and returns a table with the requested band columns and one row per day
    from [start_date] to [end_date], every value missing; it has no rows
    only when [end_date] is before [start_date]. *)
Theorem ee_to_df_failure (ee_arr : collection) (lon lat : float)
    (buffer int_limit : Z) (bands : list string) (start_date end_date : Z)
    (err : exn) :
  ee_arr bands lon lat = inl err ->
  exists out,
    ee_to_df ee_arr lon lat buffer int_limit bands start_date end_date
    = ([NoBandsInCollections bands], inr out) /\
    columns out = bands /\
    index out = date_range start_date end_date /\
    (forall c, In c (cols out) ->
       snd c = repeat nan (List.length (date_range start_date end_date))) /\
    (nrows out = 0%nat <-> (end_date < start_date)%Z).
Proof.
  intros Herr. rewrite ee_to_df_eq, Herr. eexists. split; [reflexivity|].
  repeat split.
  - rewrite on_calendar_columns. apply fetched_columns.
  - intros c Hc. apply on_calendar_cols in Hc.
    destruct Hc as (col & Hin & ->). cbn [fetched empty_frame cols] in Hin.
    apply in_map_iff in Hin. destruct Hin as (n & [= _ <-] & _).
    cbn [fetched empty_frame index select map duplicated duplicated_from].
    rewrite take_nil. unfold get_indexer. rewrite length_map. reflexivity.
  - unfold nrows. rewrite on_calendar_index, date_range_length. lia.
  - unfold nrows. rewrite on_calendar_index, date_range_length. lia.
Qed.

Lemma ee_to_df_failure_witness :
  slow_collection ["B4"; "B8"] 0%float 0%float = inl TimeoutError /\
  exists out,
    ee_to_df slow_collection 0 0 5 0 ["B4"; "B8"] 0 1
    = ([NoBandsInCollections ["B4"; "B8"]], inr out) /\
    columns out = ["B4"; "B8"] /\
    index out = [0; 1]%Z.
Proof.
  split; [reflexivity|].
  destruct (ee_to_df_failure slow_collection 0 0 5 0 ["B4"; "B8"] 0 1
              TimeoutError eq_refl) as (out & Hrun & Hcols & Hidx & _).
  exists out. split; [exact Hrun|]. split; [exact Hcols | exact Hidx].
Defined.

(** ** Interpolation happens over the returned rows *)

Lemma enumerate_In {B} (l : list B) (i : nat) (d : B) :
  (i < List.length l)%nat -> In (i, nth i l d) (enumerate l).
Proof.
  intros Hi. rewrite <- (enumerate_nth l i d Hi).
  apply nth_In. rewrite enumerate_length. exact Hi.
Qed.

(** On a successful request, the value a band has on a day of the range:
    that of the first returned row dated that day, in the column as
    [band_column] leaves it; missing when no returned row has that date. *)
Lemma ee_to_df_rows (ee_arr : collection) (lon lat : float)
    (buffer int_limit : Z) (bands : list string) (start_date end_date : Z)
    (arr : list response_row) :
  ee_arr bands lon lat = inr arr ->
  exists out,
    ee_to_df ee_arr lon lat buffer int_limit bands start_date end_date
    = ([], inr out) /\
    index out = date_range start_date end_date /\
    columns out = bands /\
    forall j, (j < List.length bands)%nat ->
      exists daily,
        In (nth j bands "", daily) (cols out) /\
        forall i, (i < List.length (date_range start_date end_date))%nat ->
          nth i daily nan =
          match position (start_date + Z.of_nat i)%Z (row_dates arr) with
          | Some p => nth p (band_column arr int_limit j) nan
          | None => nan
          end.
Proof.
  intros Hrows. rewrite ee_to_df_eq, Hrows. eexists. split; [reflexivity|].
  split; [reflexivity|]. split.
  { rewrite on_calendar_columns. apply fetched_columns. }
  intros j Hj.
  assert (Hin : In (nth j bands "", band_column arr int_limit j)
                   (cols (fetched (inr arr) int_limit bands))).
  { cbn [fetched parse_rows cols]. apply in_map_iff.
    exists (j, nth j bands ""). split; [reflexivity|].
    apply enumerate_In. exact Hj. }
  set (mask := map negb (duplicated (row_dates arr))).
  exists (take (get_indexer (select mask (row_dates arr))
                  (date_range start_date end_date))
               (select mask (band_column arr int_limit j))).
  split.
  - unfold on_calendar, loc_mask. cbn [cols index fetched parse_rows].
    rewrite !map_map. apply in_map_iff.
    exists (j, nth j bands ""). split; [reflexivity|].
    apply enumerate_In. exact Hj.
  - intros i Hi.
    etransitivity.
    { apply (@take_nth float _).
      unfold get_indexer. rewrite length_map. exact Hi. }
    rewrite get_indexer_nth by exact Hi.
    rewrite date_range_nth by exact Hi.
    apply (first_occurrence [] (row_dates arr)
             (band_column arr int_limit j) (start_date + Z.of_nat i)%Z).
    intros [].
Qed.

(** C8, as stated, fails: with the limit [5], a single missing day between
    two observed days is still missing in the returned daily table. *)
Lemma one_day_gap_stays_missing :
  ~ (exists out daily,
       outcome (ee_to_df rows_on_days_0_and_2 0 0 5 5 ["LST_Day_1km"] 0 2)
       = inr out /\
       lookup_col "LST_Day_1km" (cols out) = Some daily /\
       isna (nth 1 daily nan) = false).
Proof.
  intros (out & daily & Hout & Hcol & Hv).
  vm_compute in Hout. injection Hout as <-.
  vm_compute in Hcol. injection Hcol as <-.
  vm_compute in Hv. discriminate.
Qed.

(** C8, amended. With a positive limit, [ee_to_df] interpolates each band
    over the rows the request returned, row after row, before the table is
    put on the daily calendar. In the returned table a day that has a
    returned row carries the value of the first such row in the interpolated
    column (values that were present are unchanged), and a day with no
    returned row is missing whatever the limit. For example three returned
    rows [1, None, 3] on days [0, 1, 2] give [1, 2, 3] with the limit [5]. *)
Theorem ee_to_df_interpolates_rows (ee_arr : collection) (lon lat : float)
    (buffer int_limit : Z) (bands : list string) (start_date end_date : Z)
    (arr : list response_row) :
  (0 < int_limit)%Z ->
  ee_arr bands lon lat = inr arr ->
  (exists out,
     ee_to_df ee_arr lon lat buffer int_limit bands start_date end_date
     = ([], inr out) /\
     forall j, (j < List.length bands)%nat ->
       exists daily,
         In (nth j bands "", daily) (cols out) /\
         forall i, (i < List.length (date_range start_date end_date))%nat ->
           let day := (start_date + Z.of_nat i)%Z in
           let filled := interpolate (Z.to_nat int_limit) (row_values arr j) in
           (~ In day (row_dates arr) -> nth i daily nan = nan) /\
           (forall p, position day (row_dates arr) = Some p ->
              nth i daily nan = nth p filled nan /\
              (isna (nth p (row_values arr j) nan) = false ->
               nth i daily nan = nth p (row_values arr j) nan))) /\
  ee_to_df
    (fun _ _ _ =>
       inr [mkRow 0 [Some 1%float]; mkRow 86400000 [None];
            mkRow 172800000 [Some 3%float]])
    0 0 5 5 ["LST_Day_1km"] 0 2
  = ([], inr (mkDF [0; 1; 2]%Z [("LST_Day_1km", [1; 2; 3]%float)])).
Proof.
  intros Hlimit Hrows. split; [|reflexivity].
  destruct (ee_to_df_rows ee_arr lon lat buffer int_limit bands
              start_date end_date arr Hrows)
    as (out & Hrun & _ & _ & Hbands).
  exists out. split; [exact Hrun|]. intros j Hj.
  destruct (Hbands j Hj) as (daily & Hin & Hday).
  exists daily. split; [exact Hin|]. intros i Hi day filled.
  specialize (Hday i Hi). fold day in Hday.
  assert (Hcol : band_column arr int_limit j = filled).
  { unfold band_column. apply Z.ltb_lt in Hlimit. rewrite Hlimit. reflexivity. }
  rewrite Hcol in Hday. split.
  - intros Hno. rewrite Hday, (position_None _ _ Hno). reflexivity.
  - intros p Hp. rewrite Hday, Hp. split; [reflexivity|].
    intros Hv. apply interpolate_keeps_values. exact Hv.
Qed.

Lemma ee_to_df_interpolates_rows_witness :
  (0 < 5)%Z /\
  rows_on_days_0_and_2 ["LST_Day_1km"] 0%float 0%float
  = inr [mkRow 0 [Some 1%float]; mkRow 172800000 [Some 3%float]] /\
  exists out,
    ee_to_df rows_on_days_0_and_2 0 0 5 5 ["LST_Day_1km"] 0 2 = ([], inr out).
Proof.
  split; [lia|]. split; [reflexivity|].
  destruct (proj1 (ee_to_df_interpolates_rows rows_on_days_0_and_2 0 0 5 5
                     ["LST_Day_1km"] 0 2 _ ltac:(lia) eq_refl))
    as (out & Hrun & _).
  exists out. exact Hrun.
Defined.

(** ** Precipitation and the streak over the whole calendar *)

Lemma daily_column_length (idx : list Z) (col : list float) (calendar : list Z) :
  List.length (daily_column idx col calendar) = List.length calendar.
Proof.
  unfold daily_column, get_indexer. rewrite take_length. apply length_map.
Qed.

Lemma daily_column_unobserved (idx : list Z) (col : list float)
    (calendar : list Z) (i : nat) :
  (i < List.length calendar)%nat -> ~ In (nth i calendar 0%Z) idx ->
  nth i (daily_column idx col calendar) nan = nan.
Proof.
  intros Hi Hno. unfold daily_column.
  etransitivity.
  { apply (@take_nth float _).
    unfold get_indexer. rewrite length_map. exact Hi. }
  rewrite get_indexer_nth by exact Hi.
  rewrite position_None; [reflexivity|].
  rewrite kept_labels_In. exact Hno.
Qed.

(** The single-band table of a request, whatever it answered. *)
Lemma ee_to_df_single (ee_arr : collection) (lon lat : float)
    (buffer int_limit : Z) (band : string) (start_date end_date : Z) :
  exists col,
    outcome (ee_to_df ee_arr lon lat buffer int_limit [band] start_date end_date)
    = inr (mkDF (date_range start_date end_date)
             [(band, daily_column (observed_days (ee_arr [band] lon lat)) col
                       (date_range start_date end_date))]).
Proof.
  rewrite ee_to_df_eq. destruct (ee_arr [band] lon lat) as [err | arr].
  - exists []. reflexivity.
  - exists (band_column arr int_limit 0). reflexivity.
Qed.

(** The table the precipitation branch of [assemble_variables] appends. *)
Lemma precipitation_table (ee : service) (lon lat : float)
    (start_date end_date : Z) :
  exists col,
    let daily :=
      daily_column
        (observed_days
           (ee "ECMWF/ERA5/DAILY" start_date end_date
               ["total_precipitation"] lon lat))
        col (date_range start_date end_date) in
    let P := map (fun x => x * 1000)%float daily in
    outcome (precipitation ee lon lat start_date end_date)
    = inr (mkDF (date_range start_date end_date)
             [("P", P); ("DD", map float_of_Z (dry_streak P))]).
Proof.
  destruct (ee_to_df_single (ee "ECMWF/ERA5/DAILY" start_date end_date)
              lon lat 5 0 "total_precipitation" start_date end_date)
    as (col & Hrun).
  exists col. unfold precipitation. rewrite outcome_bind, Hrun. reflexivity.
Qed.

(** C10. In [dry_days] a day whose precipitation is NaN takes the branch of
    a dry day: its streak is the streak of the day before plus [1]. The
    precipitation table is on the full calendar when [dry_days] runs, so this
    holds for every day of the range for which the service returned no row
    (also when the request failed): its [P] is NaN and its streak extends. *)
Theorem missing_precipitation_counts_as_dry :
  (forall (P : list float) (i : nat),
      (i < List.length P)%nat -> isna (nth i P nan) = true ->
      nth i (dry_streak P) 0%Z =
      (match i with
       | O => 0%Z
       | S j => nth j (dry_streak P) 0%Z
       end + 1)%Z) /\
  (forall (ee : service) (lon lat : float) (start_date end_date : Z),
      exists out P,
        outcome (precipitation ee lon lat start_date end_date) = inr out /\
        index out = date_range start_date end_date /\
        lookup_col "P" (cols out) = Some P /\
        lookup_col "DD" (cols out) = Some (map float_of_Z (dry_streak P)) /\
        List.length P = List.length (date_range start_date end_date) /\
        forall i, (i < List.length (date_range start_date end_date))%nat ->
          ~ In (start_date + Z.of_nat i)%Z
               (observed_days
                  (ee "ECMWF/ERA5/DAILY" start_date end_date
                      ["total_precipitation"] lon lat)) ->
          nth i P nan = nan /\
          nth i (dry_streak P) 0%Z =
          (match i with
           | O => 0%Z
           | S j => nth j (dry_streak P) 0%Z
           end + 1)%Z).
Proof.
  assert (Hnan : forall (P : list float) (i : nat),
             (i < List.length P)%nat -> isna (nth i P nan) = true ->
             nth i (dry_streak P) 0%Z =
             (match i with
              | O => 0%Z
              | S j => nth j (dry_streak P) 0%Z
              end + 1)%Z).
  { intros P i Hi Hna. unfold dry_streak.
    rewrite dry_streak_from_nth by exact Hi.
    rewrite (isna_nan _ Hna). reflexivity. }
  split; [exact Hnan|].
  intros ee lon lat start_date end_date.
  destruct (precipitation_table ee lon lat start_date end_date) as (col & Hrun).
  cbv zeta in Hrun.
  set (daily := daily_column _ col _) in Hrun.
  exists (mkDF (date_range start_date end_date)
            [("P", map (fun x => x * 1000)%float daily);
             ("DD", map float_of_Z
                      (dry_streak (map (fun x => x * 1000)%float daily)))]),
    (map (fun x => x * 1000)%float daily).
  assert (Hlen : List.length (map (fun x => x * 1000)%float daily)
                 = List.length (date_range start_date end_date)).
  { rewrite length_map. apply daily_column_length. }
  split; [exact Hrun|]. do 3 (split; [reflexivity|]). split; [exact Hlen|].
  intros i Hi Hno.
  assert (HP : nth i (map (fun x => x * 1000)%float daily) nan = nan).
  { rewrite (nth_map_lt _ _ _ nan)
      by (unfold daily; rewrite daily_column_length; exact Hi).
    unfold daily. rewrite daily_column_unobserved; [reflexivity | exact Hi |].
    rewrite date_range_nth by exact Hi. exact Hno. }
  split; [exact HP|].
  apply Hnan; [rewrite Hlen; exact Hi|]. rewrite HP. reflexivity.
Qed.

(** ** The driver: a run in which no table is fetched *)

Lemma not_contains (v : string) (l : list string) :
  ~ In v l -> contains v l = false.
Proof.
  intros Hv. destruct (contains v l) eqn:E; [|reflexivity].
  apply contains_In in E. contradiction.
Qed.

(** Without a variable it knows in the list, [assemble_variables] fetches
    nothing, and ends with the exception of its unbound [df]. *)
Lemma assemble_variables_unbound (ee : service) (lon lat : float)
    (first_day last_day : Z) (variable_list : list string)
    (point_id : string) (s : settings) :
  (forall v, In v fetchable -> ~ In v variable_list) ->
  assemble_variables ee lon lat first_day last_day variable_list point_id s
  = ([NoVariablesSpecified], inl UnboundLocalError).
Proof.
  intros Hnone.
  assert (Hv : forall v, In v fetchable -> contains v variable_list = false).
  { intros v Hv. apply not_contains, Hnone, Hv. }
  unfold assemble_variables, fetch_variables, append_if, append_or_warn.
  rewrite !Hv by (unfold fetchable; simpl; tauto). reflexivity.
Qed.

(** C4 is not what the code does. When no table is fetched,
    [assemble_variables] catches the [TypeError] of [reduce], prints, and
    then returns its unbound local [df]: an [UnboundLocalError], which the
    driver's [except (KeyError, AttributeError)] does not catch. With the
    requested variable [TS] already in the ground table the list of variables
    to fetch is empty, and the run over a well-formed registry ends with that
    exception at its first site. *)
Theorem no_fetched_table_crashes_the_run (ee : service) :
  (forall lon lat first_day last_day variable_list point_id s,
      (forall v, In v fetchable -> ~ In v variable_list) ->
      assemble_variables ee lon lat first_day last_day variable_list point_id s
      = ([NoVariablesSpecified], inl UnboundLocalError)) /\
  variables_to_fetch (mkSettings ["TS"] false true) icos_ground = [] /\
  compile_data ee (mkSettings ["TS"] false true) icos_ground
    [("DE-Hai", complete_meta); ("DE-Tha", complete_meta)]
  = ([ExtractingData; StationProgress "DE-Hai" 1 2; NoVariablesSpecified],
     inl UnboundLocalError).
Proof.
  split; [|split; reflexivity].
  intros lon lat first_day last_day variable_list point_id s.
  apply assemble_variables_unbound.
Qed.

(** ** The driver: a site whose registry entry lacks a key *)

Section Driver.
Variable ee : service.
Variable s : settings.
Variable df_sm : DataFrame cell.
Variable variable_list : list string.

Lemma site_table_KeyError (ground : DataFrame cell) (station : string)
    (meta : site_meta) :
  lacks_a_key meta ->
  outcome (site_table ee s ground variable_list station meta) = inl KeyError.
Proof.
  unfold lacks_a_key, site_table. intros Hmeta.
  destruct (longitude meta) as [lon|]; [|reflexivity].
  destruct (latitude meta) as [lat|]; [|reflexivity].
  destruct (start_date meta) as [first_day|]; [|reflexivity].
  destruct (end_date meta) as [last_day|]; [|reflexivity].
  destruct Hmeta as [Hm | [Hm | [Hm | Hm]]]; discriminate.
Qed.

Lemma ground_rows_returns (station : string) :
  In "SITE" (columns df_sm) ->
  exists rows, outcome (ground_rows df_sm station) = inr rows /\
    exists site, lookup_col "SITE" (cols df_sm) = Some site /\
      rows = loc_mask df_sm (map (fun c => cell_eqb_str c station) site).
Proof.
  intros Hsite. destruct (lookup_col_columns "SITE" (cols df_sm) Hsite)
    as (site & Hlook).
  exists (loc_mask df_sm (map (fun c => cell_eqb_str c station) site)).
  split; [|exists site; auto].
  unfold ground_rows, getcol. rewrite Hlook. reflexivity.
Qed.

(** What a turn of the loop returns does not depend on the progress
    counters it prints. *)
Lemma station_step_outcome (i_start i_end : nat) (station : string)
    (meta : site_meta) (df : DataFrame cell) :
  outcome (station_step ee s df_sm variable_list i_start i_end station meta df)
  = match outcome (ground_rows df_sm station) with
    | inl e => inl e
    | inr df_sm_subset =>
        outcome
          (try_except_only [KeyError; AttributeError]
             (Py.bind (site_table ee s df_sm_subset variable_list station meta)
                (fun df_subset => ret (concat df df_subset)))
             (fun _ => ret df))
    end.
Proof.
  unfold station_step. rewrite outcome_bind. cbn [outcome print snd].
  rewrite outcome_bind. reflexivity.
Qed.


(** The turn of a site that lacks a key leaves the accumulated table as it
    was and raises nothing. *)
Lemma station_step_skips (i_start i_end : nat) (station : string)
    (meta : site_meta) (df : DataFrame cell) :
  In "SITE" (columns df_sm) -> lacks_a_key meta ->
  outcome (station_step ee s df_sm variable_list i_start i_end station meta df)
  = inr df.
Proof.
  intros Hsite Hmeta. rewrite station_step_outcome.
  destruct (ground_rows_returns station Hsite) as (rows & -> & _).
  pose proof (site_table_KeyError rows station meta Hmeta) as Hkey.
  unfold try_except_only, try_except, Py.bind.
  destruct (site_table ee s rows variable_list station meta) as [out [e | t]];
    cbn [outcome snd] in Hkey; [|discriminate].
  injection Hkey as ->. reflexivity.
Qed.


End Driver.

(** The run of the witness completes, with the rows of the other site only. *)
Example run_with_malformed_site :
  compile_data (fun _ _ _ => two_band_rows)
    (mkSettings ["NDVI"] false false) icos_ground registry_with_malformed_site
  = ([ExtractingData; StationProgress "DE-Bad" 1 2; StationProgress "DE-Hai" 2 2],
     inr (mkDF [0; 1]%Z
            [("SITE", [Str "DE-Hai"; Str "DE-Hai"]);
             ("SWC", [Num 31.5; Num 30]);
             ("TS", [Num 8; Num 9]);
             ("TA", [Num 11; Num 12.5]);
             ("P", [Num 0; Num 2]);
             ("NDVI", [Num 0.5; Num nan])])).
Proof. reflexivity. Qed.

(** ** Joins on the row labels *)

Lemma positions_from_absent (i : nat) (d : Z) (idx : list Z) :
  ~ In d idx -> positions_from i d idx = [].
Proof.
  revert i. induction idx as [|x rest IH]; intros i Hd; simpl; [reflexivity|].
  destruct (Z.eqb_spec x d) as [-> | Hne]; [exfalso; apply Hd; left; reflexivity|].
  apply IH. intros Hin. apply Hd. right. exact Hin.
Qed.

Lemma positions_from_count (i : nat) (d : Z) (idx : list Z) :
  List.length (positions_from i d idx) = count_occ Z.eq_dec idx d.
Proof.
  revert i. induction idx as [|x rest IH]; intros i; simpl; [reflexivity|].
  destruct (Z.eqb_spec x d) as [Heq | Hne]; destruct (Z.eq_dec x d);
    try contradiction; simpl; rewrite IH; reflexivity.
Qed.

Lemma positions_from_single (i : nat) (d : Z) (idx : list Z) :
  NoDup idx -> In d idx -> exists p, positions_from i d idx = [p].
Proof.
  revert i. induction idx as [|x rest IH]; intros i Hnd Hin; [destruct Hin|].
  inversion Hnd as [|? ? Hx Hrest]; subst. simpl.
  destruct (Z.eqb_spec x d) as [-> | Hne].
  - exists i. rewrite positions_from_absent by exact Hx. reflexivity.
  - destruct Hin as [-> | Hin]; [contradiction|]. apply IH; assumption.
Qed.

(** The labels of a left join: every left label, once per matching right
    row and once when there is none. *)
Lemma left_join_labels (l r : list Z) :
  map fst (left_join l r)
  = flat_map (fun d => repeat d (Nat.max 1 (count_occ Z.eq_dec r d))) l.
Proof.
  unfold left_join.
  enough (Hgen : forall a,
             map fst
               (flat_map
                  (fun id : nat * Z =>
                     match positions (snd id) r with
                     | [] => [(snd id, (Some (fst id), None))]
                     | js => map (fun j => (snd id, (Some (fst id), Some j))) js
                     end)
                  (combine (seq a (List.length l)) l))
             = flat_map
                 (fun d => repeat d (Nat.max 1 (count_occ Z.eq_dec r d))) l)
    by apply Hgen.
  induction l as [|d rest IH]; intros a; simpl; [reflexivity|].
  rewrite map_app, IH. f_equal.
  unfold positions. rewrite <- (positions_from_count 0 d r).
  destruct (positions_from 0 d r) as [|j js]; simpl; [reflexivity|].
  f_equal. rewrite map_map. simpl.
  induction js as [|j' js IHjs]; simpl; [reflexivity | rewrite IHjs; reflexivity].
Qed.

Lemma flat_map_single {B} (f : B -> list B) (l : list B) :
  (forall x, In x l -> f x = [x]) -> flat_map f l = l.
Proof.
  induction l as [|x r IH]; intros Hf; simpl; [reflexivity|].
  rewrite (Hf x) by (left; reflexivity). simpl. f_equal.
  apply IH. intros y Hy. apply Hf. right. exact Hy.
Qed.

Lemma insert_label_In (d : Z) (l : list Z) :
  StronglySorted Z.lt l -> In d l -> insert_label d l = l.
Proof.
  induction 1 as [|x r Hs IH Hall]; intros Hin; [destruct Hin|].
  simpl. destruct Hin as [-> | Hin].
  - rewrite Z.ltb_irrefl, Z.eqb_refl. reflexivity.
  - rewrite Forall_forall in Hall. specialize (Hall d Hin).
    destruct (Z.ltb_spec d x); [lia|].
    destruct (Z.eqb_spec d x); [lia|]. rewrite IH by exact Hin. reflexivity.
Qed.

Lemma fold_insert_sorted (l : list Z) :
  StronglySorted Z.lt l -> fold_right insert_label [] l = l.
Proof.
  induction 1 as [|x r Hs IH Hall]; simpl; [reflexivity|].
  rewrite IH. destruct r as [|y r']; simpl; [reflexivity|].
  inversion Hall as [|? ? Hxy _]; subst.
  apply Z.ltb_lt in Hxy. rewrite Hxy. reflexivity.
Qed.

Lemma fold_insert_present (acc l : list Z) :
  StronglySorted Z.lt acc -> (forall d, In d l -> In d acc) ->
  fold_right insert_label acc l = acc.
Proof.
  intros Hs. induction l as [|x r IH]; intros Hin; simpl; [reflexivity|].
  rewrite IH by (intros d Hd; apply Hin; right; exact Hd).
  apply insert_label_In; [exact Hs | apply Hin; left; reflexivity].
Qed.

Lemma union_labels_same (l : list Z) :
  StronglySorted Z.lt l -> union_labels l l = l.
Proof.
  intros Hs. unfold union_labels. rewrite fold_right_app.
  rewrite (fold_insert_sorted l Hs). apply fold_insert_present; auto.
Qed.

(** Two tables on the same calendar join, row by row, on that calendar. *)
Lemma outer_join_labels (l : list Z) :
  StronglySorted Z.lt l -> map fst (outer_join l l) = l.
Proof.
  intros Hs. unfold outer_join. rewrite (union_labels_same l Hs).
  pose proof (sorted_NoDup l Hs) as Hnd.
  rewrite flat_map_concat_map, concat_map, map_map, <- flat_map_concat_map.
  apply flat_map_single. intros d Hd.
  unfold positions.
  destruct (positions_from_single 0 d l Hnd Hd) as (p & ->). reflexivity.
Qed.

Section MergeFacts.
Context {A : Type} `{Missing A}.

Lemma merge_index (h : how) (left right : DataFrame A) :
  index (merge h left right) = map fst (join h (index left) (index right)).
Proof. reflexivity. Qed.

Lemma merge_outer_calendar (calendar : list Z) (left right : DataFrame A) :
  StronglySorted Z.lt calendar ->
  index left = calendar -> index right = calendar ->
  index (merge Outer left right) = calendar.
Proof.
  intros Hs Hl Hr. rewrite merge_index, Hl, Hr. apply outer_join_labels, Hs.
Qed.

Lemma fold_merge_calendar (calendar : list Z) (rest : list (DataFrame A))
    (first : DataFrame A) :
  StronglySorted Z.lt calendar ->
  index first = calendar ->
  Forall (fun df => index df = calendar) rest ->
  index (fold_left (merge Outer) rest first) = calendar.
Proof.
  intros Hs. revert first.
  induction rest as [|df rest IH]; intros first Hf Hall; simpl; [exact Hf|].
  apply IH; [|exact (Forall_inv_tail Hall)].
  apply merge_outer_calendar; [exact Hs | exact Hf | exact (Forall_inv Hall)].
Qed.

Lemma merge_columns (h : how) (left right : DataFrame A) :
  columns (merge h left right)
  = app
      (map (fun n => if contains n (columns right) then n ++ "_x" else n)
           (columns left))
      (map (fun n => if contains n (columns left) then n ++ "_y" else n)
           (columns right)).
Proof.
  unfold columns, merge. cbn [cols]. rewrite map_app, !map_map. reflexivity.
Qed.

End MergeFacts.

(** ** Every fetched table is on the calendar of the site *)

Section Branches.
Variable ee : service.
Variables lon lat : float.
Variables start_date end_date : Z.

Let calendar : list Z := date_range start_date end_date.
Let on_the_calendar (df : DataFrame float) : Prop := index df = calendar.

Lemma ee_to_df_pair (ee_arr : collection) (buffer int_limit : Z)
    (band_1 band_2 : string) :
  exists col_1 col_2,
    outcome (ee_to_df ee_arr lon lat buffer int_limit [band_1; band_2]
               start_date end_date)
    = inr (mkDF calendar
             [(band_1,
               daily_column (observed_days (ee_arr [band_1; band_2] lon lat))
                 col_1 calendar);
              (band_2,
               daily_column (observed_days (ee_arr [band_1; band_2] lon lat))
                 col_2 calendar)]).
Proof.
  rewrite ee_to_df_eq. destruct (ee_arr [band_1; band_2] lon lat) as [err | arr].
  - exists [], []. reflexivity.
  - exists (band_column arr int_limit 0), (band_column arr int_limit 1).
    reflexivity.
Qed.

Lemma land_surface_temperature_returns :
  returns (land_surface_temperature ee lon lat start_date end_date)
    on_the_calendar.
Proof.
  unfold land_surface_temperature.
  destruct (ee_to_df_single (ee "MODIS/006/MOD11A1" start_date end_date)
              lon lat 5 5 "LST_Day_1km" start_date end_date) as (col & Hrun).
  eexists. rewrite outcome_bind, Hrun. split; reflexivity.
Qed.

Lemma backscatter_returns (polarisation : string) :
  returns (backscatter ee polarisation lon lat start_date end_date)
    on_the_calendar.
Proof.
  unfold backscatter.
  destruct (ee_to_df_single (ee "COPERNICUS/S1_GRD" start_date end_date)
              lon lat 5 0 polarisation start_date end_date) as (col & Hrun).
  eexists. rewrite Hrun. split; reflexivity.
Qed.

Lemma ndvi_returns (s : settings) :
  returns (optical_index ee "NDVI" "B8" "B4" ["B4"; "B8"]
             lon lat start_date end_date s)
    on_the_calendar.
Proof.
  unfold optical_index.
  destruct (ee_to_df_pair (ee "COPERNICUS/S2_SR" start_date end_date)
              5 0 "B4" "B8") as (col_1 & col_2 & Hrun).
  destruct (interpolate_index s); eexists; rewrite outcome_bind, Hrun;
    split; reflexivity.
Qed.

Lemma ndwi_returns (s : settings) :
  returns (optical_index ee "NDWI" "B8A" "B11" ["B8A"; "B11"]
             lon lat start_date end_date s)
    on_the_calendar.
Proof.
  unfold optical_index.
  destruct (ee_to_df_pair (ee "COPERNICUS/S2_SR" start_date end_date)
              5 0 "B8A" "B11") as (col_1 & col_2 & Hrun).
  destruct (interpolate_index s); eexists; rewrite outcome_bind, Hrun;
    split; reflexivity.
Qed.

Lemma air_temperature_returns :
  returns (air_temperature ee lon lat start_date end_date) on_the_calendar.
Proof.
  unfold air_temperature.
  destruct (ee_to_df_single (ee "ECMWF/ERA5/DAILY" start_date end_date)
              lon lat 5 0 "mean_2m_air_temperature" start_date end_date)
    as (col & Hrun).
  eexists. rewrite outcome_bind, Hrun. split; reflexivity.
Qed.

Lemma precipitation_returns :
  returns (precipitation ee lon lat start_date end_date) on_the_calendar.
Proof.
  destruct (precipitation_table ee lon lat start_date end_date) as (col & Hrun).
  eexists. split; [exact Hrun | reflexivity].
Qed.

Lemma append_if_returns (requested : bool) (table : M (DataFrame float))
    (dataframes : list (DataFrame float)) :
  returns table on_the_calendar -> Forall on_the_calendar dataframes ->
  returns (append_if requested table dataframes) (grown calendar requested dataframes).
Proof.
  intros (df & Hrun & Hdf) Hall. unfold append_if, grown.
  destruct requested.
  - exists (dataframes ++ [df])%list. rewrite outcome_bind, Hrun. split.
    + reflexivity.
    + split; [|rewrite length_app; reflexivity].
      apply Forall_app. split; [exact Hall | constructor; [exact Hdf | constructor]].
  - exists dataframes. split; [reflexivity|]. split; [exact Hall|].
    simpl. lia.
Qed.

Lemma append_or_warn_returns (requested : bool) (variable : string)
    (table : M (DataFrame float)) (dataframes : list (DataFrame float)) :
  returns table on_the_calendar -> Forall on_the_calendar dataframes ->
  returns (append_or_warn requested variable table dataframes)
    (grown calendar requested dataframes).
Proof.
  intros Htable Hall. unfold append_or_warn.
  pose proof (append_if_returns requested table dataframes Htable Hall) as Hif.
  unfold append_if in Hif. destruct requested.
  - apply returns_try_except. exact Hif.
  - exact Hif.
Qed.

(** [fetch_variables] returns one table on the calendar for each requested
    variable the code knows. *)
Lemma fetch_variables_returns (variable_list : list string) (s : settings) :
  returns (fetch_variables ee lon lat start_date end_date variable_list s)
    (fun l =>
       Forall on_the_calendar l /\
       List.length l =
       (Nat.b2n (contains "TS" variable_list)
        + Nat.b2n (contains "VV" variable_list)
        + Nat.b2n (contains "VH" variable_list)
        + Nat.b2n (contains "NDVI" variable_list)
        + Nat.b2n (contains "NDWI" variable_list)
        + Nat.b2n (contains "TA" variable_list)
        + Nat.b2n (contains "P" variable_list))%nat).
Proof.
  unfold fetch_variables.
  eapply returns_bind.
  { apply append_if_returns;
      [apply land_surface_temperature_returns | constructor]. }
  intros l1 [H1 L1]. eapply returns_bind.
  { apply append_or_warn_returns; [apply backscatter_returns | exact H1]. }
  intros l2 [H2 L2]. eapply returns_bind.
  { apply append_or_warn_returns; [apply backscatter_returns | exact H2]. }
  intros l3 [H3 L3]. eapply returns_bind.
  { apply append_if_returns; [apply ndvi_returns | exact H3]. }
  intros l4 [H4 L4]. eapply returns_bind.
  { apply append_if_returns; [apply ndwi_returns | exact H4]. }
  intros l5 [H5 L5]. eapply returns_bind.
  { apply append_if_returns; [apply air_temperature_returns | exact H5]. }
  intros l6 [H6 L6].
  eapply returns_weaken.
  { apply append_if_returns; [apply precipitation_returns | exact H6]. }
  intros l7 [H7 L7]. split; [exact H7|]. simpl in L1. lia.
Qed.

End Branches.

(** ** The per-site table of the driver *)

Lemma assign_col_In {A} (name : string) (vals : list A) cs :
  In name (map fst (assign_col name vals cs)).
Proof.
  rewrite columns_assign.
  destruct (contains name (map fst cs)) eqn:E.
  - apply contains_In. exact E.
  - apply in_or_app. right. left. reflexivity.
Qed.

(** With a variable to fetch, [assemble_variables] returns a table on the
    calendar of the site, with the [SITE] column. *)
Lemma assemble_variables_returns (ee : service) (lon lat : float)
    (first_day last_day : Z) (variable_list : list string)
    (point_id : string) (s : settings) :
  requests_a_table variable_list ->
  returns (assemble_variables ee lon lat first_day last_day variable_list
             point_id s)
    (fun df => index df = date_range first_day last_day /\
               In "SITE" (columns df)).
Proof.
  intros (v & Hv & Hin). unfold assemble_variables.
  eapply returns_bind; [apply fetch_variables_returns|].
  intros l [Hall Hlen].
  assert (Hreq : contains v variable_list = true) by (apply contains_In; exact Hin).
  destruct l as [|first rest].
  { exfalso. simpl in Hlen. unfold fetchable in Hv. simpl in Hv.
    destruct Hv as [<- | [<- | [<- | [<- | [<- | [<- | [<- | []]]]]]]];
      rewrite Hreq in Hlen; simpl in Hlen; lia. }
  cbn [reduce try_except_only try_except Py.bind ret app fst snd].
  apply returns_ret. split.
  - cbn [setcol_scalar setcol map_values index].
    apply fold_merge_calendar;
      [apply date_range_sorted | exact (Forall_inv Hall)
      | exact (Forall_inv_tail Hall)].
  - unfold columns, setcol_scalar, setcol. cbn [cols]. apply assign_col_In.
Qed.

Lemma rename_columns {A} (df : DataFrame A) (old new : string) :
  columns (rename df old new)
  = map (fun n => if String.eqb n old then new else n) (columns df).
Proof. unfold columns, rename. cbn [cols]. rewrite !map_map. reflexivity. Qed.

Lemma repeat_once_flat_map (r l : list Z) :
  NoDup r ->
  flat_map (fun d => repeat d (Nat.max 1 (count_occ Z.eq_dec r d))) l = l.
Proof.
  intros Hnd. apply flat_map_single. intros d _.
  pose proof (proj1 (NoDup_count_occ Z.eq_dec r) Hnd d) as Hle.
  replace (Nat.max 1 (count_occ Z.eq_dec r d)) with 1%nat by lia.
  reflexivity.
Qed.

(** C1, as stated, fails: a site with one ground-truth row and a calendar of
    three days gets a table of three rows. *)
Lemma site_table_keeps_calendar_rows :
  ~ (exists out,
       outcome (site_table (fun _ _ _ => two_band_rows)
                  (mkSettings ["NDVI"] false false)
                  (mkDF [1]%Z [("SITE", [Str "DE-Hai"]); ("SWC", [Num 30])])
                  ["NDVI"] "DE-Hai"
                  (mkMeta (Some 10.45%float) (Some 51.08%float)
                     (Some 0%Z) (Some 2%Z)))
       = inr out /\
       nrows out = 1%nat).
Proof.
  intros (out & Hout & Hrows). vm_compute in Hout.
  injection Hout as <-. discriminate Hrows.
Qed.

(* ===================================================================== *)
(** * Further properties of the same functions                            *)
(* ===================================================================== *)

(** ** [dry_days]: the streak is the length of the dry run *)

Lemma dry_streak_nth (P : list float) (i : nat) :
  (i < List.length P)%nat ->
  nth i (dry_streak P) 0%Z =
  if (0 <? nth i P nan)%float then 0%Z
  else (match i with
        | O => 0%Z
        | S j => nth j (dry_streak P) 0%Z
        end + 1)%Z.
Proof. apply dry_streak_from_nth. Qed.

(** On every day the streak is the number [m] of days of the run of days
    without precipitation above [0] that ends on that day: the [m] days up
    to and including the day are such days, and the day before them, if
    there is one, had precipitation above [0]. A day with precipitation
    above [0] has the streak [0], and the streak never exceeds the number
    of days so far. *)
Theorem dry_streak_is_the_dry_run (P : list float) (i : nat) :
  (i < List.length P)%nat ->
  exists m : nat,
    nth i (dry_streak P) 0%Z = Z.of_nat m /\
    (m <= S i)%nat /\
    (forall j, (i < j + m)%nat -> (j <= i)%nat ->
       (0 <? nth j P nan)%float = false) /\
    ((m <= i)%nat -> (0 <? nth (i - m) P nan)%float = true).
Proof.
  induction i as [|i IH]; intros Hi.
  - rewrite dry_streak_nth by exact Hi.
    destruct (0 <? nth 0 P nan)%float eqn:E.
    + exists O. repeat split; [lia | | ].
      * intros j Hj Hj'. lia.
      * intros _. exact E.
    + exists 1%nat. repeat split; [lia | | ].
      * intros j Hj Hj'. replace j with O by lia. exact E.
      * intros Hm. lia.
  - destruct (IH ltac:(lia)) as (m & Hm & Hle & Hdry & Hwet).
    rewrite dry_streak_nth by exact Hi.
    destruct (0 <? nth (S i) P nan)%float eqn:E.
    + exists O. repeat split; [lia | | ].
      * intros j Hj Hj'. lia.
      * intros _. rewrite Nat.sub_0_r. exact E.
    + exists (S m). rewrite Hm. repeat split; [lia | lia | | ].
      * intros j Hj Hj'. destruct (Nat.eq_dec j (S i)) as [-> | Hne];
          [exact E | apply Hdry; lia].
      * intros Hm'. replace (S i - S m)%nat with (i - m)%nat by lia.
        apply Hwet. lia.
Qed.

Lemma dry_streak_is_the_dry_run_witness :
  (3 < List.length [0; 5; 0; nan]%float)%nat /\
  exists m : nat,
    nth 3 (dry_streak [0; 5; 0; nan]%float) 0%Z = Z.of_nat m /\ (m <= 4)%nat.
Proof.
  split; [simpl; lia|].
  destruct (dry_streak_is_the_dry_run [0; 5; 0; nan]%float 3
              ltac:(simpl; lia)) as (m & Hm & Hle & _).
  exists m. split; [exact Hm | exact Hle].
Defined.

(** ** [ee_to_df]: the first row of a day *)

Lemma position_first (d : Z) (idx : list Z) (p : nat) :
  (p < List.length idx)%nat -> nth p idx 0%Z = d ->
  (forall q, (q < p)%nat -> nth q idx 0%Z <> d) ->
  position d idx = Some p.
Proof.
  revert p. induction idx as [|x rest IH]; intros p Hp Hd Hfirst;
    simpl in Hp; [lia|].
  simpl. destruct p as [|p].
  - simpl in Hd. subst x. rewrite Z.eqb_refl. reflexivity.
  - destruct (Z.eqb_spec x d) as [Hx | Hx].
    + exfalso. apply (Hfirst O); [lia | exact Hx].
    + rewrite (IH p); [reflexivity | lia | exact Hd |].
      intros q Hq. apply (Hfirst (S q)). lia.
Qed.

(** Without interpolation ([int_limit <= 0], as in every call but the one
    for the land surface temperature), a day of the range carries, for each
    band, the numeric value of the FIRST returned row dated that day: later
    rows of the same day are discarded, and a day without a row is
    missing. *)
Theorem ee_to_df_first_row_of_the_day (ee_arr : collection) (lon lat : float)
    (buffer int_limit : Z) (bands : list string) (start_date end_date : Z)
    (arr : list response_row) :
  (int_limit <= 0)%Z ->
  ee_arr bands lon lat = inr arr ->
  exists out,
    ee_to_df ee_arr lon lat buffer int_limit bands start_date end_date
    = ([], inr out) /\
    columns out = bands /\
    forall j, (j < List.length bands)%nat ->
      exists daily,
        In (nth j bands "", daily) (cols out) /\
        forall i, (i < List.length (date_range start_date end_date))%nat ->
          let day := (start_date + Z.of_nat i)%Z in
          (~ In day (row_dates arr) -> nth i daily nan = nan) /\
          (forall p, (p < List.length arr)%nat ->
             nth p (row_dates arr) 0%Z = day ->
             (forall q, (q < p)%nat -> nth q (row_dates arr) 0%Z <> day) ->
             nth i daily nan = nth p (row_values arr j) nan).
Proof.
  intros Hlimit Hrows.
  destruct (ee_to_df_rows ee_arr lon lat buffer int_limit bands
              start_date end_date arr Hrows)
    as (out & Hrun & _ & Hcols & Hbands).
  exists out. split; [exact Hrun|]. split; [exact Hcols|]. intros j Hj.
  destruct (Hbands j Hj) as (daily & Hin & Hday).
  exists daily. split; [exact Hin|]. intros i Hi day.
  specialize (Hday i Hi). fold day in Hday.
  assert (Hcol : band_column arr int_limit j = row_values arr j).
  { unfold band_column. destruct (Z.ltb_spec 0 int_limit); [lia | reflexivity]. }
  rewrite Hcol in Hday. split.
  - intros Hno. rewrite Hday, (position_None _ _ Hno). reflexivity.
  - intros p Hp Hd Hfirst.
    rewrite Hday, (position_first day (row_dates arr) p); [reflexivity | | exact Hd | exact Hfirst].
    unfold row_dates. rewrite length_map. exact Hp.
Qed.

Lemma ee_to_df_first_row_of_the_day_witness :
  (0 <= 0)%Z /\
  rows_on_days_0_and_2 ["VV"] 0%float 0%float
  = inr [mkRow 0 [Some 1%float]; mkRow 172800000 [Some 3%float]] /\
  exists out,
    ee_to_df rows_on_days_0_and_2 0 0 5 0 ["VV"] 0 2 = ([], inr out) /\
    columns out = ["VV"].
Proof.
  split; [lia|]. split; [reflexivity|].
  destruct (ee_to_df_first_row_of_the_day rows_on_days_0_and_2 0 0 5 0 ["VV"]
              0 2 _ ltac:(lia) eq_refl) as (out & Hrun & Hcols & _).
  exists out. split; [exact Hrun | exact Hcols].
Defined.

(** ** [compile_data]: the list of variables to fetch *)

Lemma remove_present_step (present l : list string) (i : nat) :
  remove_present present l i =
  if (i <? List.length l)%nat then
    if contains (nth i l "") present && contains (nth i l "") l
    then remove_present present (list_remove (nth i l "") l) (S i)
    else remove_present present l (S i)
  else l.
Proof.
  rewrite remove_present_equation_1.
  destruct (lt_dec i (List.length l)) as [Hlt | Hge];
    unfold remove_present_unfold_clause_1;
    destruct (Nat.ltb_spec i (List.length l)); try lia; reflexivity.
Qed.

Lemma list_remove_length (x : string) (l : list string) :
  In x l -> S (List.length (list_remove x l)) = List.length l.
Proof.
  induction l as [|y r IH]; intros Hin; [destruct Hin|].
  simpl. destruct (String.eqb_spec x y) as [-> | Hne]; [reflexivity|].
  simpl. rewrite IH; [reflexivity|]. destruct Hin; [congruence | assumption].
Qed.

Lemma list_remove_In (x v : string) (l : list string) :
  In v (list_remove x l) -> In v l.
Proof.
  induction l as [|y r IH]; simpl; [tauto|].
  destruct (String.eqb x y); simpl; tauto.
Qed.

Lemma list_remove_other (x v : string) (l : list string) :
  In v l -> v <> x -> In v (list_remove x l).
Proof.
  induction l as [|y r IH]; simpl; [tauto|].
  intros [-> | Hin] Hne.
  - destruct (String.eqb_spec x v); [congruence | left; reflexivity].
  - destruct (String.eqb x y); [exact Hin | right; auto].
Qed.

(** The loop, by cases on the variable under the iterator. *)
Lemma remove_present_cases (present : list string)
    (Q : list string -> nat -> list string -> Prop) :
  (forall l i, (List.length l <= i)%nat -> Q l i l) ->
  (forall l i r, (i < List.length l)%nat -> In (nth i l "") present ->
     Q (list_remove (nth i l "") l) (S i) r -> Q l i r) ->
  (forall l i r, (i < List.length l)%nat -> ~ In (nth i l "") present ->
     Q l (S i) r -> Q l i r) ->
  forall l i, Q l i (remove_present present l i).
Proof.
  intros Hend Hremove Hkeep l i.
  remember (List.length l - i)%nat as n eqn:Hn. revert l i Hn.
  induction n as [n IH] using lt_wf_ind. intros l i Hn.
  rewrite remove_present_step.
  destruct (Nat.ltb_spec i (List.length l)) as [Hlt | Hge]; [|apply Hend, Hge].
  assert (Hin : In (nth i l "") l) by (apply nth_In; exact Hlt).
  rewrite (proj2 (contains_In (nth i l "") l) Hin), andb_true_r.
  destruct (contains (nth i l "") present) eqn:E.
  - apply Hremove; [exact Hlt | apply contains_In; exact E |].
    pose proof (list_remove_length _ _ Hin) as Hlen.
    apply (IH (List.length (list_remove (nth i l "") l) - S i)%nat);
      [lia | reflexivity].
  - apply Hkeep; [exact Hlt | |].
    + intros Hp. apply contains_In in Hp. congruence.
    + apply (IH (List.length l - S i)%nat); [lia | reflexivity].
Qed.

(** The list of variables to fetch holds requested variables only, holds
    every requested variable that is not a column of the ground table, and
    is the requested list itself when no requested variable is a ground
    column. *)
Theorem variables_to_fetch_keeps_the_absent (s : settings)
    (df_sm : DataFrame cell) :
  (forall v, In v (variables_to_fetch s df_sm) -> In v (variables s)) /\
  (forall v, In v (variables s) -> ~ In v (columns df_sm) ->
     In v (variables_to_fetch s df_sm)) /\
  ((forall v, In v (variables s) -> ~ In v (columns df_sm)) ->
   variables_to_fetch s df_sm = variables s).
Proof.
  assert (Hfetch : variables_to_fetch s df_sm
                   = remove_present (columns df_sm) (variables s) 0).
  { unfold variables_to_fetch. destruct (overwrite_variables s); reflexivity. }
  rewrite Hfetch. split; [|split].
  - apply (remove_present_cases (columns df_sm)
             (fun l i r => forall v, In v r -> In v l)).
    + auto.
    + intros l i r _ _ IH v Hv. eapply list_remove_In. apply IH, Hv.
    + auto.
  - apply (remove_present_cases (columns df_sm)
             (fun l i r => forall v, In v l -> ~ In v (columns df_sm) -> In v r)).
    + auto.
    + intros l i r _ Hp IH v Hv Habs. apply IH; [|exact Habs].
      apply list_remove_other; [exact Hv | congruence].
    + auto.
  - apply (remove_present_cases (columns df_sm)
             (fun l i r =>
                (forall v, In v l -> ~ In v (columns df_sm)) -> r = l)).
    + auto.
    + intros l i r Hlt Hp _ Hnone. exfalso.
      apply (Hnone (nth i l "")); [apply nth_In; exact Hlt | exact Hp].
    + auto.
Qed.

Lemma skipn_cons_nth (l : list string) (i : nat) :
  (i < List.length l)%nat -> skipn i l = nth i l "" :: skipn (S i) l.
Proof.
  revert i. induction l as [|x r IH]; intros i Hi; simpl in Hi; [lia|].
  destruct i; [reflexivity|]. simpl. apply IH. lia.
Qed.

Lemma firstn_snoc_nth (l : list string) (i : nat) :
  (i < List.length l)%nat -> firstn (S i) l = (firstn i l ++ [nth i l ""])%list.
Proof.
  revert i. induction l as [|x r IH]; intros i Hi; simpl in Hi; [lia|].
  destruct i; [reflexivity|]. simpl. f_equal. apply IH. lia.
Qed.

(** In a list without repeats, [remove] takes the element out of its own
    position. *)
Lemma list_remove_nth (l : list string) (i : nat) :
  NoDup l -> (i < List.length l)%nat ->
  list_remove (nth i l "") l = (firstn i l ++ skipn (S i) l)%list.
Proof.
  revert i. induction l as [|x r IH]; intros i Hnd Hi; simpl in Hi; [lia|].
  inversion Hnd as [|? ? Hx Hr]; subst. destruct i as [|i].
  - simpl. rewrite String.eqb_refl. reflexivity.
  - simpl. destruct (String.eqb_spec (nth i r "") x) as [Heq | Hne].
    + exfalso. apply Hx. rewrite <- Heq. apply nth_In. lia.
    + f_equal. apply IH; [exact Hr | lia].
Qed.

Lemma NoDup_remove_at (l : list string) (i : nat) :
  NoDup l -> NoDup (firstn i l ++ skipn (S i) l)%list.
Proof.
  revert i. induction l as [|x r IH]; intros i Hnd.
  - destruct i; constructor.
  - inversion Hnd as [|? ? Hx Hr]; subst. destruct i as [|i]; simpl.
    + exact Hr.
    + constructor; [|apply IH; exact Hr].
      intros Hin. apply Hx. apply in_app_or in Hin.
      destruct Hin as [Hin | Hin].
      * rewrite <- (firstn_skipn i r). apply in_or_app. left. exact Hin.
      * rewrite <- (firstn_skipn (S i) r). apply in_or_app. right. exact Hin.
Qed.

Lemma remove_present_skips (present l : list string) (i : nat) :
  NoDup l ->
  remove_present present l i
  = (firstn i l ++ skip_remove present (skipn i l))%list.
Proof.
  apply (remove_present_cases present
           (fun l i r =>
              NoDup l -> r = (firstn i l ++ skip_remove present (skipn i l))%list)).
  - intros l0 i0 Hge _. rewrite firstn_all2, skipn_all2 by exact Hge.
    simpl. rewrite app_nil_r. reflexivity.
  - intros l0 i0 r Hlt Hp IH Hnd.
    rewrite (list_remove_nth l0 i0 Hnd Hlt) in IH.
    specialize (IH (NoDup_remove_at l0 i0 Hnd)).
    assert (Hlen : List.length (firstn i0 l0) = i0)
      by (rewrite length_firstn; lia).
    rewrite firstn_app, skipn_app, Hlen in IH.
    rewrite (firstn_all2 (n := S i0) (firstn i0 l0)) in IH by lia.
    rewrite (skipn_all2 (n := S i0) (firstn i0 l0)) in IH by lia.
    replace (S i0 - i0)%nat with 1%nat in IH by lia.
    rewrite (skipn_cons_nth l0 i0 Hlt). cbn [skip_remove].
    rewrite (proj2 (contains_In _ _) Hp).
    rewrite IH. destruct (skipn (S i0) l0) as [|y rest]; simpl.
    + rewrite app_nil_r. reflexivity.
    + rewrite <- app_assoc. reflexivity.
  - intros l0 i0 r Hlt Hp IH Hnd. rewrite (IH Hnd).
    rewrite (firstn_snoc_nth l0 i0 Hlt), (skipn_cons_nth l0 i0 Hlt).
    cbn [skip_remove]. rewrite (not_contains _ _ Hp).
    rewrite <- app_assoc. reflexivity.
Qed.

(** When no variable is requested twice, the list of variables to fetch is
    the requested list without the ground columns, except that the variable
    requested right after a removed one is kept without being looked at:
    of two ground columns requested one after the other, the second is
    fetched again. The setting [overwrite_variables] plays no part. *)
Theorem variables_to_fetch_skips_after_a_removal (s : settings)
    (df_sm : DataFrame cell) :
  NoDup (variables s) ->
  variables_to_fetch s df_sm = skip_remove (columns df_sm) (variables s).
Proof.
  intros Hnd.
  assert (Hfetch : variables_to_fetch s df_sm
                   = remove_present (columns df_sm) (variables s) 0).
  { unfold variables_to_fetch. destruct (overwrite_variables s); reflexivity. }
  rewrite Hfetch, (remove_present_skips _ _ 0 Hnd). reflexivity.
Qed.

Lemma variables_to_fetch_skips_after_a_removal_witness :
  NoDup ["TS"; "TA"; "NDVI"; "P"] /\
  variables_to_fetch (mkSettings ["TS"; "TA"; "NDVI"; "P"] false true)
    icos_ground
  = ["TA"; "NDVI"].
Proof.
  assert (Hnd : NoDup ["TS"; "TA"; "NDVI"; "P"]).
  { repeat constructor; simpl; intuition discriminate. }
  split; [exact Hnd|].
  exact (variables_to_fetch_skips_after_a_removal
           (mkSettings ["TS"; "TA"; "NDVI"; "P"] false true) icos_ground Hnd).
Defined.

(** ** [compile_data]: the columns of the written table *)

Lemma add_columns_prefix (vars base : list string) :
  exists extra, fold_left add_column vars base = (base ++ extra)%list.
Proof.
  revert base. induction vars as [|v vs IH]; intros base; simpl.
  - exists []. rewrite app_nil_r. reflexivity.
  - unfold add_column at 2. destruct (contains v base).
    + apply IH.
    + destruct (IH (base ++ [v])%list) as (extra & ->).
      exists (v :: extra). rewrite <- app_assoc. reflexivity.
Qed.

Lemma add_columns_NoDup (vars base : list string) :
  NoDup base -> NoDup (fold_left add_column vars base).
Proof.
  revert base. induction vars as [|v vs IH]; intros base Hnd; simpl; [exact Hnd|].
  apply IH. unfold add_column. destruct (contains v base) eqn:E; [exact Hnd|].
  apply NoDup_app; [exact Hnd | repeat constructor; intros [] |].
  intros x Hx [<- | []]. apply contains_In in Hx. congruence.
Qed.

Lemma add_columns_In (vars base : list string) (x : string) :
  In x (fold_left add_column vars base) <-> In x base \/ In x vars.
Proof.
  revert base. induction vars as [|v vs IH]; intros base; simpl; [tauto|].
  rewrite IH. unfold add_column. destruct (contains v base) eqn:E.
  - apply contains_In in E. split; [tauto|].
    intros [Hb | [<- | Hv]]; auto.
  - rewrite in_app_iff. simpl. tauto.
Qed.

Lemma add_columns_in_order (vars base : list string) :
  NoDup vars ->
  fold_left add_column vars base
  = (base ++ filter (fun v => negb (contains v base)) vars)%list.
Proof.
  revert base. induction vars as [|v vs IH]; intros base Hnd; simpl.
  - rewrite app_nil_r. reflexivity.
  - inversion Hnd as [|? ? Hv Hvs]; subst.
    unfold add_column at 2. destruct (contains v base) eqn:E; simpl.
    + apply IH. exact Hvs.
    + rewrite (IH _ Hvs), <- app_assoc. simpl. do 2 f_equal.
      apply filter_ext_in. intros x Hx. f_equal.
      unfold contains. rewrite existsb_app. simpl.
      destruct (String.eqb_spec x v) as [-> | Hne]; [contradiction|].
      rewrite !orb_false_r. reflexivity.
Qed.

Lemma output_columns_fold (vars : list string) :
  output_columns vars = fold_left add_column vars base_variables.
Proof. reflexivity. Qed.

(** The columns [compile_data] selects for the written table: the five
    base columns [SITE, SWC, TS, TA, P] first, then every other variable of
    the list, once; no column twice; and, when no variable is listed twice,
    the other variables in the order of the list. *)
Theorem output_columns_order (vars : list string) :
  (exists extra, output_columns vars = (base_variables ++ extra)%list) /\
  NoDup (output_columns vars) /\
  (forall v, In v (output_columns vars) <-> In v base_variables \/ In v vars) /\
  (NoDup vars ->
   output_columns vars
   = (base_variables
      ++ filter (fun v => negb (contains v base_variables)) vars)%list).
Proof.
  rewrite output_columns_fold. split; [apply add_columns_prefix|].
  split; [|split].
  - apply add_columns_NoDup. unfold base_variables.
    repeat constructor; simpl; intuition discriminate.
  - intros v. apply add_columns_In.
  - apply add_columns_in_order.
Qed.

(** ** [assemble_variables]: the tables side by side *)

Lemma positions_from_app (a : nat) (d : Z) (l1 l2 : list Z) :
  positions_from a d (l1 ++ l2)
  = (positions_from a d l1 ++ positions_from (a + List.length l1) d l2)%list.
Proof.
  revert a. induction l1 as [|x r IH]; intros a; simpl.
  - rewrite Nat.add_0_r. reflexivity.
  - rewrite IH. replace (S a + List.length r)%nat
      with (a + S (List.length r))%nat by lia.
    destruct (x =? d)%Z; reflexivity.
Qed.

Lemma outer_rows_of_suffix (l pre suf : list Z) :
  l = (pre ++ suf)%list -> NoDup l ->
  flat_map
    (fun d =>
       match positions d l, positions d l with
       | [], js => map (fun j => (d, (None, Some j))) js
       | ps, [] => map (fun i => (d, (Some i, None))) ps
       | ps, js =>
           flat_map (fun i => map (fun j => (d, (Some i, Some j))) js) ps
       end) suf
  = map (fun id : nat * Z => (snd id, (Some (fst id), Some (fst id))))
        (combine (seq (List.length pre) (List.length suf)) suf).
Proof.
  revert pre. induction suf as [|x suf' IH]; intros pre Hl Hnd;
    [reflexivity|].
  assert (Hx : positions x l = [List.length pre]).
  { subst l. unfold positions. rewrite positions_from_app. simpl.
    rewrite Z.eqb_refl.
    pose proof (NoDup_remove_2 _ _ _ Hnd) as Hno.
    rewrite (positions_from_absent 0 x pre)
      by (intros Hin; apply Hno, in_or_app; left; exact Hin).
    rewrite (positions_from_absent _ x suf')
      by (intros Hin; apply Hno, in_or_app; right; exact Hin).
    reflexivity. }
  set (f := fun d : Z => _).
  change (flat_map f (x :: suf')) with (f x ++ flat_map f suf')%list.
  assert (Hfx : f x = [(x, (Some (List.length pre), Some (List.length pre)))]).
  { unfold f. rewrite Hx. reflexivity. }
  rewrite Hfx. cbn [List.length seq combine map app fst snd]. f_equal.
  replace (S (List.length pre)) with (List.length (pre ++ [x])%list)
    by (rewrite length_app; simpl; lia).
  apply IH; [rewrite <- app_assoc; exact Hl | exact Hnd].
Qed.

Lemma outer_join_same (l : list Z) :
  StronglySorted Z.lt l ->
  outer_join l l
  = map (fun id : nat * Z => (snd id, (Some (fst id), Some (fst id))))
        (enumerate l).
Proof.
  intros Hs. unfold outer_join. rewrite (union_labels_same l Hs).
  apply (outer_rows_of_suffix l [] l); [reflexivity | apply sorted_NoDup, Hs].
Qed.

Lemma enumerate_fst {B} (l : list B) :
  map fst (enumerate l) = seq 0 (List.length l).
Proof.
  unfold enumerate. generalize O.
  induction l as [|x r IH]; intros a; simpl; [reflexivity|].
  rewrite IH. reflexivity.
Qed.

Lemma NoDup_app_disjoint {B} (l1 l2 : list B) :
  NoDup (l1 ++ l2) -> forall a, In a l1 -> ~ In a l2.
Proof.
  induction l1 as [|x r IH]; simpl; intros Hnd a Ha; [destruct Ha|].
  inversion Hnd as [|? ? Hx Hr]; subst. destruct Ha as [-> | Ha].
  - intros Hin. apply Hx, in_or_app. right. exact Hin.
  - apply IH; assumption.
Qed.

Section SideBySide.
Context {A : Type} `{Missing A}.

Lemma take_all (col : list A) :
  take (map Some (seq 0 (List.length col))) col = col.
Proof.
  apply (nth_ext _ _ NA NA).
  - rewrite take_length, length_map, length_seq. reflexivity.
  - intros i Hi. rewrite take_length, length_map, length_seq in Hi.
    rewrite take_nth by (rewrite length_map, length_seq; exact Hi).
    rewrite (nth_map_lt _ _ _ O) by (rewrite length_seq; exact Hi).
    rewrite seq_nth by exact Hi. reflexivity.
Qed.

(** The outer merge of two tables on the same calendar, with no column
    name in common: the columns of the first, then those of the second, on
    that calendar. *)
Lemma merge_outer_side_by_side (calendar : list Z) (left right : DataFrame A) :
  StronglySorted Z.lt calendar ->
  index left = calendar -> index right = calendar ->
  well_formed left -> well_formed right ->
  (forall n, In n (columns left) -> ~ In n (columns right)) ->
  merge Outer left right = mkDF calendar (cols left ++ cols right).
Proof.
  intros Hs Hl Hr Hwl Hwr Hdis. unfold merge. cbn [join].
  rewrite Hl, Hr, (outer_join_same calendar Hs). rewrite !map_map.
  cbn [fst snd]. f_equal; [apply enumerate_snd|].
  assert (Hix : map (fun x : nat * Z => Some (fst x)) (enumerate calendar)
                = map Some (seq 0 (List.length calendar))).
  { rewrite <- enumerate_fst, map_map. reflexivity. }
  rewrite Hix. f_equal.
  - rewrite <- (map_id (cols left)) at 2. apply map_ext_in.
    intros [n col] Hin. cbn [fst snd].
    rewrite (not_contains n (columns right))
      by (apply Hdis, in_map_iff; exists (n, col); auto).
    unfold well_formed, nrows in Hwl. rewrite Forall_forall in Hwl.
    specialize (Hwl _ Hin). cbn [snd] in Hwl. rewrite Hl in Hwl.
    rewrite <- Hwl, take_all. reflexivity.
  - rewrite <- (map_id (cols right)) at 2. apply map_ext_in.
    intros [n col] Hin. cbn [fst snd].
    rewrite (not_contains n (columns left)).
    + unfold well_formed, nrows in Hwr. rewrite Forall_forall in Hwr.
      specialize (Hwr _ Hin). cbn [snd] in Hwr. rewrite Hr in Hwr.
      rewrite <- Hwr, take_all. reflexivity.
    + intros Hleft. apply (Hdis n Hleft).
      apply in_map_iff. exists (n, col). auto.
Qed.

Lemma fold_merge_side_by_side (calendar : list Z) (rest : list (DataFrame A))
    (first : DataFrame A) :
  StronglySorted Z.lt calendar ->
  index first = calendar -> well_formed first ->
  Forall (fun df => index df = calendar /\ well_formed df) rest ->
  NoDup (List.concat (map columns (first :: rest))) ->
  fold_left (merge Outer) rest first
  = mkDF calendar (cols first ++ List.concat (map (@cols A) rest)).
Proof.
  intros Hs. revert first.
  induction rest as [|df rest IH]; intros first Hf Hwf Hall Hnd.
  - simpl. rewrite app_nil_r. destruct first as [idx cs]. simpl in Hf.
    subst idx. reflexivity.
  - destruct (Forall_inv Hall) as [Hdf Hwdf].
    cbn [map List.concat] in Hnd. cbn [fold_left map List.concat].
    assert (Hdis : forall n, In n (columns first) -> ~ In n (columns df)).
    { intros n Hn Hn'. rewrite app_assoc in Hnd.
      apply NoDup_app_remove_r in Hnd.
      exact (NoDup_app_disjoint _ _ Hnd n Hn Hn'). }
    rewrite (merge_outer_side_by_side calendar first df Hs Hf Hdf Hwf Hwdf Hdis).
    rewrite IH.
    + cbn [cols]. rewrite <- app_assoc. reflexivity.
    + reflexivity.
    + unfold well_formed, nrows in *. cbn [cols index].
      apply Forall_app. split.
      * rewrite Hf in Hwf. exact Hwf.
      * rewrite Hdf in Hwdf. exact Hwdf.
    + exact (Forall_inv_tail Hall).
    + cbn [map List.concat]. unfold columns at 1. cbn [cols].
      rewrite map_app, <- app_assoc. exact Hnd.
Qed.

Lemma assign_col_fresh (name : string) (vals : list A) cs :
  ~ In name (map fst cs) -> assign_col name vals cs = (cs ++ [(name, vals)])%list.
Proof.
  induction cs as [|[n c] rest IH]; simpl; intros Hn; [reflexivity|].
  destruct (String.eqb_spec n name) as [-> | Hne]; [tauto|].
  rewrite IH by tauto. reflexivity.
Qed.

End SideBySide.

(** ** [assemble_variables]: the table of each variable *)

Lemma daily_column_value (response : exn + list response_row)
    (int_limit : Z) (band : nat) (calendar : list Z) (i : nat) :
  (i < List.length calendar)%nat ->
  nth i (daily_column (observed_days response)
           (fetched_column response int_limit band) calendar) nan
  = daily_value response int_limit band (nth i calendar 0%Z).
Proof.
  intros Hi. unfold daily_column, daily_value.
  etransitivity.
  { apply (@take_nth float _).
    unfold get_indexer. rewrite length_map. exact Hi. }
  rewrite get_indexer_nth by exact Hi.
  apply (first_occurrence [] (observed_days response)
           (fetched_column response int_limit band) (nth i calendar 0%Z)).
  intros [].
Qed.

Lemma daily_value_unobserved (response : exn + list response_row)
    (int_limit : Z) (band : nat) (day : Z) :
  ~ In day (observed_days response) ->
  daily_value response int_limit band day = nan.
Proof.
  intros Hno. unfold daily_value. rewrite (position_None _ _ Hno). reflexivity.
Qed.

Section Tables.
Variable ee : service.
Variables lon lat : float.
Variables start_date end_date : Z.

Let calendar : list Z := date_range start_date end_date.

Lemma ee_to_df_one_band (ee_arr : collection) (buffer int_limit : Z)
    (band : string) :
  outcome (ee_to_df ee_arr lon lat buffer int_limit [band] start_date end_date)
  = inr (mkDF calendar
           [(band,
             daily_column (observed_days (ee_arr [band] lon lat))
               (fetched_column (ee_arr [band] lon lat) int_limit 0)
               calendar)]).
Proof.
  rewrite ee_to_df_eq. destruct (ee_arr [band] lon lat); reflexivity.
Qed.

Lemma ee_to_df_two_bands (ee_arr : collection) (buffer int_limit : Z)
    (band_1 band_2 : string) :
  outcome (ee_to_df ee_arr lon lat buffer int_limit [band_1; band_2]
             start_date end_date)
  = inr (mkDF calendar
           [(band_1,
             daily_column (observed_days (ee_arr [band_1; band_2] lon lat))
               (fetched_column (ee_arr [band_1; band_2] lon lat) int_limit 0)
               calendar);
            (band_2,
             daily_column (observed_days (ee_arr [band_1; band_2] lon lat))
               (fetched_column (ee_arr [band_1; band_2] lon lat) int_limit 1)
               calendar)]).
Proof.
  rewrite ee_to_df_eq. destruct (ee_arr [band_1; band_2] lon lat); reflexivity.
Qed.

Lemma one_column_table (name : string) (col : list float) :
  List.length col = List.length calendar ->
  daily_table calendar [name] (mkDF calendar [(name, col)]).
Proof.
  intros Hlen. repeat split. constructor; [exact Hlen | constructor].
Qed.

Lemma land_surface_temperature_table :
  outcome (land_surface_temperature ee lon lat start_date end_date)
  = inr (mkDF calendar
           [("TS",
             map (fun x => x * 0.02 - 273.15)%float
               (daily_column
                  (observed_days
                     (ee "MODIS/006/MOD11A1" start_date end_date
                         ["LST_Day_1km"] lon lat))
                  (fetched_column
                     (ee "MODIS/006/MOD11A1" start_date end_date
                         ["LST_Day_1km"] lon lat) 5 0)
                  calendar))]).
Proof.
  unfold land_surface_temperature.
  rewrite outcome_bind, ee_to_df_one_band. reflexivity.
Qed.

Lemma backscatter_table (polarisation : string) :
  outcome (backscatter ee polarisation lon lat start_date end_date)
  = inr (mkDF calendar
           [(polarisation,
             daily_column
               (observed_days
                  (ee "COPERNICUS/S1_GRD" start_date end_date
                      [polarisation] lon lat))
               (fetched_column
                  (ee "COPERNICUS/S1_GRD" start_date end_date
                      [polarisation] lon lat) 0 0)
               calendar)]).
Proof. unfold backscatter. apply ee_to_df_one_band. Qed.

Lemma air_temperature_table :
  outcome (air_temperature ee lon lat start_date end_date)
  = inr (mkDF calendar
           [("TA",
             map (fun x => x - 273.15)%float
               (daily_column
                  (observed_days
                     (ee "ECMWF/ERA5/DAILY" start_date end_date
                         ["mean_2m_air_temperature"] lon lat))
                  (fetched_column
                     (ee "ECMWF/ERA5/DAILY" start_date end_date
                         ["mean_2m_air_temperature"] lon lat) 0 0)
                  calendar))]).
Proof.
  unfold air_temperature.
  rewrite outcome_bind, ee_to_df_one_band. reflexivity.
Qed.

(** The index column of an optical table, from the daily values of its two
    bands. *)
Lemma ndvi_table (s : settings) :
  let response :=
    ee "COPERNICUS/S2_SR" start_date end_date ["B4"; "B8"] lon lat in
  let daily band :=
    daily_column (observed_days response) (fetched_column response 0 band)
      calendar in
  outcome (optical_index ee "NDVI" "B8" "B4" ["B4"; "B8"]
             lon lat start_date end_date s)
  = inr (mkDF calendar
           [("NDVI",
             if interpolate_index s
             then interpolate 30
                    (map2 normalized_difference (daily 1%nat) (daily 0%nat))
             else map2 normalized_difference (daily 1%nat) (daily 0%nat))]).
Proof.
  intros response daily. unfold optical_index.
  rewrite outcome_bind, ee_to_df_two_bands.
  destruct (interpolate_index s); reflexivity.
Qed.

Lemma ndwi_table (s : settings) :
  let response :=
    ee "COPERNICUS/S2_SR" start_date end_date ["B8A"; "B11"] lon lat in
  let daily band :=
    daily_column (observed_days response) (fetched_column response 0 band)
      calendar in
  outcome (optical_index ee "NDWI" "B8A" "B11" ["B8A"; "B11"]
             lon lat start_date end_date s)
  = inr (mkDF calendar
           [("NDWI",
             if interpolate_index s
             then interpolate 30
                    (map2 normalized_difference (daily 0%nat) (daily 1%nat))
             else map2 normalized_difference (daily 0%nat) (daily 1%nat))]).
Proof.
  intros response daily. unfold optical_index.
  rewrite outcome_bind, ee_to_df_two_bands.
  destruct (interpolate_index s); reflexivity.
Qed.

End Tables.

Lemma conversion_value (response : exn + list response_row) (int_limit : Z)
    (f : float -> float) (start_date end_date : Z) (i : nat) :
  (i < List.length (date_range start_date end_date))%nat ->
  nth i (map f (daily_column (observed_days response)
                  (fetched_column response int_limit 0)
                  (date_range start_date end_date))) nan
  = f (daily_value response int_limit 0 (start_date + Z.of_nat i)%Z).
Proof.
  intros Hi.
  rewrite (nth_map_lt _ _ _ nan) by (rewrite daily_column_length; exact Hi).
  rewrite daily_column_value by exact Hi.
  rewrite date_range_nth by exact Hi. reflexivity.
Qed.

(** The two temperature tables of [assemble_variables]. The land surface
    temperature table has the one column [TS], with on each day of the range
    [v * 0.02 - 273.15] for the value [v] of the MODIS band on that day (the
    first returned row of the day, after the interpolation over the returned
    rows with the limit [5]); the air temperature table has the one column
    [TA], with [v - 273.15] for the ERA5 value of the day (no
    interpolation). A day without a returned row is missing in both. *)
Theorem kelvin_to_celsius (ee : service) (lon lat : float)
    (start_date end_date : Z) :
  let calendar := date_range start_date end_date in
  let modis :=
    ee "MODIS/006/MOD11A1" start_date end_date ["LST_Day_1km"] lon lat in
  let era5 :=
    ee "ECMWF/ERA5/DAILY" start_date end_date ["mean_2m_air_temperature"]
       lon lat in
  (exists TS,
      outcome (land_surface_temperature ee lon lat start_date end_date)
      = inr (mkDF calendar [("TS", TS)]) /\
      List.length TS = List.length calendar /\
      forall i, (i < List.length calendar)%nat ->
        let day := (start_date + Z.of_nat i)%Z in
        nth i TS nan = (daily_value modis 5 0 day * 0.02 - 273.15)%float /\
        (~ In day (observed_days modis) -> nth i TS nan = nan)) /\
  (exists TA,
      outcome (air_temperature ee lon lat start_date end_date)
      = inr (mkDF calendar [("TA", TA)]) /\
      List.length TA = List.length calendar /\
      forall i, (i < List.length calendar)%nat ->
        let day := (start_date + Z.of_nat i)%Z in
        nth i TA nan = (daily_value era5 0 0 day - 273.15)%float /\
        (~ In day (observed_days era5) -> nth i TA nan = nan)).
Proof.
  intros calendar modis era5. split.
  - eexists. split; [apply land_surface_temperature_table|].
    split; [rewrite length_map; apply daily_column_length|].
    intros i Hi day. fold modis.
    rewrite (conversion_value modis 5 _ start_date end_date i Hi). fold day.
    split; [reflexivity|]. intros Hno.
    rewrite (daily_value_unobserved _ _ _ _ Hno). reflexivity.
  - eexists. split; [apply air_temperature_table|].
    split; [rewrite length_map; apply daily_column_length|].
    intros i Hi day. fold era5.
    rewrite (conversion_value era5 0 _ start_date end_date i Hi). fold day.
    split; [reflexivity|]. intros Hno.
    rewrite (daily_value_unobserved _ _ _ _ Hno). reflexivity.
Qed.

Lemma index_column_value (response : exn + list response_row)
    (band_1 band_2 : nat) (start_date end_date : Z) (i : nat) :
  (i < List.length (date_range start_date end_date))%nat ->
  nth i (map2 normalized_difference
           (daily_column (observed_days response)
              (fetched_column response 0 band_1)
              (date_range start_date end_date))
           (daily_column (observed_days response)
              (fetched_column response 0 band_2)
              (date_range start_date end_date))) nan
  = normalized_difference
      (daily_value response 0 band_1 (start_date + Z.of_nat i)%Z)
      (daily_value response 0 band_2 (start_date + Z.of_nat i)%Z).
Proof.
  intros Hi.
  rewrite (map2_nth _ _ _ i nan nan nan)
    by (rewrite daily_column_length; exact Hi).
  rewrite !daily_column_value by exact Hi.
  rewrite date_range_nth by exact Hi. reflexivity.
Qed.

Lemma index_column_length (response : exn + list response_row)
    (band_1 band_2 : nat) (calendar : list Z) (flag : bool) :
  let column :=
    map2 normalized_difference
      (daily_column (observed_days response)
         (fetched_column response 0 band_1) calendar)
      (daily_column (observed_days response)
         (fetched_column response 0 band_2) calendar) in
  List.length (if flag then interpolate 30 column else column)
  = List.length calendar.
Proof.
  intros column. assert (Hlen : List.length column = List.length calendar).
  { unfold column. rewrite map2_length, !daily_column_length.
    apply Nat.min_id. }
  destruct flag; [rewrite interpolate_length|]; exact Hlen.
Qed.

(** The two optical tables of [assemble_variables] have the one column
    [NDVI] (or [NDWI]): the fetched bands are dropped. The index of a day
    is computed from the values the two bands have on that day, after they
    were put on the calendar: [(B8 - B4) / (B8 + B4)] for [NDVI] and
    [(B8A - B11) / (B8A + B11)] for [NDWI]. With [interpolate_index] unset
    this is the value of every day; with it set, of every day on which that
    quotient is a number. *)
Theorem optical_index_of_the_day (ee : service) (lon lat : float)
    (start_date end_date : Z) (s : settings) :
  let calendar := date_range start_date end_date in
  let red_nir :=
    ee "COPERNICUS/S2_SR" start_date end_date ["B4"; "B8"] lon lat in
  let nir_swir :=
    ee "COPERNICUS/S2_SR" start_date end_date ["B8A"; "B11"] lon lat in
  (exists NDVI,
      outcome (optical_index ee "NDVI" "B8" "B4" ["B4"; "B8"]
                 lon lat start_date end_date s)
      = inr (mkDF calendar [("NDVI", NDVI)]) /\
      List.length NDVI = List.length calendar /\
      forall i, (i < List.length calendar)%nat ->
        let day := (start_date + Z.of_nat i)%Z in
        let B4 := daily_value red_nir 0 0 day in
        let B8 := daily_value red_nir 0 1 day in
        interpolate_index s = false \/ isna ((B8 - B4) / (B8 + B4)) = false ->
        nth i NDVI nan = ((B8 - B4) / (B8 + B4))%float) /\
  (exists NDWI,
      outcome (optical_index ee "NDWI" "B8A" "B11" ["B8A"; "B11"]
                 lon lat start_date end_date s)
      = inr (mkDF calendar [("NDWI", NDWI)]) /\
      List.length NDWI = List.length calendar /\
      forall i, (i < List.length calendar)%nat ->
        let day := (start_date + Z.of_nat i)%Z in
        let B8A := daily_value nir_swir 0 0 day in
        let B11 := daily_value nir_swir 0 1 day in
        interpolate_index s = false \/ isna ((B8A - B11) / (B8A + B11)) = false ->
        nth i NDWI nan = ((B8A - B11) / (B8A + B11))%float).
Proof.
  intros calendar red_nir nir_swir. split.
  - eexists. split; [apply ndvi_table|].
    split; [apply index_column_length|].
    intros i Hi day B4 B8 Hv. fold red_nir.
    pose proof (index_column_value red_nir 1 0 start_date end_date i Hi) as Hi'.
    fold day in Hi'. fold B4 in Hi'. fold B8 in Hi'.
    destruct (interpolate_index s).
    + destruct Hv as [Hv | Hv]; [discriminate|].
      rewrite interpolate_keeps_values; rewrite Hi'; [reflexivity | exact Hv].
    + exact Hi'.
  - eexists. split; [apply ndwi_table|].
    split; [apply index_column_length|].
    intros i Hi day B8A B11 Hv. fold nir_swir.
    pose proof (index_column_value nir_swir 0 1 start_date end_date i Hi) as Hi'.
    fold day in Hi'. fold B8A in Hi'. fold B11 in Hi'.
    destruct (interpolate_index s).
    + destruct Hv as [Hv | Hv]; [discriminate|].
      rewrite interpolate_keeps_values; rewrite Hi'; [reflexivity | exact Hv].
    + exact Hi'.
Qed.

(** ** [assemble_variables]: the merged table *)

Section Assembled.
Variable ee : service.
Variables lon lat : float.
Variables start_date end_date : Z.

Let calendar : list Z := date_range start_date end_date.

Lemma land_surface_temperature_daily :
  returns (land_surface_temperature ee lon lat start_date end_date)
    (daily_table calendar ["TS"]).
Proof.
  eexists. split; [apply land_surface_temperature_table|].
  apply one_column_table. rewrite length_map. apply daily_column_length.
Qed.

Lemma backscatter_daily (polarisation : string) :
  returns (backscatter ee polarisation lon lat start_date end_date)
    (daily_table calendar [polarisation]).
Proof.
  eexists. split; [apply backscatter_table|].
  apply one_column_table. apply daily_column_length.
Qed.

Lemma ndvi_daily (s : settings) :
  returns (optical_index ee "NDVI" "B8" "B4" ["B4"; "B8"]
             lon lat start_date end_date s)
    (daily_table calendar ["NDVI"]).
Proof.
  eexists. split; [apply ndvi_table|].
  apply one_column_table. apply index_column_length.
Qed.

Lemma ndwi_daily (s : settings) :
  returns (optical_index ee "NDWI" "B8A" "B11" ["B8A"; "B11"]
             lon lat start_date end_date s)
    (daily_table calendar ["NDWI"]).
Proof.
  eexists. split; [apply ndwi_table|].
  apply one_column_table. apply index_column_length.
Qed.

Lemma air_temperature_daily :
  returns (air_temperature ee lon lat start_date end_date)
    (daily_table calendar ["TA"]).
Proof.
  eexists. split; [apply air_temperature_table|].
  apply one_column_table. rewrite length_map. apply daily_column_length.
Qed.

Lemma precipitation_daily :
  returns (precipitation ee lon lat start_date end_date)
    (daily_table calendar ["P"; "DD"]).
Proof.
  destruct (precipitation_table ee lon lat start_date end_date) as (col & Hrun).
  eexists. split; [exact Hrun|]. repeat split.
  repeat constructor; cbn [snd]; unfold nrows; cbn [index].
  - rewrite length_map. apply daily_column_length.
  - rewrite length_map. unfold dry_streak.
    rewrite dry_streak_from_length, length_map. apply daily_column_length.
Qed.

Lemma append_if_appended (requested : bool) (names : list string)
    (table : M (DataFrame float)) (dataframes : list (DataFrame float)) :
  returns table (daily_table calendar names) ->
  Forall (fun df => index df = calendar /\ well_formed df) dataframes ->
  returns (append_if requested table dataframes)
    (appended calendar requested names dataframes).
Proof.
  intros (df & Hrun & Hidx & Hcols & Hwf) Hall. unfold append_if, appended.
  destruct requested.
  - exists (dataframes ++ [df])%list. rewrite outcome_bind, Hrun.
    split; [reflexivity|]. split.
    + apply Forall_app. split; [exact Hall|]. repeat constructor; assumption.
    + rewrite map_app. simpl. rewrite Hcols. reflexivity.
  - exists dataframes. split; [reflexivity|]. split; [exact Hall|].
    rewrite app_nil_r. reflexivity.
Qed.

Lemma append_or_warn_appended (requested : bool) (variable : string)
    (names : list string) (table : M (DataFrame float))
    (dataframes : list (DataFrame float)) :
  returns table (daily_table calendar names) ->
  Forall (fun df => index df = calendar /\ well_formed df) dataframes ->
  returns (append_or_warn requested variable table dataframes)
    (appended calendar requested names dataframes).
Proof.
  intros Htable Hall. unfold append_or_warn.
  pose proof (append_if_appended requested names table dataframes Htable Hall)
    as Hif.
  unfold append_if in Hif. destruct requested.
  - apply returns_try_except. exact Hif.
  - exact Hif.
Qed.

(** The tables [assemble_variables] has fetched when it merges: each on
    the calendar, with the columns of its variable, in the fixed order of
    the code. *)
Lemma fetch_variables_tables (variable_list : list string) (s : settings) :
  returns (fetch_variables ee lon lat start_date end_date variable_list s)
    (fun l =>
       Forall (fun df => index df = calendar /\ well_formed df) l /\
       map columns l = expected_columns variable_list).
Proof.
  unfold fetch_variables.
  eapply returns_bind.
  { apply (append_if_appended _ ["TS"]);
      [apply land_surface_temperature_daily | constructor]. }
  intros l1 [H1 C1]. eapply returns_bind.
  { apply (append_or_warn_appended _ _ ["VV"]);
      [apply backscatter_daily | exact H1]. }
  intros l2 [H2 C2]. eapply returns_bind.
  { apply (append_or_warn_appended _ _ ["VH"]);
      [apply backscatter_daily | exact H2]. }
  intros l3 [H3 C3]. eapply returns_bind.
  { apply (append_if_appended _ ["NDVI"]); [apply ndvi_daily | exact H3]. }
  intros l4 [H4 C4]. eapply returns_bind.
  { apply (append_if_appended _ ["NDWI"]); [apply ndwi_daily | exact H4]. }
  intros l5 [H5 C5]. eapply returns_bind.
  { apply (append_if_appended _ ["TA"]);
      [apply air_temperature_daily | exact H5]. }
  intros l6 [H6 C6].
  eapply returns_weaken.
  { apply (append_if_appended _ ["P"; "DD"]);
      [apply precipitation_daily | exact H6]. }
  intros l7 [H7 C7]. split; [exact H7|].
  rewrite C7, C6, C5, C4, C3, C2, C1. unfold expected_columns.
  cbn [map app]. rewrite <- !app_assoc. reflexivity.
Qed.

End Assembled.

Lemma expected_columns_known (variable_list : list string) (n : string) :
  In n (List.concat (expected_columns variable_list)) ->
  In n ["TS"; "VV"; "VH"; "NDVI"; "NDWI"; "TA"; "P"; "DD"].
Proof.
  unfold expected_columns.
  destruct (contains "TS" variable_list), (contains "VV" variable_list),
    (contains "VH" variable_list), (contains "NDVI" variable_list),
    (contains "NDWI" variable_list), (contains "TA" variable_list),
    (contains "P" variable_list); simpl; tauto.
Qed.

Lemma NoDup_by_nodup (l : list string) : nodup string_dec l = l -> NoDup l.
Proof. intros <-. apply NoDup_nodup. Qed.

Lemma expected_columns_NoDup (variable_list : list string) :
  NoDup (List.concat (expected_columns variable_list)).
Proof.
  unfold expected_columns.
  destruct (contains "TS" variable_list), (contains "VV" variable_list),
    (contains "VH" variable_list), (contains "NDVI" variable_list),
    (contains "NDWI" variable_list), (contains "TA" variable_list),
    (contains "P" variable_list); apply NoDup_by_nodup; reflexivity.
Qed.

Lemma expected_columns_nonempty (variable_list : list string) :
  requests_a_table variable_list -> expected_columns variable_list <> [].
Proof.
  intros (v & Hv & Hin). apply contains_In in Hin.
  unfold expected_columns, fetchable in *. simpl in Hv.
  destruct Hv as [<- | [<- | [<- | [<- | [<- | [<- | [<- | []]]]]]]];
    rewrite Hin;
    destruct (contains "TS" variable_list), (contains "VV" variable_list),
      (contains "VH" variable_list), (contains "NDVI" variable_list),
      (contains "NDWI" variable_list), (contains "TA" variable_list),
      (contains "P" variable_list); discriminate.
Qed.

Lemma concat_columns (l : list (DataFrame float)) :
  map fst (List.concat (map (@cols float) l)) = List.concat (map columns l).
Proof.
  induction l as [|df r IH]; simpl; [reflexivity|].
  rewrite map_app, IH. reflexivity.
Qed.

Lemma concat_cols_lengths (calendar : list Z) (l : list (DataFrame float)) :
  Forall (fun df => index df = calendar /\ well_formed df) l ->
  Forall (fun c : string * list float =>
            List.length (snd c) = List.length calendar)
    (List.concat (map (@cols float) l)).
Proof.
  induction 1 as [|df r [Hidx Hwf] Hall IH]; simpl; [constructor|].
  apply Forall_app. split; [|exact IH].
  unfold well_formed, nrows in Hwf. rewrite Hidx in Hwf. exact Hwf.
Qed.

(** The table [assemble_variables] returns, from the tables it fetched. *)
Lemma assemble_variables_tables (ee : service) (lon lat : float)
    (first_day last_day : Z) (variable_list : list string)
    (point_id : string) (s : settings) :
  requests_a_table variable_list ->
  exists tables,
    outcome (fetch_variables ee lon lat first_day last_day variable_list s)
    = inr tables /\
    map columns tables = expected_columns variable_list /\
    Forall (fun df => index df = date_range first_day last_day
                      /\ well_formed df) tables /\
    outcome (assemble_variables ee lon lat first_day last_day variable_list
               point_id s)
    = inr (mkDF (date_range first_day last_day)
             (map as_cells (List.concat (map (@cols float) tables))
              ++ [("SITE",
                   repeat (Str point_id)
                     (List.length (date_range first_day last_day)))])).
Proof.
  intros Hreq.
  destruct (fetch_variables_tables ee lon lat first_day last_day
              variable_list s) as (tables & Hfetch & Hall & Hcols).
  exists tables. split; [exact Hfetch|]. split; [exact Hcols|].
  split; [exact Hall|].
  destruct tables as [|first rest].
  { exfalso. apply (expected_columns_nonempty variable_list Hreq).
    rewrite <- Hcols. reflexivity. }
  unfold assemble_variables. rewrite outcome_bind, Hfetch.
  cbn [reduce try_except_only try_except Py.bind ret app fst snd outcome].
  pose proof (expected_columns_NoDup variable_list) as Hnd.
  rewrite <- Hcols in Hnd.
  rewrite (fold_merge_side_by_side (date_range first_day last_day) rest first
             (date_range_sorted _ _) (proj1 (Forall_inv Hall))
             (proj2 (Forall_inv Hall)) (Forall_inv_tail Hall) Hnd).
  unfold setcol_scalar, setcol, map_values, nrows. cbn [index cols].
  rewrite assign_col_fresh.
  - reflexivity.
  - rewrite map_map. cbn [fst].
    change (cols first ++ List.concat (map (@cols float) rest))%list
      with (List.concat (map (@cols float) (first :: rest))).
    rewrite concat_columns, Hcols. intros Hsite.
    apply expected_columns_known in Hsite. simpl in Hsite.
    intuition discriminate.
Qed.

Lemma lookup_col_NoDup {A} (cs : list (string * list A)) (n : string)
    (c : list A) :
  NoDup (map fst cs) -> In (n, c) cs -> lookup_col n cs = Some c.
Proof.
  induction cs as [|[n' c'] rest IH]; simpl; intros Hnd Hin; [destruct Hin|].
  inversion Hnd as [|? ? Hn Hrest]; subst.
  destruct Hin as [[= -> ->] | Hin].
  - rewrite String.eqb_refl. reflexivity.
  - destruct (String.eqb_spec n' n) as [-> | Hne].
    + exfalso. apply Hn. apply in_map_iff. exists (n, c). auto.
    + apply IH; assumption.
Qed.

Lemma assembled_names (variable_list : list string)
    (tables : list (DataFrame float)) (site : list cell) :
  map columns tables = expected_columns variable_list ->
  map fst (map as_cells (List.concat (map (@cols float) tables))
           ++ [("SITE", site)])
  = (List.concat (expected_columns variable_list) ++ ["SITE"])%list /\
  NoDup (List.concat (expected_columns variable_list) ++ ["SITE"])%list.
Proof.
  intros Hcols. split.
  - rewrite map_app, map_map. cbn [as_cells fst map].
    rewrite concat_columns, Hcols. reflexivity.
  - apply NoDup_app.
    + apply expected_columns_NoDup.
    + repeat constructor. intros [].
    + intros n Hn [<- | []]. apply expected_columns_known in Hn.
      simpl in Hn. intuition discriminate.
Qed.

(** The columns of the table [assemble_variables] returns are those of the
    requested variables it knows, in the order [TS, VV, VH, NDVI, NDWI, TA,
    P, DD] (with [DD] after [P] whenever [P] is requested), then [SITE],
    each once: the order and the repetitions of the requested list, and the
    names in it that the code does not know, play no part. *)
Theorem assembled_columns_in_fixed_order (ee : service) (lon lat : float)
    (first_day last_day : Z) (variable_list : list string)
    (point_id : string) (s : settings) :
  requests_a_table variable_list ->
  exists out,
    outcome (assemble_variables ee lon lat first_day last_day variable_list
               point_id s) = inr out /\
    columns out
    = (List.concat (expected_columns variable_list) ++ ["SITE"])%list /\
    NoDup (columns out).
Proof.
  intros Hreq.
  destruct (assemble_variables_tables ee lon lat first_day last_day
              variable_list point_id s Hreq)
    as (tables & _ & Hcols & _ & Hrun).
  eexists. split; [exact Hrun|]. unfold columns. cbn [cols].
  destruct (assembled_names variable_list tables
              (repeat (Str point_id)
                 (List.length (date_range first_day last_day))) Hcols)
    as [Hnames Hnd].
  rewrite Hnames. split; [reflexivity | exact Hnd].
Qed.

Lemma assembled_columns_in_fixed_order_witness :
  requests_a_table ["P"; "LAI"; "TS"; "P"] /\
  exists out,
    outcome (assemble_variables (fun _ _ _ => two_band_rows) 0 0 0 2
               ["P"; "LAI"; "TS"; "P"] "DE-Hai"
               (mkSettings ["P"; "LAI"; "TS"; "P"] false true)) = inr out /\
    columns out = ["TS"; "P"; "DD"; "SITE"].
Proof.
  assert (Hreq : requests_a_table ["P"; "LAI"; "TS"; "P"]).
  { exists "P". split; [|left; reflexivity]. unfold fetchable. simpl. tauto. }
  split; [exact Hreq|].
  destruct (assembled_columns_in_fixed_order (fun _ _ _ => two_band_rows)
              0 0 0 2 ["P"; "LAI"; "TS"; "P"] "DE-Hai"
              (mkSettings ["P"; "LAI"; "TS"; "P"] false true) Hreq)
    as (out & Hrun & Hcols & _).
  exists out. split; [exact Hrun | exact Hcols].
Defined.

(** The outer merges of [assemble_variables] put the fetched tables side
    by side on the calendar of the site: the returned table has one row per
    day of the range, every column of every fetched table is in it under its
    own name with the same values day by day (nothing is duplicated,
    shifted or renamed), and its [SITE] column holds the site identifier on
    every row. *)
Theorem assembled_tables_side_by_side (ee : service) (lon lat : float)
    (first_day last_day : Z) (variable_list : list string)
    (point_id : string) (s : settings) :
  requests_a_table variable_list ->
  exists tables out,
    outcome (fetch_variables ee lon lat first_day last_day variable_list s)
    = inr tables /\
    outcome (assemble_variables ee lon lat first_day last_day variable_list
               point_id s) = inr out /\
    index out = date_range first_day last_day /\
    well_formed out /\
    (forall df name column,
        In df tables -> In (name, column) (cols df) ->
        lookup_col name (cols out) = Some (map Num column)) /\
    lookup_col "SITE" (cols out)
    = Some (repeat (Str point_id)
              (List.length (date_range first_day last_day))).
Proof.
  intros Hreq.
  destruct (assemble_variables_tables ee lon lat first_day last_day
              variable_list point_id s Hreq)
    as (tables & Hfetch & Hcols & Hall & Hrun).
  set (site := repeat (Str point_id)
                 (List.length (date_range first_day last_day))) in *.
  destruct (assembled_names variable_list tables site Hcols) as [Hnames Hnd].
  rewrite <- Hnames in Hnd.
  exists tables. eexists. split; [exact Hfetch|]. split; [exact Hrun|].
  cbn [index cols]. split; [reflexivity|]. split; [|split].
  - unfold well_formed, nrows. cbn [index cols]. apply Forall_app. split.
    + pose proof (concat_cols_lengths _ _ Hall) as Hlen.
      rewrite Forall_forall in *. intros c Hc. apply in_map_iff in Hc.
      destruct Hc as (c' & <- & Hc'). cbn [as_cells snd].
      rewrite length_map. apply Hlen, Hc'.
    + repeat constructor. cbn [snd]. unfold site. apply repeat_length.
  - intros df name column Hdf Hcol. apply (lookup_col_NoDup _ _ _ Hnd).
    apply in_or_app. left. apply in_map_iff. exists (name, column).
    split; [reflexivity|]. apply in_concat. exists (cols df).
    split; [apply in_map; exact Hdf | exact Hcol].
  - apply (lookup_col_NoDup _ _ _ Hnd). apply in_or_app. right. left.
    reflexivity.
Qed.

Lemma assembled_tables_side_by_side_witness :
  requests_a_table ["NDVI"; "VV"] /\
  exists out,
    outcome (assemble_variables (fun _ _ _ => two_band_rows) 0 0 0 2
               ["NDVI"; "VV"] "DE-Hai" (mkSettings ["NDVI"; "VV"] false false))
    = inr out /\
    index out = [0; 1; 2]%Z.
Proof.
  assert (Hreq : requests_a_table ["NDVI"; "VV"]).
  { exists "VV". split; [|right; left; reflexivity].
    unfold fetchable. simpl. tauto. }
  split; [exact Hreq|].
  destruct (assembled_tables_side_by_side (fun _ _ _ => two_band_rows)
              0 0 0 2 ["NDVI"; "VV"] "DE-Hai"
              (mkSettings ["NDVI"; "VV"] false false) Hreq)
    as (tables & out & _ & Hrun & Hidx & _).
  exists out. split; [exact Hrun | exact Hidx].
Defined.

(** ** [compile_data]: the rows of the compiled table *)

Lemma try_except_only_returned {A} (classes : list exn) (m : M A)
    (handler : exn -> M A) (a : A) :
  outcome m = inr a -> outcome (try_except_only classes m handler) = inr a.
Proof.
  destruct m as [out [e | a']]; cbn [outcome snd]; intros Hm;
    [discriminate | exact Hm].
Qed.

Section CompiledRows.
Variable ee : service.
Variable s : settings.
Variable df_sm : DataFrame cell.
Variable variable_list : list string.
Hypothesis Hsite : In "SITE" (columns df_sm).
Hypothesis Hreq : requests_a_table variable_list.

(** The per-site table of a site whose entry has its four keys. *)
Lemma site_table_labels (ground : DataFrame cell) (station : string)
    (lon lat : float) (first_day last_day : Z) :
  In "SITE" (columns ground) ->
  exists out,
    outcome (site_table ee s ground variable_list station
               (mkMeta (Some lon) (Some lat) (Some first_day) (Some last_day)))
    = inr out /\
    index out =
    flat_map
      (fun d => repeat d (Nat.max 1 (count_occ Z.eq_dec (index ground) d)))
      (date_range first_day last_day).
Proof.
  intros Hground.
  destruct (assemble_variables_returns ee lon lat first_day last_day
              variable_list station s Hreq) as (df_ee & Hrun & Hidx & Hcol).
  set (reindexed :=
         mkDF (date_range first_day last_day)
           (map (fun c => (fst c,
                           take (get_indexer (index df_ee)
                                   (date_range first_day last_day)) (snd c)))
                (cols df_ee))).
  set (merged := rename (merge Left reindexed ground) "SITE_x" "SITE").
  assert (Hy : contains "SITE_y" (columns merged) = true).
  { apply contains_In. unfold merged. rewrite rename_columns.
    apply in_map_iff. exists "SITE_y". split; [reflexivity|].
    rewrite merge_columns. apply in_or_app. right.
    apply in_map_iff. exists "SITE". split; [|exact Hground].
    assert (Hleft : contains "SITE" (columns reindexed) = true).
    { apply contains_In. unfold reindexed, columns. cbn [cols].
      rewrite map_map. exact Hcol. }
    rewrite Hleft. reflexivity. }
  exists (mkDF (index merged)
            (filter (fun c => negb (contains (fst c) ["SITE_y"])) (cols merged))).
  split.
  - unfold site_table. cbn [longitude latitude start_date end_date getitem].
    rewrite !bind_ret, outcome_bind, Hrun, !bind_ret.
    rewrite reindex_NoDup by (rewrite Hidx; apply date_range_NoDup).
    rewrite bind_ret. fold reindexed. fold merged.
    unfold drop. cbn [forallb]. rewrite Hy. reflexivity.
  - cbn [index]. unfold merged. cbn [rename index].
    rewrite merge_index. cbn [join]. apply left_join_labels.
Qed.

(** One turn of the loop never raises: it adds the labels of the site. *)
Lemma station_step_labels (i_start i_end : nat) (station : string)
    (meta : site_meta) (df : DataFrame cell) :
  exists out,
    outcome (station_step ee s df_sm variable_list i_start i_end
               station meta df) = inr out /\
    index out = (index df ++ site_labels df_sm (station, meta))%list.
Proof.
  destruct meta as [[lon|] [lat|] [first_day|] [last_day|]];
    try (exists df; split;
         [apply station_step_skips; [exact Hsite | unfold lacks_a_key; simpl; tauto]
         | unfold site_labels; cbn [snd longitude latitude start_date end_date];
           rewrite app_nil_r; reflexivity]).
  rewrite station_step_outcome.
  destruct (ground_rows_returns df_sm station Hsite)
    as (rows & Hrows & site & Hlook & ->).
  rewrite Hrows.
  assert (Hground : In "SITE"
            (columns (loc_mask df_sm
                        (map (fun c => cell_eqb_str c station) site)))).
  { unfold columns, loc_mask. cbn [cols]. rewrite map_map. exact Hsite. }
  destruct (site_table_labels _ station lon lat first_day last_day Hground)
    as (out & Hrun & Hidx).
  exists (concat df out). split.
  - apply try_except_only_returned. rewrite outcome_bind, Hrun. reflexivity.
  - cbn [concat index]. rewrite Hidx. unfold site_labels, ground_index.
    cbn [fst snd longitude latitude start_date end_date]. rewrite Hlook.
    reflexivity.
Qed.

Lemma stations_loop_labels (registry : list (string * site_meta))
    (i_start i_end : nat) (df : DataFrame cell) :
  exists out,
    outcome (stations_loop ee s df_sm variable_list i_start i_end registry df)
    = inr out /\
    index out = (index df ++ flat_map (site_labels df_sm) registry)%list.
Proof.
  revert i_start df. induction registry as [|[station meta] rest IH];
    intros i_start df.
  - exists df. split; [reflexivity|]. simpl. rewrite app_nil_r. reflexivity.
  - destruct (station_step_labels i_start i_end station meta df)
      as (df' & Hstep & Hidx).
    destruct (IH (S i_start) df') as (out & Hloop & Hout).
    exists out. split.
    + cbn [stations_loop]. rewrite outcome_bind, Hstep. exact Hloop.
    + rewrite Hout, Hidx. cbn [flat_map]. rewrite app_assoc. reflexivity.
Qed.

End CompiledRows.

Section SelectColumns.
Context {A : Type} `{Missing A}.

Lemma lookup_col_absent (name : string) (cs : list (string * list A)) :
  ~ In name (map fst cs) -> lookup_col name cs = None.
Proof.
  induction cs as [|[n c] rest IH]; simpl; intros Hn; [reflexivity|].
  destruct (String.eqb_spec n name) as [-> | Hne]; [tauto|]. apply IH. tauto.
Qed.

Lemma select_columns_returns (df : DataFrame A) (names : list string) :
  (forall n, In n names -> In n (columns df)) ->
  exists cs, outcome (select_columns df names) = inr cs /\ map fst cs = names.
Proof.
  induction names as [|n rest IH]; intros Hall.
  - exists []. split; reflexivity.
  - destruct (lookup_col_columns n (cols df) (Hall n (or_introl eq_refl)))
      as (c & Hc).
    destruct (IH (fun m Hm => Hall m (or_intror Hm))) as (cs & Hcs & Hnames).
    exists ((n, c) :: cs). split; [|simpl; rewrite Hnames; reflexivity].
    cbn [select_columns]. unfold getcol. rewrite Hc. cbn [getitem].
    rewrite bind_ret, outcome_bind, Hcs. reflexivity.
Qed.

Lemma select_columns_KeyError (df : DataFrame A) (names : list string) :
  (exists n, In n names /\ ~ In n (columns df)) ->
  outcome (select_columns df names) = inl KeyError.
Proof.
  induction names as [|n rest IH]; intros (m & Hm & Habs); [destruct Hm|].
  cbn [select_columns]. unfold getcol.
  destruct (lookup_col n (cols df)) as [c|] eqn:Hc; [|reflexivity].
  cbn [getitem]. rewrite bind_ret, outcome_bind.
  destruct Hm as [<- | Hm].
  - exfalso. rewrite lookup_col_absent in Hc by exact Habs. discriminate.
  - rewrite IH by (exists m; auto). reflexivity.
Qed.

End SelectColumns.

(** When a variable that the code knows is to be fetched, the loop of
    [compile_data] over the registry raises nothing: it accumulates, site
    after site in the order of the registry, no row for a site whose entry
    lacks a key and, for any other site, one row per day of its range and
    matching ground-truth row (one for a day with none). The run then ends
    in one of two ways: it writes a table with these rows and the columns
    of [output_columns] when each of these columns is in the accumulated
    table, and raises [KeyError] (writing nothing) when one is not. *)
Theorem compiled_rows (ee : service) (s : settings) (df_sm : DataFrame cell)
    (registry : list (string * site_meta)) :
  In "SITE" (columns df_sm) ->
  requests_a_table (variables_to_fetch s df_sm) ->
  exists accumulated,
    outcome (stations_loop ee s df_sm (variables_to_fetch s df_sm) 1
               (List.length registry) registry (mkDF [] []))
    = inr accumulated /\
    index accumulated = flat_map (site_labels df_sm) registry /\
    ((forall n, In n (output_columns (variables_to_fetch s df_sm)) ->
                In n (columns accumulated)) ->
     exists out,
       outcome (compile_data ee s df_sm registry) = inr out /\
       index out = flat_map (site_labels df_sm) registry /\
       columns out = output_columns (variables_to_fetch s df_sm)) /\
    ((exists n, In n (output_columns (variables_to_fetch s df_sm)) /\
                ~ In n (columns accumulated)) ->
     outcome (compile_data ee s df_sm registry) = inl KeyError).
Proof.
  intros Hsite Hreq.
  destruct (stations_loop_labels ee s df_sm (variables_to_fetch s df_sm)
              Hsite Hreq registry 1 (List.length registry) (mkDF [] []))
    as (acc & Hloop & Hidx).
  exists acc. split; [exact Hloop|]. split; [exact Hidx|].
  assert (Hrun : outcome (compile_data ee s df_sm registry)
                 = match outcome (select_columns acc
                                    (output_columns (variables_to_fetch s df_sm)))
                   with
                   | inl e => inl e
                   | inr selected => inr (mkDF (index acc) selected)
                   end).
  { unfold compile_data. rewrite !outcome_bind. cbn [outcome print snd].
    rewrite Hloop, outcome_bind.
    destruct (outcome (select_columns acc _)); reflexivity. }
  split.
  - intros Hall. destruct (select_columns_returns acc _ Hall)
      as (cs & Hcs & Hnames).
    exists (mkDF (index acc) cs). rewrite Hrun, Hcs.
    split; [reflexivity|]. split; [exact Hidx | exact Hnames].
  - intros Hmiss. rewrite Hrun, (select_columns_KeyError acc _ Hmiss).
    reflexivity.
Qed.

Lemma compiled_rows_witness :
  In "SITE" (columns icos_ground) /\
  requests_a_table
    (variables_to_fetch (mkSettings ["NDVI"] false false) icos_ground) /\
  exists accumulated,
    outcome (stations_loop (fun _ _ _ => two_band_rows)
               (mkSettings ["NDVI"] false false) icos_ground
               (variables_to_fetch (mkSettings ["NDVI"] false false) icos_ground)
               1 2 registry_with_malformed_site (mkDF [] []))
    = inr accumulated /\
    index accumulated = [0; 1]%Z.
Proof.
  assert (Hsite : In "SITE" (columns icos_ground)) by (left; reflexivity).
  assert (Hreq : requests_a_table
                   (variables_to_fetch (mkSettings ["NDVI"] false false)
                      icos_ground)).
  { exists "NDVI". split; [|left; reflexivity]. unfold fetchable. simpl. tauto. }
  split; [exact Hsite|]. split; [exact Hreq|].
  destruct (compiled_rows (fun _ _ _ => two_band_rows)
              (mkSettings ["NDVI"] false false) icos_ground
              registry_with_malformed_site Hsite Hreq)
    as (acc & Hloop & Hidx & _).
  exists acc. split; [exact Hloop | exact Hidx].
Defined.

Lemma stations_loop_all_skipped (ee : service) (s : settings)
    (df_sm : DataFrame cell) (variable_list : list string)
    (registry : list (string * site_meta)) (i_start i_end : nat)
    (df : DataFrame cell) :
  In "SITE" (columns df_sm) ->
  Forall (fun site => lacks_a_key (snd site)) registry ->
  outcome (stations_loop ee s df_sm variable_list i_start i_end registry df)
  = inr df.
Proof.
  intros Hsite Hall. revert i_start.
  induction Hall as [|[station meta] rest Hmeta _ IH]; intros i_start;
    [reflexivity|].
  cbn [stations_loop]. rewrite outcome_bind.
  rewrite (station_step_skips ee s df_sm variable_list i_start i_end
             station meta df Hsite Hmeta).
  apply IH.
Qed.

(** A run in which no site can be used (every entry of the registry lacks
    a key) does not write an empty table: the selection of the columns of
    the table, which has none, raises [KeyError]. *)
Theorem no_usable_site_raises_KeyError (ee : service) (s : settings)
    (df_sm : DataFrame cell) (registry : list (string * site_meta)) :
  In "SITE" (columns df_sm) ->
  Forall (fun site => lacks_a_key (snd site)) registry ->
  outcome (compile_data ee s df_sm registry) = inl KeyError.
Proof.
  intros Hsite Hall. unfold compile_data.
  rewrite !outcome_bind. cbn [outcome print snd].
  rewrite (stations_loop_all_skipped ee s df_sm _ registry 1 _ _ Hsite Hall).
  rewrite outcome_bind, select_columns_KeyError; [reflexivity|].
  exists "SITE". split; [|intros []].
  rewrite output_columns_fold.
  destruct (add_columns_prefix (variables_to_fetch s df_sm) base_variables)
    as (extra & ->).
  left. reflexivity.
Qed.

Lemma no_usable_site_raises_KeyError_witness :
  In "SITE" (columns icos_ground) /\
  Forall (fun site : string * site_meta => lacks_a_key (snd site))
    [("DE-Bad", mkMeta None (Some 51.08%float) (Some 0%Z) (Some 1%Z))] /\
  outcome (compile_data (fun _ _ _ => two_band_rows)
             (mkSettings ["NDVI"] false false) icos_ground
             [("DE-Bad", mkMeta None (Some 51.08%float) (Some 0%Z) (Some 1%Z))])
  = inl KeyError.
Proof.
  assert (Hsite : In "SITE" (columns icos_ground)) by (left; reflexivity).
  assert (Hall : Forall (fun site : string * site_meta => lacks_a_key (snd site))
                   [("DE-Bad",
                     mkMeta None (Some 51.08%float) (Some 0%Z) (Some 1%Z))]).
  { constructor; [left; reflexivity | constructor]. }
  split; [exact Hsite|]. split; [exact Hall|].
  exact (no_usable_site_raises_KeyError (fun _ _ _ => two_band_rows)
           (mkSettings ["NDVI"] false false) icos_ground _ Hsite Hall).
Defined.

Lemma dry_streak_all_dry (P : list float) (i : nat) :
  (i < List.length P)%nat ->
  (forall j, (j <= i)%nat -> (0 <? nth j P nan)%float = false) ->
  nth i (dry_streak P) 0%Z = Z.of_nat (S i).
Proof.
  induction i as [|i IH]; intros Hi Hdry.
  - rewrite dry_streak_nth, (Hdry O) by lia. reflexivity.
  - rewrite dry_streak_nth, (Hdry (S i)), IH by (auto with arith; lia).
    lia.
Qed.

(** The precipitation table of [assemble_variables] has the two columns
    [P] and [DD] on the calendar of the range. [P] is the ERA5 value of the
    day times [1000], and [DD] is the dry-day streak computed over the
    calendar from that [P]. When the service returned no row (or the
    request failed) the streak therefore counts the days of the range:
    [1] on the first day, [2] on the second, and so on. *)
Theorem precipitation_in_millimetres (ee : service) (lon lat : float)
    (start_date end_date : Z) :
  let calendar := date_range start_date end_date in
  let era5 :=
    ee "ECMWF/ERA5/DAILY" start_date end_date ["total_precipitation"]
       lon lat in
  exists P,
    outcome (precipitation ee lon lat start_date end_date)
    = inr (mkDF calendar [("P", P); ("DD", map float_of_Z (dry_streak P))]) /\
    List.length P = List.length calendar /\
    (forall i, (i < List.length calendar)%nat ->
       nth i P nan
       = (daily_value era5 0 0 (start_date + Z.of_nat i)%Z * 1000)%float) /\
    (observed_days era5 = [] ->
     forall i, (i < List.length calendar)%nat ->
       nth i (dry_streak P) 0%Z = Z.of_nat (S i)).
Proof.
  intros calendar era5.
  assert (Hvalue : forall i, (i < List.length calendar)%nat ->
            nth i (map (fun x => x * 1000)%float
                     (daily_column (observed_days era5)
                        (fetched_column era5 0 0) calendar)) nan
            = (daily_value era5 0 0 (start_date + Z.of_nat i)%Z * 1000)%float).
  { intros i Hi.
    exact (conversion_value era5 0 (fun x => x * 1000)%float
             start_date end_date i Hi). }
  assert (Hlen : List.length
                   (map (fun x => x * 1000)%float
                      (daily_column (observed_days era5)
                         (fetched_column era5 0 0) calendar))
                 = List.length calendar).
  { rewrite length_map. apply daily_column_length. }
  eexists. split; [|split; [exact Hlen | split; [exact Hvalue|]]].
  - unfold precipitation.
    rewrite outcome_bind, ee_to_df_one_band. reflexivity.
  - intros Hnone i Hi. apply dry_streak_all_dry; [rewrite Hlen; exact Hi|].
    intros j Hj. rewrite Hvalue by lia.
    rewrite daily_value_unobserved by (rewrite Hnone; intros []).
    reflexivity.
Qed.

(** ** The per-site table, row by row *)

(** *** The rows of a left join *)

Lemma positions_from_In (a : nat) (d : Z) (idx : list Z) (g : nat) :
  In g (positions_from a d idx) <->
  (a <= g)%nat /\ (g < a + List.length idx)%nat /\ nth (g - a) idx 0%Z = d.
Proof.
  revert a. induction idx as [|x rest IH]; intros a; simpl.
  - split; [intros [] | intros (? & ? & _); lia].
  - destruct (Z.eqb_spec x d) as [Hx | Hx]; simpl; rewrite IH; split.
    + intros [<- | (Hle & Hlt & Hnth)].
      * rewrite Nat.sub_diag. repeat split; [lia | lia | exact Hx].
      * replace (g - a)%nat with (S (g - S a)) by lia.
        repeat split; [lia | lia | exact Hnth].
    + intros (Hle & Hlt & Hnth).
      destruct (Nat.eq_dec a g) as [Heq | Hne]; [left; exact Heq | right].
      replace (g - a)%nat with (S (g - S a)) in Hnth by lia.
      repeat split; [lia | lia | exact Hnth].
    + intros (Hle & Hlt & Hnth).
      replace (g - a)%nat with (S (g - S a)) by lia.
      repeat split; [lia | lia | exact Hnth].
    + intros (Hle & Hlt & Hnth).
      destruct (Nat.eq_dec a g) as [Heq | Hne].
      * subst g. rewrite Nat.sub_diag in Hnth. contradiction.
      * replace (g - a)%nat with (S (g - S a)) in Hnth by lia.
        repeat split; [lia | lia | exact Hnth].
Qed.

Lemma positions_In (d : Z) (idx : list Z) (g : nat) :
  In g (positions d idx) <-> (g < List.length idx)%nat /\ nth g idx 0%Z = d.
Proof.
  unfold positions. rewrite positions_from_In, Nat.sub_0_r. simpl.
  split; [intros (_ & H1 & H2) | intros (H1 & H2)]; repeat split;
    try assumption; lia.
Qed.

Lemma combine_seq_In {B} (a : nat) (l : list B) (i : nat) (x d : B) :
  In (i, x) (combine (seq a (List.length l)) l) ->
  (a <= i)%nat /\ (i < a + List.length l)%nat /\ nth (i - a) l d = x.
Proof.
  revert a. induction l as [|y r IH]; intros a; simpl; [intros []|].
  intros [[= <- <-] | Hin].
  - rewrite Nat.sub_diag. repeat split; lia.
  - destruct (IH (S a) Hin) as (Hle & Hlt & Hnth).
    replace (i - a)%nat with (S (i - S a)) by lia.
    repeat split; [lia | lia | exact Hnth].
Qed.

(** Every row of a left join is made of one left row, whose label it
    carries, and of a right row with that label, or of none when no right
    row has it. *)
Lemma left_join_rows (l r : list Z) :
  Forall
    (fun row : join_row =>
       exists i,
         fst (snd row) = Some i /\ (i < List.length l)%nat /\
         nth i l 0%Z = fst row /\
         match snd (snd row) with
         | Some g => (g < List.length r)%nat /\ nth g r 0%Z = fst row
         | None => ~ In (fst row) r
         end)
    (left_join l r).
Proof.
  rewrite Forall_forall. intros row Hrow. unfold left_join in Hrow.
  apply in_flat_map in Hrow. destruct Hrow as ([i d] & Hid & Hrow).
  apply (combine_seq_In 0 l i d 0%Z) in Hid.
  destruct Hid as (_ & Hi & Hnth). rewrite Nat.sub_0_r in Hnth.
  cbn [fst snd] in Hrow.
  destruct (positions d r) as [|g js] eqn:Hpos.
  - destruct Hrow as [<- | []]. exists i. cbn [fst snd].
    repeat split; [lia | exact Hnth |].
    intros Hin. apply (In_nth _ _ 0%Z) in Hin. destruct Hin as (g & Hg & Hd).
    assert (Hg' : In g (positions d r)) by (apply positions_In; auto).
    rewrite Hpos in Hg'. destruct Hg'.
  - apply in_map_iff in Hrow. destruct Hrow as (g' & <- & Hg').
    exists i. cbn [fst snd]. repeat split; [lia | exact Hnth | |];
      rewrite <- Hpos in Hg'; apply positions_In in Hg'; tauto.
Qed.

(** No right row whose label is on the left is left out. *)
Lemma left_join_complete (l r : list Z) (g : nat) :
  (g < List.length r)%nat -> In (nth g r 0%Z) l ->
  exists i, In (nth g r 0%Z, (Some i, Some g)) (left_join l r).
Proof.
  intros Hg Hin. apply (In_nth _ _ 0%Z) in Hin.
  destruct Hin as (i & Hi & Hd). exists i.
  unfold left_join. apply in_flat_map. exists (i, nth g r 0%Z). split.
  - rewrite <- Hd. apply (enumerate_In l i 0%Z Hi).
  - cbn [fst snd].
    assert (Hpos : In g (positions (nth g r 0%Z) r))
      by (apply positions_In; auto).
    destruct (positions (nth g r 0%Z) r) as [|g0 js]; [destruct Hpos|].
    apply in_map_iff. exists g. auto.
Qed.

(** ** Re-indexing a table onto its own labels *)

Lemma get_indexer_self (l : list Z) :
  NoDup l -> get_indexer l l = map Some (seq 0 (List.length l)).
Proof.
  intros Hnd. apply (nth_ext _ _ None None).
  - unfold get_indexer. rewrite !length_map, length_seq. reflexivity.
  - intros i Hi. unfold get_indexer in Hi. rewrite length_map in Hi.
    rewrite get_indexer_nth by exact Hi.
    rewrite (nth_map_lt _ _ _ O) by (rewrite length_seq; exact Hi).
    rewrite seq_nth by exact Hi. apply position_first; [exact Hi | reflexivity |].
    intros q Hq Heq.
    apply (proj1 (NoDup_nth l 0%Z) Hnd) in Heq; lia.
Qed.

Lemma reindex_self {A} `{Missing A} (df : DataFrame A) :
  NoDup (index df) -> well_formed df -> reindex df (index df) = ret df.
Proof.
  intros Hnd Hwf. rewrite reindex_NoDup by exact Hnd.
  rewrite get_indexer_self by exact Hnd. destruct df as [idx cs].
  cbn [index cols] in *. f_equal. f_equal.
  rewrite <- (map_id cs) at 2. apply map_ext_in. intros [n c] Hc.
  unfold well_formed, nrows in Hwf. cbn [index cols] in Hwf.
  rewrite Forall_forall in Hwf. specialize (Hwf _ Hc). cbn [snd] in Hwf.
  cbn [fst snd]. rewrite <- Hwf, take_all. reflexivity.
Qed.

(** The rows of a left merge, each as the left row and the right row (if
    any) it is made of, with the values the merge takes from the two
    sides. *)
Lemma left_join_row_maps {A} `{Missing A} (l r : list Z) :
  exists rows : list (nat * option nat),
    List.length rows = List.length (left_join l r) /\
    (forall k, (k < List.length rows)%nat ->
       (fst (nth k rows (O, None)) < List.length l)%nat /\
       nth k (map fst (left_join l r)) 0%Z
       = nth (fst (nth k rows (O, None))) l 0%Z /\
       match snd (nth k rows (O, None)) with
       | Some g =>
           (g < List.length r)%nat /\
           nth g r 0%Z = nth (fst (nth k rows (O, None))) l 0%Z
       | None => ~ In (nth (fst (nth k rows (O, None))) l 0%Z) r
       end) /\
    (forall g, (g < List.length r)%nat -> In (nth g r 0%Z) l ->
       exists k, (k < List.length rows)%nat /\
                 snd (nth k rows (O, None)) = Some g) /\
    (forall (col : list A) k, (k < List.length rows)%nat ->
       nth k (take (map (fun row : join_row => fst (snd row)) (left_join l r))
                col) NA
       = nth (fst (nth k rows (O, None))) col NA) /\
    (forall (col : list A) k, (k < List.length rows)%nat ->
       nth k (take (map (fun row : join_row => snd (snd row)) (left_join l r))
                col) NA
       = match snd (nth k rows (O, None)) with
         | Some g => nth g col NA
         | None => NA
         end).
Proof.
  set (j := left_join l r).
  set (f := fun row : join_row =>
              (match fst (snd row) with Some i => i | None => O end,
               snd (snd row))).
  assert (Hf : forall k, (k < List.length j)%nat ->
            nth k (map f j) (O, None) = f (nth k j (0%Z, (None, None)))).
  { intros k Hk. apply nth_map_lt. exact Hk. }
  pose proof (left_join_rows l r) as Hrows. fold j in Hrows.
  rewrite Forall_forall in Hrows.
  assert (Hrow : forall k, (k < List.length j)%nat ->
            exists i,
              fst (snd (nth k j (0%Z, (None, None)))) = Some i /\
              (i < List.length l)%nat /\
              nth i l 0%Z = fst (nth k j (0%Z, (None, None))) /\
              match snd (snd (nth k j (0%Z, (None, None)))) with
              | Some g => (g < List.length r)%nat /\
                          nth g r 0%Z = fst (nth k j (0%Z, (None, None)))
              | None => ~ In (fst (nth k j (0%Z, (None, None)))) r
              end).
  { intros k Hk. apply Hrows, nth_In, Hk. }
  exists (map f j). rewrite length_map.
  split; [reflexivity|]. split; [|split; [|split]].
  - intros k Hk. rewrite (Hf k Hk).
    destruct (Hrow k Hk) as (i & Hi & Hlt & Hlabel & Hright).
    unfold f. cbn [fst snd]. rewrite Hi.
    rewrite (nth_map_lt _ _ _ (0%Z, (None, None))) by exact Hk.
    rewrite Hlabel. split; [exact Hlt|]. split; [reflexivity | exact Hright].
  - intros g Hg Hin. destruct (left_join_complete l r g Hg Hin) as (i & Hrow').
    fold j in Hrow'. apply (In_nth _ _ (0%Z, (None, None))) in Hrow'.
    destruct Hrow' as (k & Hk & Hnth). exists k. split; [exact Hk|].
    rewrite (Hf k Hk).
    transitivity (snd (f (nth g r 0%Z, (Some i, Some g))));
      [f_equal; f_equal; exact Hnth | reflexivity].
  - intros col k Hk. rewrite take_nth by (rewrite length_map; exact Hk).
    rewrite (nth_map_lt _ _ _ ((0%Z, (None, None)) : join_row)) by exact Hk.
    rewrite (Hf k Hk). destruct (Hrow k Hk) as (i & Hi & _).
    unfold f. cbn [fst snd]. rewrite Hi. reflexivity.
  - intros col k Hk. rewrite take_nth by (rewrite length_map; exact Hk).
    rewrite (nth_map_lt _ _ _ ((0%Z, (None, None)) : join_row)) by exact Hk.
    rewrite (Hf k Hk). reflexivity.
Qed.

(** ** The tables [assemble_variables] fetches, one by one *)

Lemma try_except_returned {A} (m : M A) (handler : exn -> M A) (a : A) :
  outcome m = inr a -> outcome (try_except m handler) = inr a.
Proof.
  destruct m as [out [e | a']]; cbn [outcome snd]; intros Hm;
    [discriminate | exact Hm].
Qed.

Lemma append_if_outcome (requested : bool) (table : M (DataFrame float))
    (dataframes : list (DataFrame float)) (df : DataFrame float) :
  outcome table = inr df ->
  outcome (append_if requested table dataframes)
  = inr (dataframes ++ (if requested then [df] else []))%list.
Proof.
  intros Hrun. unfold append_if. destruct requested.
  - rewrite outcome_bind, Hrun. reflexivity.
  - rewrite app_nil_r. reflexivity.
Qed.

Lemma append_or_warn_outcome (requested : bool) (variable : string)
    (table : M (DataFrame float)) (dataframes : list (DataFrame float))
    (df : DataFrame float) :
  outcome table = inr df ->
  outcome (append_or_warn requested variable table dataframes)
  = inr (dataframes ++ (if requested then [df] else []))%list.
Proof.
  intros Hrun. unfold append_or_warn. destruct requested.
  - apply try_except_returned. rewrite outcome_bind, Hrun. reflexivity.
  - rewrite app_nil_r. reflexivity.
Qed.

Section Fetched.
Variable ee : service.
Variables lon lat : float.
Variables first_day last_day : Z.
Variable variable_list : list string.
Variable s : settings.

Let calendar : list Z := date_range first_day last_day.

(** The list [dataframes] at the merge: the table of each requested
    variable, in the order of the code. *)
Lemma fetch_variables_outcome (ts vv vh ndvi ndwi ta p : DataFrame float) :
  outcome (land_surface_temperature ee lon lat first_day last_day) = inr ts ->
  outcome (backscatter ee "VV" lon lat first_day last_day) = inr vv ->
  outcome (backscatter ee "VH" lon lat first_day last_day) = inr vh ->
  outcome (optical_index ee "NDVI" "B8" "B4" ["B4"; "B8"]
             lon lat first_day last_day s) = inr ndvi ->
  outcome (optical_index ee "NDWI" "B8A" "B11" ["B8A"; "B11"]
             lon lat first_day last_day s) = inr ndwi ->
  outcome (air_temperature ee lon lat first_day last_day) = inr ta ->
  outcome (precipitation ee lon lat first_day last_day) = inr p ->
  outcome (fetch_variables ee lon lat first_day last_day variable_list s)
  = inr ((if contains "TS" variable_list then [ts] else [])
         ++ (if contains "VV" variable_list then [vv] else [])
         ++ (if contains "VH" variable_list then [vh] else [])
         ++ (if contains "NDVI" variable_list then [ndvi] else [])
         ++ (if contains "NDWI" variable_list then [ndwi] else [])
         ++ (if contains "TA" variable_list then [ta] else [])
         ++ (if contains "P" variable_list then [p] else []))%list.
Proof.
  intros Hts Hvv Hvh Hndvi Hndwi Hta Hp. unfold fetch_variables.
  rewrite outcome_bind, (append_if_outcome _ _ _ _ Hts).
  rewrite outcome_bind, (append_or_warn_outcome _ _ _ _ _ Hvv).
  rewrite outcome_bind, (append_or_warn_outcome _ _ _ _ _ Hvh).
  rewrite outcome_bind, (append_if_outcome _ _ _ _ Hndvi).
  rewrite outcome_bind, (append_if_outcome _ _ _ _ Hndwi).
  rewrite outcome_bind, (append_if_outcome _ _ _ _ Hta).
  rewrite (append_if_outcome _ _ _ _ Hp).
  cbn [app]. rewrite <- !app_assoc. reflexivity.
Qed.

Lemma precipitation_columns :
  outcome (precipitation ee lon lat first_day last_day)
  = inr (let P :=
           map (fun x => x * 1000)%float
             (daily_column
                (observed_days
                   (ee "ECMWF/ERA5/DAILY" first_day last_day
                       ["total_precipitation"] lon lat))
                (fetched_column
                   (ee "ECMWF/ERA5/DAILY" first_day last_day
                       ["total_precipitation"] lon lat) 0 0)
                calendar) in
         mkDF calendar [("P", P); ("DD", map float_of_Z (dry_streak P))]).
Proof.
  unfold precipitation. rewrite outcome_bind, ee_to_df_one_band. reflexivity.
Qed.

(** A requested variable of [gap_requests] has its table among the fetched
    ones, with its column missing on every day of the range for which its
    request returned no row. *)
Lemma fetched_gaps (tables : list (DataFrame float))
    (v collection : string) (bands : list string) :
  outcome (fetch_variables ee lon lat first_day last_day variable_list s)
  = inr tables ->
  In (v, (collection, bands)) (gap_requests s) ->
  In v variable_list ->
  exists table column,
    In table tables /\ In (v, column) (cols table) /\
    forall i, (i < List.length calendar)%nat ->
      ~ In (first_day + Z.of_nat i)%Z
           (observed_days (ee collection first_day last_day bands lon lat)) ->
      nth i column nan = nan.
Proof.
  intros Hfetch Hv Hin. apply contains_In in Hin. unfold calendar in *.
  pose proof (fetch_variables_outcome _ _ _ _ _ _ _
                (land_surface_temperature_table ee lon lat first_day last_day)
                (backscatter_table ee lon lat first_day last_day "VV")
                (backscatter_table ee lon lat first_day last_day "VH")
                (ndvi_table ee lon lat first_day last_day s)
                (ndwi_table ee lon lat first_day last_day s)
                (air_temperature_table ee lon lat first_day last_day)
                precipitation_columns) as Hexact.
  rewrite Hfetch in Hexact. injection Hexact as ->.
  assert (Hconv : forall response (f : float -> float) i,
            f nan = nan ->
            (i < List.length (date_range first_day last_day))%nat ->
            ~ In (first_day + Z.of_nat i)%Z (observed_days response) ->
            nth i (map f (daily_column (observed_days response)
                            (fetched_column response 0 0)
                            (date_range first_day last_day))) nan = nan).
  { intros response f i Hf Hi Hno.
    rewrite (conversion_value response 0 f first_day last_day i Hi).
    rewrite (daily_value_unobserved _ _ _ _ Hno). exact Hf. }
  unfold gap_requests in Hv. apply in_app_or in Hv.
  destruct Hv as [Hv | Hv].
  - simpl in Hv.
    destruct Hv as [Hv | [Hv | [Hv | [Hv | [Hv | []]]]]];
      injection Hv as <- <- <-; rewrite Hin.
    + eexists. eexists. split; [left; reflexivity|].
      split; [left; reflexivity|]. intros i Hi Hno.
      rewrite (conversion_value _ 5 _ first_day last_day i Hi).
      rewrite (daily_value_unobserved _ _ _ _ Hno). reflexivity.
    + eexists. eexists.
      split; [apply in_or_app; right; apply in_or_app; left; left; reflexivity|].
      split; [left; reflexivity|]. intros i Hi Hno.
      rewrite daily_column_value by exact Hi.
      rewrite date_range_nth by exact Hi.
      apply daily_value_unobserved. exact Hno.
    + eexists. eexists.
      split; [do 2 (apply in_or_app; right); apply in_or_app; left; left;
              reflexivity|].
      split; [left; reflexivity|]. intros i Hi Hno.
      rewrite daily_column_value by exact Hi.
      rewrite date_range_nth by exact Hi.
      apply daily_value_unobserved. exact Hno.
    + eexists. eexists.
      split; [do 5 (apply in_or_app; right); apply in_or_app; left; left;
              reflexivity|].
      split; [left; reflexivity|]. intros i Hi Hno.
      apply Hconv; [reflexivity | exact Hi | exact Hno].
    + eexists. eexists.
      split; [do 6 (apply in_or_app; right); left; reflexivity|].
      split; [left; reflexivity|]. intros i Hi Hno.
      apply Hconv; [reflexivity | exact Hi | exact Hno].
  - destruct (interpolate_index s) eqn:Hflag; [destruct Hv|].
    simpl in Hv. destruct Hv as [Hv | [Hv | []]];
      injection Hv as <- <- <-; rewrite Hin.
    + eexists. eexists.
      split; [do 3 (apply in_or_app; right); apply in_or_app; left; left;
              reflexivity|].
      split; [left; reflexivity|]. intros i Hi Hno.
      rewrite (index_column_value _ 1 0 first_day last_day i Hi).
      rewrite !(daily_value_unobserved _ _ _ _ Hno). reflexivity.
    + eexists. eexists.
      split; [do 4 (apply in_or_app; right); apply in_or_app; left; left;
              reflexivity|].
      split; [left; reflexivity|]. intros i Hi Hno.
      rewrite (index_column_value _ 0 1 first_day last_day i Hi).
      rewrite !(daily_value_unobserved _ _ _ _ Hno). reflexivity.
Qed.

End Fetched.

(** ** The per-site table, column by column *)

Lemma known_left_name (ground_columns : list string) (n : string) :
  In n ["TS"; "VV"; "VH"; "NDVI"; "NDWI"; "TA"; "P"; "DD"] ->
  String.eqb (if contains n ground_columns then (n ++ "_x")%string else n) "SITE_x"
  = false /\
  contains (if contains n ground_columns then (n ++ "_x")%string else n) ["SITE_y"]
  = false.
Proof.
  intros Hn. simpl in Hn.
  destruct Hn as [<- | [<- | [<- | [<- | [<- | [<- | [<- | [<- | []]]]]]]]];
    destruct (contains _ ground_columns); split; reflexivity.
Qed.

Lemma known_right_name (n : string) :
  In n ["TS"; "VV"; "VH"; "NDVI"; "NDWI"; "TA"; "P"; "DD"] ->
  String.eqb (n ++ "_y") "SITE_x" = false /\
  contains (n ++ "_y") ["SITE_y"] = false.
Proof.
  intros Hn. simpl in Hn.
  destruct Hn as [<- | [<- | [<- | [<- | [<- | [<- | [<- | [<- | []]]]]]]]];
    split; reflexivity.
Qed.

Section SiteTable.
Variable ee : service.
Variable s : settings.
Variable variable_list : list string.
Variable ground : DataFrame cell.
Variable station : string.
Variables lon lat : float.
Variables first_day last_day : Z.
Variable tables : list (DataFrame float).
Hypothesis Hground : In "SITE" (columns ground).
Hypothesis Hcolumns : map columns tables = expected_columns variable_list.
Hypothesis Hdaily :
  Forall (fun df => index df = date_range first_day last_day /\ well_formed df)
    tables.
Hypothesis Hassembled :
  outcome (assemble_variables ee lon lat first_day last_day variable_list
             station s)
  = inr (assembled (date_range first_day last_day) tables station).

Let calendar : list Z := date_range first_day last_day.
Let remote : DataFrame cell := assembled calendar tables station.
Let rows : list join_row := left_join calendar (index ground).
Let kept (c : string * list cell) : bool := negb (contains (fst c) ["SITE_y"]).
Let out : DataFrame cell :=
  mkDF (map fst rows)
    (filter kept (cols (rename (merge Left remote ground) "SITE_x" "SITE"))).

Lemma assembled_columns :
  columns remote
  = (List.concat (expected_columns variable_list) ++ ["SITE"])%list.
Proof.
  unfold remote, assembled, columns. cbn [cols].
  apply (assembled_names variable_list tables _ Hcolumns).
Qed.

Lemma assembled_well_formed : well_formed remote.
Proof.
  unfold well_formed, nrows, remote, assembled. cbn [index cols].
  apply Forall_app. split.
  - pose proof (concat_cols_lengths _ _ Hdaily) as Hlen.
    rewrite Forall_forall in *. intros c Hc. apply in_map_iff in Hc.
    destruct Hc as (c' & <- & Hc'). cbn [as_cells snd].
    rewrite length_map. apply Hlen, Hc'.
  - repeat constructor. cbn [snd]. apply repeat_length.
Qed.

Lemma assembled_known (n : string) :
  In n (columns remote) -> n <> "SITE" ->
  In n ["TS"; "VV"; "VH"; "NDVI"; "NDWI"; "TA"; "P"; "DD"].
Proof.
  rewrite assembled_columns. intros Hn Hne. apply in_app_or in Hn.
  destruct Hn as [Hn | [<- | []]]; [|contradiction].
  apply (expected_columns_known variable_list). exact Hn.
Qed.

Lemma site_table_outcome :
  outcome (site_table ee s ground variable_list station
             (mkMeta (Some lon) (Some lat) (Some first_day) (Some last_day)))
  = inr out.
Proof.
  unfold site_table. cbn [longitude latitude start_date end_date getitem].
  rewrite !bind_ret, outcome_bind, Hassembled, !bind_ret.
  fold calendar. fold remote.
  change (reindex remote calendar) with (reindex remote (index remote)).
  rewrite reindex_self;
    [| apply date_range_NoDup | apply assembled_well_formed].
  rewrite bind_ret. cbv zeta.
  set (merged := rename (merge Left remote ground) "SITE_x" "SITE").
  assert (Hy : contains "SITE_y" (columns merged) = true).
  { apply contains_In. unfold merged. rewrite rename_columns.
    apply in_map_iff. exists "SITE_y". split; [reflexivity|].
    rewrite merge_columns. apply in_or_app. right.
    apply in_map_iff. exists "SITE". split; [|exact Hground].
    assert (Hleft : contains "SITE" (columns remote) = true).
    { apply contains_In. rewrite assembled_columns.
      apply in_or_app. right. left. reflexivity. }
    rewrite Hleft. reflexivity. }
  unfold drop. cbn [forallb]. rewrite Hy. reflexivity.
Qed.

Lemma merged_cols :
  cols (rename (merge Left remote ground) "SITE_x" "SITE")
  = (map (fun c : string * list cell =>
            (if String.eqb
                  (if contains (fst c) (columns ground)
                   then (fst c ++ "_x")%string else fst c) "SITE_x"
             then "SITE"
             else if contains (fst c) (columns ground)
                  then (fst c ++ "_x")%string else fst c,
             take (map (fun row : join_row => fst (snd row)) rows) (snd c)))
         (cols remote)
     ++
     map (fun c : string * list cell =>
            (if String.eqb
                  (if contains (fst c) (columns remote)
                   then (fst c ++ "_y")%string else fst c) "SITE_x"
             then "SITE"
             else if contains (fst c) (columns remote)
                  then (fst c ++ "_y")%string else fst c,
             take (map (fun row : join_row => snd (snd row)) rows) (snd c)))
         (cols ground))%list.
Proof.
  unfold rename, merge. cbn [cols index join].
  rewrite map_app, !map_map. reflexivity.
Qed.

(** A column of the remote table is in the per-site table, under its own
    name, or with the suffix [_x] when the ground table has that name. *)
Lemma out_remote_column (n : string) (c : list cell) :
  In (n, c) (cols remote) -> n <> "SITE" ->
  In (if contains n (columns ground) then (n ++ "_x")%string else n,
      take (map (fun row : join_row => fst (snd row)) rows) c) (cols out).
Proof.
  intros Hc Hne. unfold out. cbn [cols]. apply filter_In.
  assert (Hknown : In n ["TS"; "VV"; "VH"; "NDVI"; "NDWI"; "TA"; "P"; "DD"]).
  { apply assembled_known; [|exact Hne].
    apply in_map_iff. exists (n, c). auto. }
  destruct (known_left_name (columns ground) n Hknown) as [Hx Hy].
  split.
  - rewrite merged_cols. apply in_or_app. left.
    apply in_map_iff. exists (n, c). cbn [fst snd]. rewrite Hx. auto.
  - unfold kept. cbn [fst]. rewrite Hy. reflexivity.
Qed.

Lemma out_site_column :
  In ("SITE",
      take (map (fun row : join_row => fst (snd row)) rows)
        (repeat (Str station) (List.length calendar))) (cols out).
Proof.
  unfold out. cbn [cols]. apply filter_In. split; [|reflexivity].
  rewrite merged_cols. apply in_or_app. left. apply in_map_iff.
  exists ("SITE", repeat (Str station) (List.length calendar)).
  cbn [fst snd]. rewrite (proj2 (contains_In "SITE" _) Hground).
  split; [reflexivity|]. unfold remote, assembled. cbn [cols].
  apply in_or_app. right. left. reflexivity.
Qed.

(** A ground-truth column is in the per-site table, under its own name, or
    with the suffix [_y] when the remote table has that name. *)
Lemma out_ground_column (n : string) (c : list cell) :
  In (n, c) (cols ground) ->
  n <> "SITE" -> n <> "SITE_x" -> n <> "SITE_y" ->
  In (if contains n (columns remote) then (n ++ "_y")%string else n,
      take (map (fun row : join_row => snd (snd row)) rows) c) (cols out).
Proof.
  intros Hc Hne Hx Hy. unfold out. cbn [cols]. apply filter_In.
  assert (Hnames :
            String.eqb (if contains n (columns remote) then (n ++ "_y")%string else n)
              "SITE_x" = false /\
            contains (if contains n (columns remote) then (n ++ "_y")%string else n)
              ["SITE_y"] = false).
  { destruct (contains n (columns remote)) eqn:Hin.
    - apply known_right_name. apply assembled_known; [|exact Hne].
      apply contains_In. exact Hin.
    - split; [apply String.eqb_neq; exact Hx|].
      apply not_contains. intros [<- | []]. apply Hy. reflexivity. }
  destruct Hnames as [Hnx Hny]. split.
  - rewrite merged_cols. apply in_or_app. right.
    apply in_map_iff. exists (n, c). cbn [fst snd]. rewrite Hnx. auto.
  - unfold kept. cbn [fst]. rewrite Hny. reflexivity.
Qed.

End SiteTable.

(** C1, amended. For a site with its four keys, a ground table with a
    [SITE] column and a variable the code knows to fetch, the per-site
    table is the left merge of the remote table, which is on the daily
    calendar of the site, with the ground-truth rows of the site.

    Rows: one per calendar day and matching ground-truth row, one for a day
    with none; the labels are the calendar days, each as often as the
    ground truth has it and at least once. With ground-truth dates that do
    not repeat there is exactly one row per calendar day, and as many rows
    as the ground truth has when its dates are exactly the days of the
    calendar. Every row [r] is made of a calendar day [i] and of a
    ground-truth row [g] of that day, or of none when the ground truth has
    no row that day ([rows]); every ground-truth row dated within the
    calendar is the ground-truth row of a row of the table, and one dated
    outside is in no row.

    Values: each column of the remote table is in the per-site table
    (under its name, or with the suffix [_x] when the ground table has a
    column of that name) with, on every row, the remote value of the day of
    the row; [SITE] holds the site name on every row; each ground-truth
    column (other than [SITE], [SITE_x], [SITE_y]) is there (under its
    name, or with the suffix [_y] when the remote table has that name)
    with, on every row, the value of its ground-truth row, and the missing
    value when it has none. The table has no other column, and every
    column has one value per row.

    Remote gaps: on a row whose day the request of a variable returned no
    row for, the column of [TS], [VV], [VH], [TA] or [P] holds the missing
    value, and so does that of [NDVI] or [NDWI] when [interpolate_index] is
    unset. *)
Theorem site_table_rows (ee : service) (s : settings)
    (df_sm_subset : DataFrame cell) (variable_list : list string)
    (station : string) (lon lat : float) (first_day last_day : Z) :
  In "SITE" (columns df_sm_subset) ->
  requests_a_table variable_list ->
  exists (remote out : DataFrame cell) (rows : list (nat * option nat)),
    outcome (assemble_variables ee lon lat first_day last_day variable_list
               station s) = inr remote /\
    index remote = date_range first_day last_day /\
    outcome (site_table ee s df_sm_subset variable_list station
               (mkMeta (Some lon) (Some lat) (Some first_day) (Some last_day)))
    = inr out /\
    index out =
    flat_map
      (fun d => repeat d (Nat.max 1 (count_occ Z.eq_dec (index df_sm_subset) d)))
      (date_range first_day last_day) /\
    (forall d, In d (index out) -> (first_day <= d <= last_day)%Z) /\
    (NoDup (index df_sm_subset) ->
     index out = date_range first_day last_day /\
     ((forall d, In d (index df_sm_subset) <-> (first_day <= d <= last_day)%Z) ->
      nrows out = nrows df_sm_subset)) /\
    List.length rows = nrows out /\
    (forall r, (r < nrows out)%nat ->
       let i := fst (nth r rows (O, None)) in
       let day := (first_day + Z.of_nat i)%Z in
       (i < List.length (date_range first_day last_day))%nat /\
       nth r (index out) 0%Z = day /\
       match snd (nth r rows (O, None)) with
       | Some g =>
           (g < nrows df_sm_subset)%nat /\
           nth g (index df_sm_subset) 0%Z = day
       | None => ~ In day (index df_sm_subset)
       end) /\
    (forall g, (g < nrows df_sm_subset)%nat ->
       (first_day <= nth g (index df_sm_subset) 0 <= last_day)%Z ->
       exists r, (r < nrows out)%nat /\ snd (nth r rows (O, None)) = Some g) /\
    (forall n c, In (n, c) (cols remote) -> n <> "SITE" ->
       exists c',
         In (if contains n (columns df_sm_subset) then (n ++ "_x")%string else n,
             c') (cols out) /\
         forall r, (r < nrows out)%nat ->
           nth r c' NA = nth (fst (nth r rows (O, None))) c NA) /\
    (exists c',
        In ("SITE", c') (cols out) /\
        forall r, (r < nrows out)%nat -> nth r c' NA = Str station) /\
    (forall n c, In (n, c) (cols df_sm_subset) ->
       n <> "SITE" -> n <> "SITE_x" -> n <> "SITE_y" ->
       exists c',
         In (if contains n (columns remote) then (n ++ "_y")%string else n, c')
            (cols out) /\
         forall r, (r < nrows out)%nat ->
           nth r c' NA = match snd (nth r rows (O, None)) with
                         | Some g => nth g c NA
                         | None => NA
                         end) /\
    (forall n' c', In (n', c') (cols out) ->
       (exists n c,
           In (n, c) (cols remote) /\
           forall r, (r < nrows out)%nat ->
             nth r c' NA = nth (fst (nth r rows (O, None))) c NA) \/
       (exists n c,
           In (n, c) (cols df_sm_subset) /\
           forall r, (r < nrows out)%nat ->
             nth r c' NA = match snd (nth r rows (O, None)) with
                           | Some g => nth g c NA
                           | None => NA
                           end)) /\
    well_formed out /\
    (forall v collection bands,
       In (v, (collection, bands)) (gap_requests s) -> In v variable_list ->
       exists c',
         In (if contains v (columns df_sm_subset) then (v ++ "_x")%string else v,
             c') (cols out) /\
         forall r, (r < nrows out)%nat ->
           ~ In (nth r (index out) 0%Z)
                (observed_days
                   (ee collection first_day last_day bands lon lat)) ->
           nth r c' NA = Num nan).
Proof.
  intros Hsite Hreq.
  destruct (assemble_variables_tables ee lon lat first_day last_day
              variable_list station s Hreq)
    as (tables & Hfetch & Hcols & Hall & Hrun).
  change (outcome (assemble_variables ee lon lat first_day last_day
                     variable_list station s)
          = inr (assembled (date_range first_day last_day) tables station))
    in Hrun.
  pose proof (site_table_outcome ee s variable_list df_sm_subset station
                lon lat first_day last_day tables Hsite Hcols Hall Hrun)
    as Hout.
  set (calendar := date_range first_day last_day) in *.
  set (remote := assembled calendar tables station) in *.
  set (j := left_join calendar (index df_sm_subset)) in *.
  set (left_rows := map (fun row : join_row => fst (snd row)) j).
  set (right_rows := map (fun row : join_row => snd (snd row)) j).
  match type of Hout with _ = inr ?t => set (out := t) in * end.
  destruct (left_join_row_maps (A := cell) calendar (index df_sm_subset))
    as (rows & Hlen & Hrow & Hcomplete & Hleft & Hright).
  fold j in Hlen, Hrow, Hleft, Hright. fold left_rows in Hleft.
  fold right_rows in Hright.
  assert (Hnrows : nrows out = List.length rows).
  { unfold nrows, out. cbn [index]. rewrite length_map. symmetry. exact Hlen. }
  assert (Hlabels : index out =
            flat_map
              (fun d => repeat d
                          (Nat.max 1 (count_occ Z.eq_dec (index df_sm_subset) d)))
              calendar).
  { unfold out. cbn [index]. apply left_join_labels. }
  exists remote, out, rows.
  split; [exact Hrun|]. split; [reflexivity|]. split; [exact Hout|].
  split; [exact Hlabels|]. split; [|split; [|split; [|split; [|split]]]].
  - intros d Hd. rewrite Hlabels in Hd. apply in_flat_map in Hd.
    destruct Hd as (d' & Hcal & Hrep). apply repeat_spec in Hrep. subst d.
    apply date_range_In. exact Hcal.
  - intros Hnd.
    assert (Hcal : index out = calendar).
    { rewrite Hlabels. apply repeat_once_flat_map. exact Hnd. }
    split; [exact Hcal|]. intros Hdays. unfold nrows.
    rewrite Hcal. apply Permutation_length.
    apply NoDup_Permutation; [apply date_range_NoDup | exact Hnd |].
    intros d. unfold calendar. rewrite date_range_In, Hdays. tauto.
  - symmetry. exact Hnrows.
  - intros r Hr. rewrite Hnrows in Hr.
    destruct (Hrow r Hr) as (Hi & Hlabel & Hg). cbv zeta.
    assert (Hday : nth (fst (nth r rows (O, None))) calendar 0%Z
                   = (first_day + Z.of_nat (fst (nth r rows (O, None))))%Z)
      by (apply date_range_nth; exact Hi).
    rewrite Hday in Hlabel, Hg. split; [exact Hi|].
    split; [exact Hlabel | exact Hg].
  - intros g Hg Hdate. rewrite Hnrows. apply Hcomplete; [exact Hg|].
    apply date_range_In. exact Hdate.
  - split; [|split; [|split; [|split; [|split]]]].
    + intros n c Hc Hne. eexists. split.
      * exact (out_remote_column variable_list df_sm_subset station
                 first_day last_day tables Hcols n c Hc Hne).
      * intros r Hr. rewrite Hnrows in Hr. apply Hleft. exact Hr.
    + eexists. split.
      * exact (out_site_column df_sm_subset station first_day last_day
                 tables Hsite).
      * intros r Hr. rewrite Hnrows in Hr. fold j. fold left_rows.
        rewrite (Hleft _ r Hr).
        destruct (Hrow r Hr) as (Hi & _).
        rewrite (nth_indep _ NA (Str station))
          by (rewrite repeat_length; exact Hi).
        apply nth_repeat.
    + intros n c Hc Hne Hx Hy. eexists. split.
      * exact (out_ground_column variable_list df_sm_subset station
                 first_day last_day tables Hcols n c Hc Hne Hx Hy).
      * intros r Hr. rewrite Hnrows in Hr. apply Hright. exact Hr.
    + intros n' c' Hin. unfold out, remote, calendar in Hin.
      cbn [cols] in Hin.
      apply filter_In in Hin. destruct Hin as [Hin _].
      rewrite (merged_cols df_sm_subset station first_day last_day tables)
        in Hin.
      apply in_app_or in Hin.
      destruct Hin as [Hin | Hin]; apply in_map_iff in Hin;
        destruct Hin as ([n c] & Heq & Hc); cbn [fst snd] in Heq;
        injection Heq as _ <-; [left | right]; exists n, c;
        (split; [exact Hc|]); intros r Hr; rewrite Hnrows in Hr;
        [apply Hleft | apply Hright]; exact Hr.
    + unfold well_formed. rewrite Forall_forall. intros [n' c'] Hin.
      cbn [snd]. unfold out, remote, calendar in Hin. cbn [cols] in Hin.
      apply filter_In in Hin. destruct Hin as [Hin _].
      rewrite (merged_cols df_sm_subset station first_day last_day tables)
        in Hin.
      rewrite Hnrows, Hlen.
      apply in_app_or in Hin.
      destruct Hin as [Hin | Hin]; apply in_map_iff in Hin;
        destruct Hin as ([n c] & Heq & Hc); cbn [fst snd] in Heq;
        injection Heq as _ <-; rewrite take_length, length_map; reflexivity.
    + intros v collection bands Hv Hin.
      destruct (fetched_gaps ee lon lat first_day last_day variable_list s
                  tables v collection bands Hfetch Hv Hin)
        as (table & column & Htable & Hcolumn & Hgap).
      assert (Hc : In (v, map Num column) (cols remote)).
      { unfold remote, assembled. cbn [cols]. apply in_or_app. left.
        apply in_map_iff. exists (v, column). split; [reflexivity|].
        apply in_concat. exists (cols table).
        split; [apply in_map; exact Htable | exact Hcolumn]. }
      assert (Hne : v <> "SITE").
      { intros ->. unfold gap_requests in Hv. apply in_app_or in Hv.
        destruct Hv as [Hv | Hv].
        - simpl in Hv. intuition discriminate.
        - destruct (interpolate_index s); simpl in Hv; intuition discriminate. }
      eexists. split.
      * exact (out_remote_column variable_list df_sm_subset station
                 first_day last_day tables Hcols v _ Hc Hne).
      * intros r Hr Hno. rewrite Hnrows in Hr. fold j. fold left_rows.
        rewrite (Hleft _ r Hr).
        destruct (Hrow r Hr) as (Hi & Hlabel & _).
        change (@NA cell _) with (Num nan). rewrite map_nth. f_equal.
        apply Hgap; [exact Hi|].
        replace (nth r (index out) 0%Z) with
          (first_day + Z.of_nat (fst (nth r rows (O, None))))%Z in Hno;
          [exact Hno|].
        unfold out. cbn [index]. fold j. rewrite Hlabel.
        symmetry. apply date_range_nth. exact Hi.
Qed.

Lemma site_table_rows_witness :
  In "SITE" (columns icos_ground) /\
  requests_a_table ["NDVI"] /\
  exists out ndvi,
    outcome (site_table (fun _ _ _ => two_band_rows)
               (mkSettings ["NDVI"] false false) icos_ground ["NDVI"] "DE-Hai"
               (mkMeta (Some 10.45%float) (Some 51.08%float)
                  (Some 0%Z) (Some 2%Z)))
    = inr out /\
    index out = [0; 1; 2]%Z /\
    In ("NDVI", ndvi) (cols out) /\
    nth 1 ndvi NA = Num nan.
Proof.
  assert (Hsite : In "SITE" (columns icos_ground)) by (left; reflexivity).
  assert (Hreq : requests_a_table ["NDVI"]).
  { exists "NDVI". split; [|left; reflexivity].
    right. right. right. left. reflexivity. }
  split; [exact Hsite|]. split; [exact Hreq|].
  destruct (site_table_rows (fun _ _ _ => two_band_rows)
              (mkSettings ["NDVI"] false false) icos_ground ["NDVI"] "DE-Hai"
              10.45%float 51.08%float 0%Z 2%Z Hsite Hreq)
    as (remote & out & rows & _ & _ & Hrun & Hidx & _ & _ & _ & _ & _ & _ & _
        & _ & _ & _ & Hgaps).
  destruct (Hgaps "NDVI" "COPERNICUS/S2_SR" ["B4"; "B8"])
    as (ndvi & Hcol & Hmissing);
    [right; right; right; right; right; left; reflexivity
    | left; reflexivity |].
  exists out, ndvi. split; [exact Hrun|].
  assert (Hlabels : index out = [0; 1; 2]%Z) by (rewrite Hidx; reflexivity).
  split; [exact Hlabels|]. split; [exact Hcol|].
  apply Hmissing.
  - unfold nrows. rewrite Hlabels. simpl. lia.
  - rewrite Hlabels. simpl. intros [H | [H | []]]; discriminate.
Defined.

(** ** The columns of the compiled table *)


Section LoopColumns.
Variable ee : service.
Variable s : settings.
Variable df_sm : DataFrame cell.
Variable variable_list : list string.
Hypothesis Hsite : In "SITE" (columns df_sm).
Hypothesis Hreq : requests_a_table variable_list.




End LoopColumns.


